(** * Price Monitor Pro: the price-acquisition engine of [electron-app/src/main.js]

    A shallow embedding of the rate limiter, the response cache, the two
    scraping entry points, the ordered-rule extractors, the fallback price
    generators, the per-product check of [checkAllPrices] and the
    [add-product] handler, followed by the properties established for them.

    Conventions of the embedding.
    - A JavaScript string is a [string] of 8-bit characters (code units below
      256); [charCodeAt], [toLowerCase] and [toUpperCase] are the ASCII ones.
    - A JavaScript number holding a price is an exact rational ([Q]), the
      decimal value its double stands for; the 32-bit integer produced by the
      bit operations of the hash is a [Z] with the wrap-around written out.
      Every threshold the extractors compare a price with is an integer.
      The tests and the percentage of the two alerts are computed in IEEE 754
      binary64 ([Double]), on the doubles nearest to the prices.
    - [Date.now()] is the field [clock] of the process state, in milliseconds;
      [setTimeout] advances it by exactly the requested delay.
    - [String.prototype.match], [RegExp.prototype.exec], [new URL] and
      [encodeURIComponent] belong to the runtime: they are parameters of the
      sections that use them, and the pattern tables of the source are
      enumerated by [Regex]. *)

From Stdlib Require Import ZArith QArith Qround String Ascii List Bool Lia DecimalString SpecFloat Sorted.
From stdpp Require Import base gmap strings list.

Local Open Scope string_scope.

(** ** Strings *)

Module Js.

Definition isUpper (c : ascii) : bool :=
  let n := nat_of_ascii c in (65 <=? n)%nat && (n <=? 90)%nat.

Definition isLower (c : ascii) : bool :=
  let n := nat_of_ascii c in (97 <=? n)%nat && (n <=? 122)%nat.

Definition isDigit (c : ascii) : bool :=
  let n := nat_of_ascii c in (48 <=? n)%nat && (n <=? 57)%nat.

Definition lowerChar (c : ascii) : ascii :=
  if isUpper c then ascii_of_nat (nat_of_ascii c + 32) else c.

Definition upperChar (c : ascii) : ascii :=
  if isLower c then ascii_of_nat (nat_of_ascii c - 32) else c.

(** [s.toLowerCase()] *)
Fixpoint toLowerCase (s : string) : string :=
  match s with
  | EmptyString => EmptyString
  | String c t => String (lowerChar c) (toLowerCase t)
  end.

(** [s.includes(needle)] *)
Fixpoint includes (s needle : string) : bool :=
  String.prefix needle s
  || match s with
     | EmptyString => false
     | String _ t => includes t needle
     end.

(** [s.charAt(0).toUpperCase() + s.slice(1)] *)
Definition capitalize (s : string) : string :=
  match s with
  | EmptyString => EmptyString
  | String c t => String (upperChar c) t
  end.

(** [s.replace(/[^a-z0-9]/g, '')] *)
Fixpoint keepAlnum (s : string) : string :=
  match s with
  | EmptyString => EmptyString
  | String c t =>
      if isLower c || isDigit c then String c (keepAlnum t) else keepAlnum t
  end.

(** [ToInt32]: the value of a number after a bit operation. *)
Definition toInt32 (z : Z) : Z := ((z + 2 ^ 31) mod 2 ^ 32 - 2 ^ 31)%Z.

(** [Date.now() - t < d] and friends are on integers; prices compare in [Q]. *)
Definition Qltb (a b : Q) : bool := negb (Qle_bool b a).
Definition Qleb (a b : Q) : bool := Qle_bool a b.

(** Truthiness of a number: [0] is falsy. *)
Definition truthy (q : Q) : bool := negb (Qeq_bool q 0%Q).

End Js.

(** ** Double-precision numbers *)

(** IEEE 754 binary64 with the operations of [SpecFloat]: rounding to
    nearest, ties to even. *)
Module Double.

Definition prec : Z := 53%Z.
Definition emax : Z := 1024%Z.

(** The double nearest to a rational: what a decimal literal or
    [parseFloat] gives for that value. *)
Definition ofQ (q : Q) : spec_float :=
  match Qnum q with
  | Z0 => S754_zero false
  | Zpos n => SFdiv prec emax (S754_finite false n 0) (S754_finite false (Qden q) 0)
  | Zneg n => SFdiv prec emax (S754_finite true n 0) (S754_finite false (Qden q) 0)
  end.

Definition sub : spec_float -> spec_float -> spec_float := SFsub prec emax.
Definition div : spec_float -> spec_float -> spec_float := SFdiv prec emax.
Definition mul : spec_float -> spec_float -> spec_float := SFmul prec emax.

(** [a < b] and [a <= b]; both are false when an operand is [NaN]. *)
Definition ltb : spec_float -> spec_float -> bool := SFltb.
Definition leb : spec_float -> spec_float -> bool := SFleb.

(** Truthiness of a number: [0], [-0] and [NaN] are falsy. *)
Definition truthy (x : spec_float) : bool :=
  match x with
  | S754_zero _ | S754_nan => false
  | _ => true
  end.

End Double.

(** ** The value resolved by the scrapers *)

(** [{title, price}]; [r_title = None] is a [title] that is [undefined]. *)
Record Result := mkResult { r_title : option string; r_price : Q }.

(** ** Fallback price generator (main.js 913-1002) *)

(** The loop of lines 919-924:
    [hash = ((hash << 5) - hash) + char; hash = hash & hash]. *)
Definition hashStep (hash : Z) (c : ascii) : Z :=
  let sum := (Js.toInt32 (Z.shiftl hash 5) - hash + Z.of_nat (nat_of_ascii c))%Z in
  Js.toInt32 (Z.land sum sum).

Fixpoint hashLoop (hash : Z) (s : string) : Z :=
  match s with
  | EmptyString => hash
  | String c t => hashLoop (hashStep hash c) t
  end.

Definition hashOf (s : string) : Z := hashLoop 0 s.

(** The names every object literal inherits from [Object.prototype]: looked
    up in [platformMultiplier] they give a function or an object, which is
    truthy and no number, so that the price computed from it is [NaN]. *)
Definition inheritedKey (platform : string) : bool :=
  existsb (String.eqb platform)
    ("constructor" :: "hasOwnProperty" :: "isPrototypeOf" :: "propertyIsEnumerable"
     :: "toLocaleString" :: "toString" :: "valueOf" :: "__proto__"
     :: "__defineGetter__" :: "__defineSetter__" :: "__lookupGetter__"
     :: "__lookupSetter__" :: nil).

(** The object literal [platformMultiplier], looked up by a key that is not
    an [inheritedKey]: an own key gives its number, any other key
    [undefined].  [scrapeFirstResultPrice] reaches the generator with the
    five own keys only. *)
Definition platformMultiplier (platform : string) : option Q :=
  if String.eqb platform "ebay" then Some (85 # 100)
  else if String.eqb platform "amazon" then Some 1%Q
  else if String.eqb platform "walmart" then Some (90 # 100)
  else if String.eqb platform "bestbuy" then Some (95 # 100)
  else if String.eqb platform "target" then Some (95 # 100)
  else None.

(** [(Math.abs(hash) % n) - k] *)
Definition variationOf (hash n k : Z) : Z := (Z.rem (Z.abs hash) n - k)%Z.

Definition getSearchFallbackPrice (searchTerms platform : string) : Result :=
  let fallbackTitle := searchTerms ++ " - " ++ Js.capitalize platform ++ " Result" in
  let hash := hashOf searchTerms in
  let terms := Js.toLowerCase searchTerms in
  let priceMultiplier := default 1%Q (platformMultiplier platform) in
  let answer (fallbackPrice : Z) := mkResult (Some fallbackTitle) (inject_Z fallbackPrice) in
  if Js.includes terms "iphone" || Js.includes terms "phone" then
    let basePrice := Qfloor (350 * priceMultiplier)%Q in
    if Js.includes terms "pro max" || Js.includes terms "15" || Js.includes terms "14" then
      answer (basePrice + 400 + variationOf hash 200 100)%Z
    else if Js.includes terms "13" || Js.includes terms "12" then
      answer (basePrice + 50 + variationOf hash 150 75)%Z
    else
      answer (basePrice + variationOf hash 100 50)%Z
  else if Js.includes terms "macbook" || Js.includes terms "laptop" then
    let basePrice := Qfloor (1000 * priceMultiplier)%Q in
    if Js.includes terms "pro" || Js.includes terms "m3" || Js.includes terms "m2" then
      answer (basePrice + 500 + variationOf hash 500 250)%Z
    else
      answer (basePrice + variationOf hash 300 150)%Z
  else if Js.includes terms "airpods" || Js.includes terms "headphone"
          || Js.includes terms "earbuds" then
    let basePrice := Qfloor (120 * priceMultiplier)%Q in
    if Js.includes terms "pro" || Js.includes terms "max" then
      answer (basePrice + 150 + variationOf hash 100 50)%Z
    else
      answer (basePrice + variationOf hash 50 25)%Z
  else
    let estimatedPrice : Q :=
      if Js.includes terms "gaming" || Js.includes terms "professional"
         || Js.includes terms "premium" then 200%Q
      else if Js.includes terms "budget" || Js.includes terms "cheap"
              || Js.includes terms "basic" then 25%Q
      else 50%Q in
    let basePrice := Qfloor (estimatedPrice * priceMultiplier)%Q in
    let variation :=
      (Z.rem (Z.abs hash) (Z.max 20 (Qfloor (inject_Z basePrice * (4 # 10))%Q))
       - Qfloor (inject_Z basePrice * (2 # 10))%Q)%Z in
    answer (Z.max 10 (basePrice + variation)).


(** ** Fallback price of a product URL (main.js 1165-1220) *)

Definition getFallbackPrice (url : string) : Q :=
  let hash := hashOf url in
  let onEbay := Js.includes url "ebay" in
  if Js.includes url "iphone" || Js.includes url "iPhone" then
    if Js.includes url "128gb" || Js.includes url "128GB" then
      let basePrice := if onEbay then 360%Z else 380%Z in
      inject_Z (basePrice + variationOf hash 60 30)
    else if Js.includes url "64gb" || Js.includes url "64GB" then
      let basePrice := if onEbay then 280%Z else 320%Z in
      inject_Z (basePrice + variationOf hash 40 20)
    else
      let basePrice := if onEbay then 300%Z else 350%Z in
      inject_Z (basePrice + variationOf hash 100 50)
  else if Js.includes url "laptop" || Js.includes url "macbook" then
    let basePrice := if onEbay then 800%Z else 1000%Z in
    inject_Z (basePrice + variationOf hash 200 100)
  else if Js.includes url "headphone" || Js.includes url "airpods" then
    let basePrice := if onEbay then 100%Z else 130%Z in
    inject_Z (basePrice + variationOf hash 30 15)
  else
    let basePrice := if onEbay then 35%Z else 50%Z in
    inject_Z (Z.max 10 (basePrice + variationOf hash 20 10)).

(** ** Numbers read out of captured text *)

Module Num.

Fixpoint readDigits (s : string) : list Z * string :=
  match s with
  | String c t =>
      if Js.isDigit c then
        let '(ds, rest) := readDigits t in
        ((Z.of_nat (nat_of_ascii c) - 48)%Z :: ds, rest)
      else (nil, s)
  | EmptyString => (nil, s)
  end.

Definition numeral (ds : list Z) : Z := fold_left (fun acc d => (10 * acc + d)%Z) ds 0%Z.

(** [parseFloat(s)] on text made of decimal digits and at most one dot, which
    is what every capturing group of the source's patterns can hold; [None]
    is [NaN]. *)
Definition parseFloat (s : string) : option Q :=
  let '(whole, rest) := readDigits s in
  let frac :=
    match rest with
    | String "." t => fst (readDigits t)
    | _ => nil
    end in
  match whole, frac with
  | nil, nil => None
  | _, _ => Some (Qmake (numeral (whole ++ frac)) (Z.to_pos (10 ^ Z.of_nat (length frac))))
  end.

(** [isNaN(s)] for such text: [Number(s)] is a number when [s] is all digits
    with at most one dot (the empty text converts to [0]). *)
Definition isNaN (s : string) : bool :=
  let '(_, rest) := readDigits s in
  match rest with
  | EmptyString => false
  | String "." t => negb (String.eqb (snd (readDigits t)) "") || String.eqb s "."
  | _ => true
  end.

End Num.

(** ** The pattern tables *)

(** The arrays of regular expressions of [extractFirstResultWithTitle]
    (lines 672-695, 738-757, 789-797, 828-836, 867-874), the arrays of global
    patterns of [extractPriceFromHtml] (lines 1047-1071, 1091-1110) and the
    title patterns (lines 721-723, 775-777). *)
Inductive Table : Type :=
| amazonSelectors | ebaySelectors | walmartSelectors | bestbuySelectors | targetSelectors
| amazonPatterns | ebayPatterns
| amazonTitles | ebayTitles.

(** [Re t i] is the pattern at index [i] of table [t]. *)
Inductive Regex : Type := Re (t : Table) (i : nat).

Definition tableLength (t : Table) : nat :=
  match t with
  | amazonSelectors => 13 | ebaySelectors => 11 | walmartSelectors => 6
  | bestbuySelectors => 7 | targetSelectors => 6
  | amazonPatterns => 14 | ebayPatterns => 11
  | amazonTitles => 3 | ebayTitles => 3
  end.

Definition table (t : Table) : list Regex := List.map (Re t) (seq 0 (tableLength t)).

(** What [html.match(pattern)] gives for a pattern without the [g] flag:
    [None] is [null], otherwise the captures [match[1]] and [match[2]]
    ([None] when the pattern has no second group). *)
Definition Match : Type := (string * option string)%type.

(** The value returned by [extractFirstResultWithTitle]: [null], a bare
    number, or an object [{title, price}]. *)
Inductive Extracted : Type :=
| ExNull
| ExNumber (price : Q)
| ExObject (title : string) (price : Q).

Section Extraction.

(** [html.match(pattern)] *)
Variable jsMatch : Regex -> string -> option Match.
(** The captures [match[1]] of the successive [pattern.exec(html)] of a
    global pattern, until [exec] gives [null]. *)
Variable execAll : Regex -> string -> list string.
(** [s.trim()] *)
Variable trim : string -> string.

(** Lines 702-708: [match[2] && !isNaN(match[2])] chooses between
    [parseFloat(`${match[1]}.${match[2]}`)] and [parseFloat(match[1])]. *)
Definition wholeAndFraction (m : Match) : option Q :=
  match m with
  | (m1, Some m2) =>
      if negb (String.eqb m2 "") && negb (Num.isNaN m2)
      then Num.parseFloat (m1 ++ "." ++ m2)
      else Num.parseFloat m1
  | (m1, None) => Num.parseFloat m1
  end.

(** eBay, lines 763: [parseFloat(match[1])]. *)
Definition wholeOnly (m : Match) : option Q := Num.parseFloat (fst m).

(** The query-sensitive minimum (lines 712-717, 766-771, 810-815, ...). *)
Definition minPriceFor (searchTerms : string) (laptop phone : Q) : Q :=
  let lower := Js.toLowerCase searchTerms in
  if Js.includes lower "macbook" || Js.includes lower "laptop" then laptop
  else if Js.includes lower "iphone" || Js.includes lower "phone" then phone
  else 50%Q.

(** Lines 710 and 719: the band [10..5000], then the minimum. *)
Definition amazonValid (searchTerms : string) (price : Q) : bool :=
  (Js.Qleb 10 price && Js.Qleb price 5000)
  && Js.Qleb (minPriceFor searchTerms 400 100) price.

(** Line 773. *)
Definition ebayValid (searchTerms : string) (price : Q) : bool :=
  Js.Qleb (minPriceFor searchTerms 500 150) price && Js.Qleb price 5000.

(** Lines 817, 856, 894. *)
Definition storeValid (searchTerms : string) (price : Q) : bool :=
  Js.Qleb (minPriceFor searchTerms 400 100) price && Js.Qleb price 5000.

(** [html.match(t0) || html.match(t1) || html.match(t2)], then
    [titleMatch ? titleMatch[1].trim() : fallback]. *)
Definition titleOf (titles : Table) (html fallback : string) : string :=
  let tryAt i := jsMatch (Re titles i) html in
  let titleMatch :=
    match tryAt 0%nat with
    | Some m => Some m
    | None => match tryAt 1%nat with
              | Some m => Some m
              | None => tryAt 2%nat
              end
    end in
  match titleMatch with
  | Some m => trim (fst m)
  | None => fallback
  end.

(** The [for] loop over a table of selectors: a pattern that does not match,
    or whose candidate is refused ([NaN] fails every comparison), falls
    through to the next index; the first accepted candidate is returned
    from inside the loop. *)
Fixpoint selectorLoop (html : string) (candidate : Match -> option Q)
    (valid : Q -> bool) (found : Q -> Extracted)
    (selectors : list Regex) : Extracted :=
  match selectors with
  | nil => ExNull
  | pattern :: rest =>
      match jsMatch pattern html with
      | Some m =>
          match candidate m with
          | Some price =>
              if valid price then found price
              else selectorLoop html candidate valid found rest
          | None => selectorLoop html candidate valid found rest
          end
      | None => selectorLoop html candidate valid found rest
      end
  end.

Definition extractFirstResultWithTitle (html platform searchTerms : string) : Extracted :=
  if String.eqb platform "amazon" then
    selectorLoop html wholeAndFraction (amazonValid searchTerms)
      (fun price => ExObject (titleOf amazonTitles html (searchTerms ++ " - Amazon Result")) price)
      (table amazonSelectors)
  else if String.eqb platform "ebay" then
    selectorLoop html wholeOnly (ebayValid searchTerms)
      (fun price => ExObject (titleOf ebayTitles html (searchTerms ++ " - eBay Result")) price)
      (table ebaySelectors)
  else if String.eqb platform "walmart" then
    selectorLoop html wholeAndFraction (storeValid searchTerms) ExNumber (table walmartSelectors)
  else if String.eqb platform "bestbuy" then
    selectorLoop html wholeAndFraction (storeValid searchTerms) ExNumber (table bestbuySelectors)
  else if String.eqb platform "target" then
    selectorLoop html wholeAndFraction (storeValid searchTerms) ExNumber (table targetSelectors)
  else ExNull.

(** *** [extractPriceFromHtml] (lines 1037-1163) *)

(** The body of [forEach]: every capture of the pattern that parses into
    the band [50..1500]. *)
Definition patternPrices (html : string) (pattern : Regex) : list Q :=
  List.filter (fun price => Js.Qleb 50 price && Js.Qleb price 1500)
    (omap Num.parseFloat (execAll pattern html)).

(** [[...new Set(prices)]]: first occurrences, in order. *)
Fixpoint unique (seen prices : list Q) : list Q :=
  match prices with
  | nil => nil
  | p :: rest =>
      if existsb (Qeq_bool p) seen then unique seen rest
      else p :: unique (p :: seen) rest
  end.

(** [.sort((a, b) => a - b)] *)
Fixpoint insertSorted (p : Q) (sorted : list Q) : list Q :=
  match sorted with
  | nil => p :: nil
  | q :: rest => if Js.Qleb p q then p :: sorted else q :: insertSorted p rest
  end.

Definition sortAscending (prices : list Q) : list Q :=
  fold_right insertSorted nil prices.

(** [iPhonePrices.length > 0 ? iPhonePrices[0] : prices[0]] *)
Definition preferBand (lo hi : Q) (prices : list Q) : option Q :=
  match List.filter (fun p => Js.Qleb lo p && Js.Qleb p hi) prices with
  | p :: _ => Some p
  | nil => head prices
  end.

(** Lines 1041-1126: the array [prices] before it is deduplicated. *)
Definition collectPrices (html url : string) : list Q :=
  if Js.includes url "amazon." then flat_map (patternPrices html) (table amazonPatterns)
  else if Js.includes url "ebay." then flat_map (patternPrices html) (table ebayPatterns)
  else nil.

(** [None] is [null]. *)
Definition extractPriceFromHtml (html url : string) : option Q :=
  let prices := sortAscending (unique nil (collectPrices html url)) in
  match prices with
  | nil => None
  | _ :: _ =>
      if Js.includes url "iphone" || Js.includes url "iPhone" then
        if Js.includes url "128gb" || Js.includes url "128GB" then preferBand 300 700 prices
        else preferBand 200 900 prices
      else head prices
  end.

End Extraction.

(** ** Process state *)

(** An entry of [priceCache]: [scrapeFirstResultPrice] stores
    [{title, price, timestamp}], [scrapePrice] stores [{price, timestamp}]. *)
Record CacheEntry := mkEntry {
  c_title : option string;
  c_price : Q;
  c_timestamp : Z
}.

(** What one HTTP request comes to. *)
Inductive Body : Type :=
| BodyEnd (html : string)      (* the stream ended; the decoded text *)
| BodyError.                   (* the stream emitted 'error' *)

Inductive Outcome : Type :=
| Responded (statusCode : Z) (body : Body)
| TimedOut                     (* 'timeout' after 15 s *)
| Failed.                      (* 'error' on the request *)

Record Exchange := mkExchange { elapsed : Z; outcome : Outcome }.

(** [clock] is [Date.now()]; [limiter] is [rateLimiter.requests]; [network]
    tells what the n-th request issued by the process comes to, and [sent]
    counts the requests issued so far. *)
Record World := mkWorld {
  clock : Z;
  limiter : gmap string (list Z);
  priceCache : gmap string CacheEntry;
  network : nat -> Exchange;
  sent : nat
}.

(** ** Rate limiter (main.js 336-363) *)

Record RateLimiter := mkLimiter { maxRequests : nat; windowMs : Z }.

(** [new RateLimiter(5, 60000)] *)
Definition rateLimiter : RateLimiter := mkLimiter 5 60000.

(** [waitIfNeeded(key)], awaited: the timestamps kept are those less than
    [windowMs] old at entry; when [maxRequests] of them remain the call sleeps
    once, until the oldest is [windowMs] old; then it appends [now], the time
    read at entry, and stores the list. *)
Definition waitIfNeeded (rl : RateLimiter) (key : string) (w : World) : World :=
  let now := clock w in
  let requests := default nil (limiter w !! key) in
  let recentRequests := List.filter (fun time => (now - time <? windowMs rl)%Z) requests in
  let waitTime :=
    if (maxRequests rl <=? length recentRequests)%nat then
      match recentRequests with
      | oldestRequest :: _ => (windowMs rl - (now - oldestRequest))%Z
      | nil => 0%Z
      end
    else 0%Z in
  mkWorld (now + waitTime)%Z (<[key := (recentRequests ++ now :: nil)%list]> (limiter w))
          (priceCache w) (network w) (sent w).

(** ** The scrapers *)

Definition supported (platform : string) : bool :=
  String.eqb platform "amazon" || String.eqb platform "ebay"
  || String.eqb platform "walmart" || String.eqb platform "bestbuy"
  || String.eqb platform "target".

(** [extractedResult && extractedResult.price > 0]: [null] is falsy; the
    property [price] of a number is [undefined], and [undefined > 0] is
    false; an object is accepted when its [price] is positive. *)
Definition accepted (e : Extracted) : option (string * Q) :=
  match e with
  | ExObject title price => if Js.Qltb 0 price then Some (title, price) else None
  | ExNumber _ | ExNull => None
  end.

(** Issue the next request: it takes [elapsed] and comes to [outcome]. *)
Definition request (w : World) : Outcome * World :=
  let x := network w (sent w) in
  (outcome x, mkWorld (clock w + elapsed x)%Z (limiter w) (priceCache w) (network w) (S (sent w))).

Definition cacheSet (key : string) (entry : CacheEntry) (w : World) : World :=
  mkWorld (clock w) (limiter w) (<[key := entry]> (priceCache w)) (network w) (sent w).

(** [cachedResult && (Date.now() - cachedResult.timestamp) < 300000] *)
Definition cacheGet (key : string) (w : World) : option CacheEntry :=
  match priceCache w !! key with
  | Some cachedResult =>
      if (clock w - c_timestamp cachedResult <? 300000)%Z then Some cachedResult else None
  | None => None
  end.

Section Scrapers.

Variable jsMatch : Regex -> string -> option Match.
Variable execAll : Regex -> string -> list string.
Variable trim : string -> string.
(** [new URL(url).hostname]; [None] when the constructor throws. *)
Variable hostnameOf : string -> option string.

(** [scrapeFirstResultPrice(searchTerms, platform)] (lines 366-525), awaited;
    [None] is the resolved value [null]. *)
Definition scrapeFirstResultPrice (searchTerms platform : string) (w : World)
    : option Result * World :=
  let w1 := waitIfNeeded rateLimiter platform w in
  if negb (supported platform) then (None, w1)
  else
    let cacheKey := platform ++ "-" ++ searchTerms in
    match cacheGet cacheKey w1 with
    | Some cachedResult =>
        (Some (mkResult (c_title cachedResult) (c_price cachedResult)), w1)
    | None =>
        let '(out, w2) := request w1 in
        let fallback := Some (getSearchFallbackPrice searchTerms platform) in
        match out with
        | Responded statusCode body =>
            if negb (statusCode =? 200)%Z then (fallback, w2)
            else
              match body with
              | BodyEnd html =>
                  match accepted (extractFirstResultWithTitle jsMatch trim html platform searchTerms) with
                  | Some (title, price) =>
                      (Some (mkResult (Some title) price),
                       cacheSet cacheKey (mkEntry (Some title) price (clock w2)) w2)
                  | None => (fallback, w2)
                  end
              | BodyError => (fallback, w2)
              end
        | TimedOut => (fallback, w2)
        | Failed => (fallback, w2)
        end
    end.

(** [scrapePrice(url)] (lines 527-664), awaited, for a [url] that is a
    string.  [extractedPrice && extractedPrice > 0]. *)
Definition scrapePrice (url : string) (w : World) : Q * World :=
  match hostnameOf url with
  | None => (getFallbackPrice url, w)
  | Some hostname =>
      let w1 := waitIfNeeded rateLimiter hostname w in
      let cacheKey := url in
      match cacheGet cacheKey w1 with
      | Some cachedResult => (c_price cachedResult, w1)
      | None =>
          let '(out, w2) := request w1 in
          let fallback := getFallbackPrice url in
          match out with
          | Responded statusCode body =>
              if negb (statusCode =? 200)%Z then (fallback, w2)
              else
                match body with
                | BodyEnd html =>
                    match extractPriceFromHtml execAll html url with
                    | Some extractedPrice =>
                        if Js.truthy extractedPrice && Js.Qltb 0 extractedPrice then
                          (extractedPrice,
                           cacheSet cacheKey (mkEntry None extractedPrice (clock w2)) w2)
                        else (fallback, w2)
                    | None => (fallback, w2)
                    end
                | BodyError => (fallback, w2)
                end
          | TimedOut => (fallback, w2)
          | Failed => (fallback, w2)
          end
      end
  end.

End Scrapers.

(** ** Retry helper (main.js 308-333) *)

(** How an awaited call settles: fulfilled with a value ([None] is [null] or
    [undefined]) or rejected with an error. *)
Inductive Settled (A : Type) : Type :=
| Fulfilled (value : option A)
| Rejected (error : string).
Arguments Fulfilled {A} value.
Arguments Rejected {A} error.

Section Retry.

Context {St A : Type}.
(** [await new Promise(resolve => setTimeout(resolve, delay))] *)
Variable sleep : Z -> St -> St.
(** [await fn()] *)
Variable fn : St -> Settled A * St.
Variable maxRetries : nat.
Variable initialDelay : Z.

(** [initialDelay * Math.pow(2, attempt - 1)] *)
Definition backoff (attempt : nat) : Z := (initialDelay * 2 ^ Z.of_nat (attempt - 1))%Z.

(** The [for] loop from [attempt] on, [remaining] iterations left. *)
Fixpoint retryFrom (attempt remaining : nat) (s : St) : Settled A * St :=
  match remaining with
  | O => (Fulfilled None, s)
  | S remaining' =>
      match fn s with
      | (Fulfilled (Some result), s1) => (Fulfilled (Some result), s1)
      | (Fulfilled None, s1) =>
          if (attempt <? maxRetries)%nat
          then retryFrom (S attempt) remaining' (sleep (backoff attempt) s1)
          else retryFrom (S attempt) remaining' s1
      | (Rejected error, s1) =>
          if (attempt <? maxRetries)%nat
          then retryFrom (S attempt) remaining' (sleep (backoff attempt) s1)
          else (Rejected error, s1)
      end
  end.

Definition retryWithBackoff (s : St) : Settled A * St := retryFrom 1 maxRetries s.

End Retry.

(** ** Products, history and notifications *)

Record HistoryEntry := mkHistory {
  h_price : Q;
  h_platform : option string;
  h_timestamp : Z
}.

Record PlatformResult := mkPlatformResult {
  pr_platform : string;
  pr_title : option string;
  pr_url : string;
  pr_price : Q;
  pr_lastChecked : Z
}.

(** [productData.platforms], by the truthiness of its two fields. *)
Record Platforms := mkPlatforms { amazon : bool; ebay : bool }.

(** A stored product.  The handlers of the source store two shapes: the test
    handlers set [url], [add-product] sets [searchTerms], [platforms],
    [bestPrice], [platformResults], [primaryUrl] and [primaryPlatform]; a
    field a shape does not have is [None] (or the empty list).  [p_id] is
    the number whose decimal text the source stores, and the ISO texts of
    [lastChecked], [createdAt] and [timestamp] are the clock values they
    print. *)
Record Product := mkProduct {
  p_id : Z;
  p_name : string;
  p_url : option string;
  p_searchTerms : option string;
  p_platforms : option Platforms;
  p_targetPrice : option Q;
  p_currentPrice : Q;
  p_bestPrice : option Q;
  p_platformResults : list PlatformResult;
  p_priceHistory : option (list HistoryEntry);
  p_lastChecked : Z;
  p_createdAt : Z;
  p_primaryUrl : option string;
  p_primaryPlatform : option string
}.

Inductive Notification : Type :=
| PriceDrop (name : string) (currentPrice previousPrice : Q) (dropPercent : spec_float)
| TargetReached (name : string) (currentPrice : Q).

(** [APP_CONFIG] *)
Definition maxProductsFree : nat := 3.
Definition priceDropThreshold : Q := 5.

(** [history.slice(-100)] *)
Definition sliceLast (n : nat) {A : Type} (l : list A) : list A := skipn (length l - n) l.

(** Lines 260-262. *)
Definition previousPriceOf (product : Product) : option Q :=
  match p_priceHistory product with
  | Some history => h_price <$> last history
  | None => None
  end.

(** Lines 269-281: push, then keep the last 100. *)
Definition pushHistory (history : option (list HistoryEntry)) (entry : HistoryEntry)
    : list HistoryEntry :=
  let pushed := (default nil history ++ entry :: nil)%list in
  if (100 <? length pushed)%nat then sliceLast 100 pushed else pushed.

(** [((previousPrice - currentPrice) / previousPrice) * 100], as the code
    computes it: in doubles, each operation rounded. *)
Definition dropPercentOf (previousPrice currentPrice : Q) : spec_float :=
  let previous := Double.ofQ previousPrice in
  let current := Double.ofQ currentPrice in
  Double.mul (Double.div (Double.sub previous current) previous) (Double.ofQ 100).

(** Lines 283-290.  [dropPercent >= APP_CONFIG.priceDropThreshold] *)
Definition priceDropAlert (name : string) (previousPrice : option Q) (currentPrice : Q)
    : list Notification :=
  match previousPrice with
  | Some previousPrice =>
      if Double.truthy (Double.ofQ previousPrice)
         && Double.ltb (Double.ofQ currentPrice) (Double.ofQ previousPrice) then
        let dropPercent := dropPercentOf previousPrice currentPrice in
        if Double.leb (Double.ofQ priceDropThreshold) dropPercent
        then PriceDrop name currentPrice previousPrice dropPercent :: nil
        else nil
      else nil
  | None => nil
  end.

(** Lines 292-295. *)
Definition targetAlert (name : string) (targetPrice : option Q) (currentPrice : Q)
    : list Notification :=
  match targetPrice with
  | Some targetPrice =>
      if Double.truthy (Double.ofQ targetPrice)
         && Double.leb (Double.ofQ currentPrice) (Double.ofQ targetPrice)
      then TargetReached name currentPrice :: nil
      else nil
  | None => nil
  end.

(** The body of the loop of [checkAllPrices] for one product (lines 257-296),
    given the value [await scrapePrice(product.url)] settled to ([None] is
    [null]) and the time of the check. *)
Definition checkProduct (now : Z) (scraped : option Q) (product : Product)
    : Product * list Notification :=
  match scraped with
  | None => (product, nil)
  | Some currentPrice =>
      let previousPrice := previousPriceOf product in
      let history := pushHistory (p_priceHistory product) (mkHistory currentPrice None now) in
      (mkProduct (p_id product) (p_name product) (p_url product) (p_searchTerms product)
         (p_platforms product) (p_targetPrice product) currentPrice (p_bestPrice product)
         (p_platformResults product) (Some history) now (p_createdAt product)
         (p_primaryUrl product) (p_primaryPlatform product),
       (priceDropAlert (p_name product) previousPrice currentPrice
        ++ targetAlert (p_name product) (p_targetPrice product) currentPrice)%list)
  end.

Section Scheduler.

Variable execAll : Regex -> string -> list string.
Variable hostnameOf : string -> option string.

(** The loop of [checkAllPrices] (lines 255-300) over the stored products, in
    order.  A product without [url] makes [scrapePrice(undefined)] throw
    inside its own [catch] block, so the awaited promise never settles: the
    loop does not come back, which is [None]. *)
Fixpoint checkEach (products : list Product) (w : World)
    : option (list Product * list Notification * World) :=
  match products with
  | nil => Some (nil, nil, w)
  | product :: rest =>
      match p_url product with
      | None => None
      | Some url =>
          let '(currentPrice, w1) := scrapePrice execAll hostnameOf url w in
          let '(product1, alerts) := checkProduct (clock w1) (Some currentPrice) product in
          match checkEach rest w1 with
          | Some (checked, later, w2) => Some (product1 :: checked, (alerts ++ later)%list, w2)
          | None => None
          end
      end
  end.

(** [checkAllPrices()], awaited: the products written back by
    [store.set('products', products)], the alerts raised and the process
    state. *)
Definition checkAllPrices (products : list Product) (w : World)
    : option (list Product * list Notification * World) :=
  checkEach products w.

End Scheduler.

(** Successive checks of one product: the prices the scraper settled to, each
    with the time of its check; the alerts raised, check by check. *)
Fixpoint checkMany (checks : list (Z * Q)) (product : Product)
    : Product * list (list Notification) :=
  match checks with
  | nil => (product, nil)
  | (now, price) :: rest =>
      let '(product1, alerts) := checkProduct now (Some price) product in
      let '(product2, later) := checkMany rest product1 in
      (product2, alerts :: later)
  end.

(** ** The [add-product] handler (main.js 1304-1449) *)

(** A request of the renderer: the form's two texts, the platform boxes and
    the target price ([None] when the field is left out). *)
Record ProductData := mkData {
  d_searchTerms : string;
  d_name : string;
  d_platforms : option Platforms;
  d_targetPrice : option Q
}.

Inductive Reply : Type :=
| Failure (error : string)
| Success (product : Product).

Definition errInvalid := "Invalid product data".
Definition errMissing := "Missing required fields: search terms and product name".
Definition errPlatform := "Please select at least one platform to search".
Definition errTarget := "Target price must be a valid number greater than 0".
Definition errLimit := "Free version limited to 3 products. Upgrade to Pro for unlimited!".
Definition errDuplicate :=
  "These exact search terms are already being monitored. Try different search terms.".
Definition errNoPrice :=
  "Could not find prices on any selected platform. Please try different search terms.".

(** [(str || '').toLowerCase().replace(/[^a-z0-9]/g, '')] *)
Definition normalize (str : option string) : string :=
  Js.keepAlnum (Js.toLowerCase (default "" str)).

(** Lines 1345-1358. *)
Definition isDuplicate (products : list Product) (searchTerms : string) : bool :=
  existsb (fun p =>
             match p_searchTerms p with
             | Some existing => String.eqb existing searchTerms
             | None => false
             end
             || String.eqb (normalize (p_searchTerms p)) (normalize (Some searchTerms)))
          products.

(** [platformResults.reduce((best, current) =>
       current.price < best.price ? current : best)] *)
Definition bestOf (first : PlatformResult) (others : list PlatformResult) : PlatformResult :=
  fold_left (fun best current => if Js.Qltb (pr_price current) (pr_price best) then current else best)
            others first.

Section AddProduct.

Variable jsMatch : Regex -> string -> option Match.
Variable trim : string -> string.
Variable encodeURIComponent : string -> string.

(** Lines 1370-1398, for one platform: the result is kept when
    [result && result.price]. *)
Definition searchPlatform (enabled : bool) (platform urlPrefix searchTerms : string)
    (w : World) : list PlatformResult * World :=
  if enabled then
    let '(result, w1) := scrapeFirstResultPrice jsMatch trim searchTerms platform w in
    match result with
    | Some r =>
        if Js.truthy (r_price r) then
          (mkPlatformResult platform (r_title r) (urlPrefix ++ encodeURIComponent searchTerms)
             (r_price r) (clock w1) :: nil, w1)
        else (nil, w1)
    | None => (nil, w1)
    end
  else (nil, w).

(** The handler: the reply, the process state and the stored products. *)
Definition addProduct (productData : option ProductData) (w : World) (products : list Product)
    : Reply * World * list Product :=
  match productData with
  | None => (Failure errInvalid, w, products)
  | Some data =>
      if String.eqb (d_searchTerms data) "" || String.eqb (d_name data) "" then
        (Failure errMissing, w, products)
      else
        match d_platforms data with
        | None => (Failure errPlatform, w, products)
        | Some platforms =>
            if negb (amazon platforms) && negb (ebay platforms) then
              (Failure errPlatform, w, products)
            else if match d_targetPrice data with
                    | Some t => Js.truthy t && Js.Qleb t 0
                    | None => false
                    end then
              (Failure errTarget, w, products)
            else if (maxProductsFree <=? length products)%nat then
              (Failure errLimit, w, products)
            else if isDuplicate products (d_searchTerms data) then
              (Failure errDuplicate, w, products)
            else
              let '(fromAmazon, w1) :=
                searchPlatform (amazon platforms) "amazon" "https://www.amazon.com/s?k="
                  (d_searchTerms data) w in
              let '(fromEbay, w2) :=
                searchPlatform (ebay platforms) "ebay" "https://www.ebay.com/sch/i.html?_nkw="
                  (d_searchTerms data) w1 in
              match (fromAmazon ++ fromEbay)%list with
              | nil => (Failure errNoPrice, w2, products)
              | first :: others =>
                  let platformResults := first :: others in
                  let bestResult := bestOf first others in
                  let now := clock w2 in
                  let newProduct :=
                    mkProduct now (d_name data) None (Some (d_searchTerms data))
                      (Some platforms)
                      (match d_targetPrice data with
                       | Some t => if Js.truthy t then Some t else None
                       | None => None
                       end)
                      (pr_price bestResult) (Some (pr_price bestResult)) platformResults
                      (Some (mkHistory (pr_price bestResult) (Some (pr_platform bestResult)) now
                             :: nil))
                      now now (Some (pr_url bestResult)) (Some (pr_platform bestResult)) in
                  (Success newProduct, w2, (products ++ newProduct :: nil)%list)
              end
        end
  end.

End AddProduct.

(** ** Vocabulary of the statements *)

(** A process that has just started: nothing cached, no request recorded. *)
Definition coldStart (net : nat -> Exchange) : World := mkWorld 0 ∅ ∅ net 0.

(** A network on which every request fails at once. *)
Definition quiet : nat -> Exchange := fun _ => mkExchange 0 Failed.

(** A caller that awaits each [waitIfNeeded] before it issues the next: a call
    is issued at its arrival time, or when the previous call returned if that
    is later.  The list gives the time at which each call returned, which is
    when its request goes out. *)
Fixpoint admitAll (key : string) (arrivals : list Z) (w : World) : list Z * World :=
  match arrivals with
  | nil => (nil, w)
  | arrival :: rest =>
      let issued :=
        mkWorld (Z.max (clock w) arrival) (limiter w) (priceCache w) (network w) (sent w) in
      let w1 := waitIfNeeded rateLimiter key issued in
      let '(later, w2) := admitAll key rest w1 in
      (clock w1 :: later, w2)
  end.

(** The number of admissions in the trailing window [(t - window, t]]. *)
Definition admittedWithin (window t : Z) (admissions : list Z) : nat :=
  length (List.filter (fun a => (t - window <? a)%Z && (a <=? t)%Z) admissions).

(** Five calls a second apart, then seven more, each issued as soon as the
    previous one returned. *)
Definition burst : list Z :=
  (0 :: 1000 :: 2000 :: 3000 :: 4000 :: 5000 :: 5000 :: 5000 :: 5000 :: 5000 :: 5000 :: 5000
   :: nil)%Z.

(** The product shape stored by the [test-add-product] handler (lines
    1594-1607). *)
Definition testProduct (name url : string) (targetPrice scrapedPrice : Q) (now : Z) : Product :=
  mkProduct now name (Some url) None None (Some targetPrice) scrapedPrice None nil
    (Some (mkHistory scrapedPrice None now :: nil)) now now None None.

(** The same product before its first recorded check. *)
Definition unchecked (name url : string) (targetPrice : option Q) : Product :=
  mkProduct 0 name (Some url) None None targetPrice 0 None nil None 0 0 None None.

Definition isDrop (n : Notification) : bool :=
  match n with PriceDrop _ _ _ _ => true | TargetReached _ _ => false end.
Definition isTarget (n : Notification) : bool :=
  match n with PriceDrop _ _ _ _ => false | TargetReached _ _ => true end.

(** The history entries a list of checks records. *)
Definition entriesOf (checks : list (Z * Q)) : list HistoryEntry :=
  List.map (fun c => mkHistory (snd c) None (fst c)) checks.

Definition historyOf (product : Product) : list HistoryEntry :=
  default nil (p_priceHistory product).

(** Four checks that find the prices 100, 90, 90 and 85. *)
Definition fourChecks : list (Z * Q) :=
  (1%Z, 100%Q) :: (2%Z, 90%Q) :: (3%Z, 90%Q) :: (4%Z, 85%Q) :: nil.

(** [n] checks, one per millisecond, the i-th at price [i]. *)
Definition manyChecks (n : nat) : list (Z * Q) :=
  List.map (fun i => (Z.of_nat i, inject_Z (Z.of_nat i))) (seq 1 n).

(** The double-quote character. *)
Definition dq : string := String (ascii_of_nat 34) EmptyString.

(** A page whose only price is a bare dollar amount. *)
Definition barePage : string := "Now $499".

(** [html.match] on [barePage]: of the Amazon selectors only the last,
    [/\$(\d{3,4})/i], matches, capturing [499]; no title pattern matches. *)
Definition bareMatch (pattern : Regex) (html : string) : option Match :=
  match pattern with
  | Re amazonSelectors 12 => if String.eqb html barePage then Some ("499", None) else None
  | _ => None
  end.

(** A page whose only price has cents. *)
Definition centsPage : string := "Now $499.00".

(** [html.match] on [centsPage]: the last selector of Walmart, Best Buy and
    Target, [/\$(\d+)\.(\d{2})/i], captures [499] and [00]; the last Amazon
    selector captures [499]; nothing else matches. *)
Definition centsMatch (pattern : Regex) (html : string) : option Match :=
  if String.eqb html centsPage then
    match pattern with
    | Re walmartSelectors 5 | Re bestbuySelectors 6 | Re targetSelectors 5 =>
        Some ("499", Some "00")
    | Re amazonSelectors 12 => Some ("499", None)
    | _ => None
    end
  else None.

(** A page [<span class=Qa-price-wholeQ>12</span> or $499] (Q is the
    double-quote character) and [html.match] on it: the Amazon selector at
    index 10, the bare [a-price-whole] span, captures [12]; the selector at
    index 12 captures [499]; nothing else matches. *)
Definition accessoryPage : string :=
  "<span class=" ++ dq ++ "a-price-whole" ++ dq ++ ">12</span> or $499".

Definition accessoryMatch (pattern : Regex) (html : string) : option Match :=
  if String.eqb html accessoryPage then
    match pattern with
    | Re amazonSelectors 10 => Some ("12", None)
    | Re amazonSelectors 12 => Some ("499", None)
    | _ => None
    end
  else None.

Definition noMatch (pattern : Regex) (html : string) : option Match := None.
Definition noExec (pattern : Regex) (html : string) : list string := nil.

(** A network whose first request times out and whose later requests are
    answered with [barePage]. *)
Definition flaky (n : nat) : Exchange :=
  match n with
  | O => mkExchange 15000 TimedOut
  | S _ => mkExchange 200 (Responded 200 (BodyEnd barePage))
  end.

(** A network that always answers 503. *)
Definition unavailable : nat -> Exchange := fun _ => mkExchange 80 (Responded 503 (BodyEnd "")).

(** The key of [priceCache] used by [scrapeFirstResultPrice]. *)
Definition searchKey (searchTerms platform : string) : string := platform ++ "-" ++ searchTerms.

(** The acquisition finds nothing usable in state [w]: no fresh cache entry
    after the limiter returned, and the request either does not come to a 200
    with a body or its body yields no accepted extraction. *)
Definition findsNothing (jsMatch : Regex -> string -> option Match) (trim : string -> string)
    (searchTerms platform : string) (w : World) : Prop :=
  let w1 := waitIfNeeded rateLimiter platform w in
  cacheGet (searchKey searchTerms platform) w1 = None
  /\ match fst (request w1) with
     | Responded statusCode (BodyEnd html) =>
         (statusCode =? 200)%Z = true ->
         accepted (extractFirstResultWithTitle jsMatch trim html platform searchTerms) = None
     | _ => True
     end.

(** An instrumented state for [retryWithBackoff]: how many times [fn] was
    called and the delays slept, in order. *)
Record Trace := mkTrace { calls : nat; sleeps : list Z }.

Definition sleepTrace (delay : Z) (t : Trace) : Trace :=
  mkTrace (calls t) (sleeps t ++ delay :: nil)%list.

(** An [fn] whose k-th call settles as [script k]. *)
Definition scripted {A : Type} (script : nat -> Settled A) (t : Trace) : Settled A * Trace :=
  (script (calls t), mkTrace (S (calls t)) (sleeps t)).

Definition produced {A : Type} (s : Settled A) : bool :=
  match s with Fulfilled (Some _) => true | _ => false end.

(** The selectors, the candidate price and the test of a platform's loop in
    [extractFirstResultWithTitle]. *)
Definition rulesOf (platform searchTerms : string)
    : option (list Regex * (Match -> option Q) * (Q -> bool)) :=
  if String.eqb platform "amazon" then
    Some (table amazonSelectors, wholeAndFraction, amazonValid searchTerms)
  else if String.eqb platform "ebay" then
    Some (table ebaySelectors, wholeOnly, ebayValid searchTerms)
  else if String.eqb platform "walmart" then
    Some (table walmartSelectors, wholeAndFraction, storeValid searchTerms)
  else if String.eqb platform "bestbuy" then
    Some (table bestbuySelectors, wholeAndFraction, storeValid searchTerms)
  else if String.eqb platform "target" then
    Some (table targetSelectors, wholeAndFraction, storeValid searchTerms)
  else None.

(** The candidate of one rule, when the rule matches and the candidate passes
    the test. *)
Definition tryRule (jsMatch : Regex -> string -> option Match) (html : string)
    (candidate : Match -> option Q) (valid : Q -> bool) (pattern : Regex) : option Q :=
  match jsMatch pattern html with
  | Some m =>
      match candidate m with
      | Some price => if valid price then Some price else None
      | None => None
      end
  | None => None
  end.

(** The validated candidate of the rule at index [i] of the platform. *)
Definition validCandidate (jsMatch : Regex -> string -> option Match)
    (html platform searchTerms : string) (i : nat) : option Q :=
  match rulesOf platform searchTerms with
  | Some (selectors, candidate, valid) =>
      match selectors !! i with
      | Some pattern => tryRule jsMatch html candidate valid pattern
      | None => None
      end
  | None => None
  end.

Definition priceOf (e : Extracted) : option Q :=
  match e with
  | ExNull => None
  | ExNumber price => Some price
  | ExObject _ price => Some price
  end.

(** A product page with the price 500 in the markup of the buy box and the
    price 100 in a data attribute of another element:
    [<span class=QaQ>500</span><b data-price=Q100Q>], where Q stands for the
    double-quote character and a for [a-price-whole]. *)
Definition twoPricePage : string :=
  "<span class=" ++ dq ++ "a-price-whole" ++ dq ++ ">500</span><b data-price="
  ++ dq ++ "100" ++ dq ++ ">".

(** [pattern.exec] on [twoPricePage]: the Amazon patterns at indices 0 and 3
    (the [a-price-whole] span and the generic [a-price] span) capture [500],
    the pattern at index 8 ([data-price]) captures [100], no other pattern
    matches. *)
Definition twoPriceExec (pattern : Regex) (html : string) : list string :=
  if String.eqb html twoPricePage then
    match pattern with
    | Re amazonPatterns 0 => "500" :: nil
    | Re amazonPatterns 3 => "500" :: nil
    | Re amazonPatterns 8 => "100" :: nil
    | _ => nil
    end
  else nil.

(** A network that answers every request with [barePage]. *)
Definition answering : nat -> Exchange :=
  fun _ => mkExchange 200 (Responded 200 (BodyEnd barePage)).

(** A network that answers every request with [centsPage]. *)
Definition answeringCents : nat -> Exchange :=
  fun _ => mkExchange 200 (Responded 200 (BodyEnd centsPage)).

(** The product shape stored by [add-product] for a search on Amazon. *)
Definition tracked (searchTerms : string) : Product :=
  mkProduct 0 searchTerms None (Some searchTerms) (Some (mkPlatforms true false)) None
    100 (Some 100%Q) nil (Some (mkHistory 100 (Some "amazon") 0 :: nil)) 0 0 None
    (Some "amazon").

(** The checks of [add-product] that come before the duplicate check and do
    not look at the stored products. *)
Definition passesValidation (data : ProductData) : bool :=
  negb (String.eqb (d_searchTerms data) "" || String.eqb (d_name data) "")
  && match d_platforms data with
     | Some platforms => amazon platforms || ebay platforms
     | None => false
     end
  && match d_targetPrice data with
     | Some t => negb (Js.truthy t && Js.Qleb t 0)
     | None => true
     end.

Definition isAscii (c : ascii) : bool := (nat_of_ascii c <? 128)%nat.

(** An ASCII character that is neither a letter nor a digit: a space, a
    dash, a punctuation mark, a control character. *)
Definition isSeparator (c : ascii) : bool :=
  isAscii c && negb (Js.isUpper c || Js.isLower c || Js.isDigit c).

Fixpoint allChars (test : ascii -> bool) (s : string) : bool :=
  match s with
  | EmptyString => true
  | String c t => test c && allChars test t
  end.

(** The three field checks of [add-product], one by one (lines 1316, 1325
    and 1330), and the error of the first check that refuses a request whose
    query is a duplicate: the field checks, then the free-tier limit (line
    1336), then the duplicate test (line 1360). *)
Definition fieldsMissing (data : ProductData) : bool :=
  String.eqb (d_searchTerms data) "" || String.eqb (d_name data) "".

Definition noPlatformSelected (data : ProductData) : bool :=
  match d_platforms data with
  | Some platforms => negb (amazon platforms) && negb (ebay platforms)
  | None => true
  end.

Definition targetRefused (data : ProductData) : bool :=
  match d_targetPrice data with
  | Some t => Js.truthy t && Js.Qleb t 0
  | None => false
  end.

Definition refusalOfDuplicate (data : ProductData) (products : list Product) : string :=
  if fieldsMissing data then errMissing
  else if noPlatformSelected data then errPlatform
  else if targetRefused data then errTarget
  else if (maxProductsFree <=? length products)%nat then errLimit
  else errDuplicate.

(** A URL with the scheme of the web. *)
Definition httpUrl (url : string) : Prop := String.prefix "http" url = true.

Section Reachability.

Variable jsMatch : Regex -> string -> option Match.
Variable execAll : Regex -> string -> list string.
Variable trim : string -> string.
Variable hostnameOf : string -> option string.
(** The URLs [scrapePrice] is called with. *)
Variable callable : string -> Prop.

(** The states of a process that starts cold, runs the two scrapers one
    call at a time, and lets time pass between calls. *)
Inductive reachable : World -> Prop :=
| reach_start net : reachable (coldStart net)
| reach_search searchTerms platform w :
    reachable w ->
    reachable (snd (scrapeFirstResultPrice jsMatch trim searchTerms platform w))
| reach_url url w :
    callable url -> reachable w ->
    reachable (snd (scrapePrice execAll hostnameOf url w))
| reach_wait d w :
    (0 <= d)%Z -> reachable w ->
    reachable (mkWorld (clock w + d) (limiter w) (priceCache w) (network w) (sent w)).

(** The entry holds a positive price that one of the two extractors
    returned for some page: with its title under a search key, or without
    a title under the URL. *)
Definition genuine (key : string) (entry : CacheEntry) : Prop :=
  (0 < c_price entry)%Q
  /\ ((exists html platform searchTerms title,
         key = searchKey searchTerms platform
         /\ c_title entry = Some title
         /\ extractFirstResultWithTitle jsMatch trim html platform searchTerms
            = ExObject title (c_price entry))
      \/ (exists html,
            c_title entry = None
            /\ extractPriceFromHtml execAll html key = Some (c_price entry))).

End Reachability.

(** The band [extractPriceFromHtml] prefers for the URL (lines 1136-1145):
    300..700 for an iphone URL that mentions 128gb, 200..900 for another
    iphone URL, none otherwise. *)
Definition preferredBand (url : string) : option (Q * Q) :=
  if Js.includes url "iphone" || Js.includes url "iPhone" then
    if Js.includes url "128gb" || Js.includes url "128GB" then Some (300%Q, 700%Q)
    else Some (200%Q, 900%Q)
  else None.

(** Where a key of the cache can come from. *)
Definition keyOrigin (key : string) : Prop :=
  (exists searchTerms, key = searchKey searchTerms "amazon")
  \/ (exists searchTerms, key = searchKey searchTerms "ebay")
  \/ httpUrl key.

(** ** The [remove-product] handler *)


(** ** Time *)

(** The state [d] milliseconds later, nothing else having happened. *)
Definition later (d : Z) (w : World) : World :=
  mkWorld (clock w + d) (limiter w) (priceCache w) (network w) (sent w).

(** A state in which time is in order: no request takes a negative time,
    every request time the limiter holds lies in the past, and a key holds at
    most [maxRequests + 1] of them, the oldest being a full window old when
    there are that many. *)
Definition orderly (w : World) : Prop :=
  (forall n, (0 <= elapsed (network w n))%Z)
  /\ forall key times,
       limiter w !! key = Some times ->
       (forall t, In t times -> (t <= clock w)%Z)
       /\ (length times <= S (maxRequests rateLimiter))%nat
       /\ (length times = S (maxRequests rateLimiter) ->
           forall oldest rest, times = oldest :: rest ->
                               (oldest + windowMs rateLimiter <= clock w)%Z).

(** The request times of [key] that are less than a window old. *)
Definition recentRequestsOf (key : string) (w : World) : list Z :=
  List.filter (fun time => (clock w - time <? windowMs rateLimiter)%Z)
    (default nil (limiter w !! key)).

(** ** Similarity of two texts (lines 1005-1035) *)

(** One pass of the inner loop: the cells [matrix[i][1..]] of row [i], from
    the row above and the cell to the left. *)
Fixpoint fillRow (c : ascii) (str2 : list ascii) (above : list nat) (left : nat) : list nat :=
  match str2, above with
  | c2 :: rest, diagonal :: ((up :: _) as above') =>
      let cost := if Ascii.eqb c c2 then 0 else 1 in
      let cell := Nat.min (Nat.min (up + 1) (left + 1)) (diagonal + cost) in
      cell :: fillRow c rest above' cell
  | _, _ => nil
  end.

(** The outer loop from row [i + 1] on; the result is the last row. *)
Fixpoint fillMatrix (str1 str2 : list ascii) (i : nat) (above : list nat) : list nat :=
  match str1 with
  | nil => above
  | c :: rest => fillMatrix rest str2 (S i) (S i :: fillRow c str2 above (S i))
  end.

Definition calculateSimilarity (str1 str2 : string) : Q :=
  let len1 := String.length str1 in
  let len2 := String.length str2 in
  if (len1 =? 0)%nat then (if (len2 =? 0)%nat then 1 else 0)
  else if (len2 =? 0)%nat then 0
  else
    let lastRow :=
      fillMatrix (list_ascii_of_string str1) (list_ascii_of_string str2) 0 (seq 0 (S len2)) in
    let maxLen := Nat.max len1 len2 in
    (inject_Z (Z.of_nat maxLen) - inject_Z (Z.of_nat (nth len2 lastRow 0%nat)))
    / inject_Z (Z.of_nat maxLen).

(** What the loops keep of row [i]: with [p] the first [i] characters of the
    first text, cell [j] is at most the longer of the two prefixes and is [0]
    exactly when [p] is the prefix of length [j] of the second text. *)
Definition rowOf (str2 p : list ascii) (row : list nat) : Prop :=
  length row = S (length str2)
  /\ forall j, (j <= length str2)%nat ->
       (nth j row 0 <= Nat.max (length p) j)%nat
       /\ (nth j row 0%nat = 0%nat <-> p = firstn j str2).

(** ** The test handlers (lines 1565-1676) *)

(** [products.findIndex(...)] followed by [products.splice(existingIndex, 1)]:
    the first product that [found] accepts is taken out. *)
Fixpoint spliceFirst (found : Product -> bool) (products : list Product) : list Product :=
  match products with
  | nil => nil
  | p :: rest => if found p then rest else p :: spliceFirst found rest
  end.

Definition hasUrl (url : string) (p : Product) : bool :=
  match p_url p with
  | Some u => String.eqb u url
  | None => false
  end.

Definition errScrapeAmazon :=
  "Could not scrape price from Amazon. This may be due to anti-bot protection or network issues.".
Definition errScrapeEbay :=
  "Could not scrape price from eBay. This may be due to anti-bot protection or network issues.".

Section TestHandlers.

Variable execAll : Regex -> string -> list string.
Variable hostnameOf : string -> option string.

(** The body the two handlers share.  The store is written on success only;
    the [site] the handlers add to the stored object is read nowhere. *)
Definition testHandler (url name : string) (targetPrice : Q) (error : string)
    (w : World) (stored : list Product) : Reply * World * list Product :=
  let products := spliceFirst (hasUrl url) stored in
  let '(scrapedPrice, w') := scrapePrice execAll hostnameOf url w in
  if negb (Js.truthy scrapedPrice) then (Failure error, w', stored)
  else
    let newProduct := testProduct name url targetPrice scrapedPrice (clock w') in
    (Success newProduct, w', (products ++ newProduct :: nil)%list).

Definition testAddProduct : World -> list Product -> Reply * World * list Product :=
  testHandler "https://www.amazon.com/s?k=apple+iphone+13+mini+128gb+unlocked"
    "Apple iPhone 13 Mini 128GB Unlocked" 400 errScrapeAmazon.

Definition testAddEbayProduct : World -> list Product -> Reply * World * list Product :=
  testHandler "https://www.ebay.com/sch/i.html?_nkw=apple+iphone+13+mini+128gb+unlocked"
    "Apple iPhone 13 Mini 128GB Unlocked" 370 errScrapeEbay.

End TestHandlers.

(** ** The form of the renderer (part_005, lines 524-598) *)

(** What [handleAddProduct] reads: the three text fields of the form
    ([None] when [formData.get] gives [null]) and the three check boxes. *)
Record AddProductForm := mkForm {
  f_searchTerms : option string;
  f_productName : option string;
  f_targetPrice : option string;
  f_searchAmazon : bool;
  f_searchEbay : bool;
  f_searchGoogle : bool
}.

(** The form either shows an error toast and returns, or invokes
    [add-product] with the object it has built. *)
Inductive Submission : Type :=
| Toast (message : string)
| Invoke (productData : ProductData).

Definition toastFill := "Please fill in search terms and product name".
Definition toastPlatform := "Please select at least one platform to search".
Definition toastTarget := "Target price must be a valid number greater than 0".
Definition toastShort := "Search terms must be at least 3 characters long".
Definition toastLong := "Search terms are too long. Please use shorter terms.".
Definition toastAdded := "Product added successfully!".
Definition toastError := "Error adding product".

Section Renderer.

Variable trim : string -> string.
(** [parseFloat] on the text of a form field; [None] is [NaN]. *)
Variable parseFloatOf : string -> option Q.

(** [x?.trim() || ''] *)
Definition trimmed (field : option string) : string :=
  match field with
  | Some text => trim text
  | None => ""
  end.

(** The checks of the form.  The object sent also carries the [google] flag,
    which the handler never reads. *)
Definition handleAddProduct (form : AddProductForm) : Submission :=
  let searchTerms := trimmed (f_searchTerms form) in
  let productName := trimmed (f_productName form) in
  let targetPrice :=
    parseFloatOf (match f_targetPrice form with
                  | Some text => if String.eqb text "" then "0" else text
                  | None => "0"
                  end) in
  let searchAmazon := f_searchAmazon form in
  let searchEbay := f_searchEbay form in
  let searchGoogle := f_searchGoogle form in
  if String.eqb searchTerms "" || String.eqb productName "" then Toast toastFill
  else if negb searchAmazon && negb searchEbay && negb searchGoogle then Toast toastPlatform
  else if match targetPrice with
          | Some t => Js.truthy t && Js.Qleb t 0
          | None => false
          end then Toast toastTarget
  else if (String.length searchTerms <? 3)%nat then Toast toastShort
  else if (200 <? String.length searchTerms)%nat then Toast toastLong
  else
    Invoke (mkData searchTerms productName (Some (mkPlatforms searchAmazon searchEbay))
              (match targetPrice with
               | Some t => if Js.truthy t then Some t else None
               | None => None
               end)).

Variable jsMatch : Regex -> string -> option Match.
Variable encodeURIComponent : string -> string.

(** The whole of a submission: the toast shown, and the state and the stored
    products it leaves. *)
Definition submitAddProduct (form : AddProductForm) (w : World) (stored : list Product)
    : string * World * list Product :=
  match handleAddProduct form with
  | Toast message => (message, w, stored)
  | Invoke productData =>
      match addProduct jsMatch trim encodeURIComponent (Some productData) w stored with
      | (Success _, w', stored') => (toastAdded, w', stored')
      | (Failure error, w', stored') =>
          (if String.eqb error "" then toastError else error, w', stored')
      end
  end.

End Renderer.

(** ** Figures of the renderer (part_005, lines 150-168 and 310-319) *)

(** [Math.max(a, b)] of two numbers. *)
Definition mathMax (a b : Q) : Q := if Js.Qltb a b then b else a.

Definition calculateProductSavings (product : Product) : Q :=
  match p_priceHistory product with
  | None => 0
  | Some nil => 0
  | Some (first :: _) =>
      let originalPrice := h_price first in
      let currentPrice := p_currentPrice product in
      mathMax 0 (originalPrice - currentPrice)
  end.

Record Stats := mkStats {
  totalProducts : nat;
  activeTargets : nat;
  totalSavings : Q
}.

(** The three figures of [updateStats].  A [null] target compares as [0]. *)
Definition updateStats (products : list Product) : Stats :=
  mkStats (length products)
    (length (List.filter
               (fun p => Js.Qltb (default 0%Q (p_targetPrice p)) (p_currentPrice p)) products))
    (fold_left (fun total product => (total + calculateProductSavings product)%Q) products 0%Q).

(** ** Age of a timestamp (part_005, lines 329-343) *)

(** The decimal text of an integer, as a template literal prints it. *)
Definition numberText (n : Z) : string := NilZero.string_of_int (Z.to_int n).

(** [getTimeAgo(timestamp)] at the time [now]; the timestamp is the time its
    ISO text denotes, [None] when it is missing or empty. *)
Definition getTimeAgo (now : Z) (timestamp : option Z) : string :=
  match timestamp with
  | None => "Never"
  | Some date =>
      let diffMs := (now - date)%Z in
      let diffMins := (diffMs / 60000)%Z in
      let diffHours := (diffMins / 60)%Z in
      let diffDays := (diffHours / 24)%Z in
      if (diffMins <? 1)%Z then "Just now"
      else if (diffMins <? 60)%Z then numberText diffMins ++ "m ago"
      else if (diffHours <? 24)%Z then numberText diffHours ++ "h ago"
      else numberText diffDays ++ "d ago"
  end.
(** * Properties *)

(** ** The embedding on small inputs *)

Example parseFloat_cents : Num.parseFloat "12.99" = Some (1299 # 100).
Proof. reflexivity. Qed.

Example parseFloat_whole : Num.parseFloat "499" = Some (499 # 1).
Proof. reflexivity. Qed.

Example parseFloat_trailing_dot : Num.parseFloat "5." = Some (5 # 1).
Proof. reflexivity. Qed.

Example parseFloat_not_a_number : Num.parseFloat "abc" = None.
Proof. reflexivity. Qed.

Example hash_of_query : hashOf "iphone 13 mini 128gb" = (-1698151732)%Z.
Proof. reflexivity. Qed.

Example normalize_query : normalize (Some "iPhone-13 Mini") = "iphone13mini".
Proof. reflexivity. Qed.

Example fallback_iphone13 :
  getSearchFallbackPrice "iphone 13 mini 128gb" "amazon"
  = mkResult (Some "iphone 13 mini 128gb - Amazon Result") (inject_Z 407).
Proof. vm_compute. reflexivity. Qed.

Example fallback_generic_ebay :
  getSearchFallbackPrice "usb cable" "ebay"
  = mkResult (Some "usb cable - Ebay Result") (inject_Z 45).
Proof. vm_compute. reflexivity. Qed.

(** A candidate below the query's minimum is passed over and a later rule
    supplies the price. *)
Example refused_candidate_passed_over :
  validCandidate accessoryMatch accessoryPage "amazon" "ipad" 10 = None
  /\ validCandidate accessoryMatch accessoryPage "amazon" "ipad" 12 = Some (499 # 1)
  /\ extractFirstResultWithTitle accessoryMatch id accessoryPage "amazon" "ipad"
     = ExObject "ipad - Amazon Result" (499 # 1).
Proof. vm_compute. repeat split. Qed.

(** On Walmart a matching rule gives a bare number, and the acquisition
    still resolves with the fallback. *)
Example walmart_number_discarded :
  extractFirstResultWithTitle centsMatch id centsPage "walmart" "ipad" = ExNumber (49900 # 100)
  /\ fst (scrapeFirstResultPrice centsMatch id "ipad" "walmart" (coldStart answeringCents))
     = Some (getSearchFallbackPrice "ipad" "walmart").
Proof. vm_compute. repeat split. Qed.

(** ** Tests on rationals *)

Lemma Qleb_true (a b : Q) : Js.Qleb a b = true <-> (a <= b)%Q.
Proof. apply Qle_bool_iff. Qed.

Lemma Qltb_true (a b : Q) : Js.Qltb a b = true <-> (a < b)%Q.
Proof.
  unfold Js.Qltb. rewrite negb_true_iff. split.
  - intros H. apply Qnot_le_lt. intros Hle. apply Qle_bool_iff in Hle. congruence.
  - intros H. destruct (Qle_bool b a) eqn:E; [|reflexivity].
    apply Qle_bool_iff in E. exfalso. exact (Qlt_not_le _ _ H E).
Qed.

Lemma truthy_true (q : Q) : Js.truthy q = true <-> ~ (q == 0)%Q.
Proof.
  unfold Js.truthy. rewrite negb_true_iff. split.
  - intros H Heq. apply Qeq_bool_iff in Heq. congruence.
  - intros H. destruct (Qeq_bool q 0) eqn:E; [|reflexivity].
    apply Qeq_bool_iff in E. contradiction.
Qed.

(** ** History *)

Lemma sliceLast_short {A} (n : nat) (l : list A) : (length l <= n)%nat -> sliceLast n l = l.
Proof. intros H. unfold sliceLast. replace (length l - n)%nat with 0%nat by lia. reflexivity. Qed.

Lemma sliceLast_length {A} (n : nat) (l : list A) :
  length (sliceLast n l) = Nat.min (length l) n.
Proof. unfold sliceLast. rewrite length_drop. lia. Qed.

Lemma sliceLast_app {A} (n : nat) (l k : list A) :
  sliceLast n (sliceLast n l ++ k) = sliceLast n (l ++ k).
Proof.
  unfold sliceLast at 2.
  rewrite <- (drop_app_le l k (length l - n)) by lia.
  unfold sliceLast. rewrite drop_drop, length_drop, !length_app.
  f_equal. lia.
Qed.

Lemma sliceLast_suffix {A} (n : nat) (l : list A) : exists evicted, l = (evicted ++ sliceLast n l)%list.
Proof. exists (take (length l - n) l). unfold sliceLast. symmetry. apply take_drop. Qed.

Lemma pushHistory_sliceLast (history : option (list HistoryEntry)) (entry : HistoryEntry) :
  pushHistory history entry = sliceLast 100 (default nil history ++ entry :: nil).
Proof.
  unfold pushHistory. destruct (Nat.ltb_spec 100 (length (default nil history ++ entry :: nil))).
  - reflexivity.
  - symmetry. apply sliceLast_short. lia.
Qed.

Lemma checkProduct_history now price product :
  historyOf (fst (checkProduct now (Some price) product))
  = sliceLast 100 (historyOf product ++ mkHistory price None now :: nil).
Proof. unfold checkProduct, historyOf. simpl. apply pushHistory_sliceLast. Qed.

Lemma checkMany_cons_fst now price rest product :
  fst (checkMany ((now, price) :: rest) product)
  = fst (checkMany rest (fst (checkProduct now (Some price) product))).
Proof.
  cbn [checkMany].
  destruct (checkProduct now (Some price) product) as [product1 alerts].
  cbn [fst]. destruct (checkMany rest product1) as [product2 later]. reflexivity.
Qed.

Lemma checkMany_history checks : forall product,
  checks <> nil ->
  historyOf (fst (checkMany checks product))
  = sliceLast 100 (historyOf product ++ entriesOf checks).
Proof.
  induction checks as [|[now price] rest IH]; intros product Hne; [congruence|].
  rewrite checkMany_cons_fst.
  destruct rest as [|c rest'].
  - cbn [checkMany fst]. apply checkProduct_history.
  - rewrite IH by congruence. rewrite checkProduct_history, sliceLast_app.
    rewrite <- app_assoc. reflexivity.
Qed.

Lemma checkAllPrices_one execAll hostnameOf product url w :
  p_url product = Some url ->
  checkAllPrices execAll hostnameOf (product :: nil) w
  = let run := scrapePrice execAll hostnameOf url w in
    let checked := checkProduct (clock (snd run)) (Some (fst run)) product in
    Some (fst checked :: nil, snd checked, snd run).
Proof.
  intros Hu. unfold checkAllPrices. cbn [checkEach]. rewrite Hu.
  destruct (scrapePrice execAll hostnameOf url w) as [currentPrice w1]. cbn [fst snd].
  destruct (checkProduct (clock w1) (Some currentPrice) product) as [product1 alerts].
  cbn [fst snd]. rewrite app_nil_r. reflexivity.
Qed.

(** C7.  Starting from a history within the cap, after any number of recorded
    checks the stored history is the last 100 of everything recorded, in the
    order recorded: its length is the smaller of the number recorded and 100,
    and what was recorded is the evicted (oldest) entries followed by the
    retained ones. *)
Theorem history_keeps_last_100 (checks : list (Z * Q)) (product : Product) :
  (length (historyOf product) <= 100)%nat ->
  let recorded := (historyOf product ++ entriesOf checks)%list in
  let retained := historyOf (fst (checkMany checks product)) in
  retained = sliceLast 100 recorded
  /\ length retained = Nat.min (length recorded) 100
  /\ exists evicted, recorded = (evicted ++ retained)%list.
Proof.
  intros Hcap recorded retained.
  assert (H : retained = sliceLast 100 recorded).
  { subst recorded retained. destruct checks as [|c rest].
    - simpl. rewrite app_nil_r. symmetry. apply sliceLast_short. exact Hcap.
    - apply checkMany_history. congruence. }
  split; [exact H|]. rewrite H. split.
  - apply sliceLast_length.
  - apply sliceLast_suffix.
Qed.

Lemma history_keeps_last_100_witness :
  let product := unchecked "x" "https://www.amazon.com/dp/x" None in
  let retained := historyOf (fst (checkMany (manyChecks 103) product)) in
  retained = sliceLast 100 (entriesOf (manyChecks 103))
  /\ length retained = 100%nat
  /\ exists evicted, entriesOf (manyChecks 103) = (evicted ++ retained)%list.
Proof.
  apply (history_keeps_last_100 (manyChecks 103) (unchecked "x" "https://www.amazon.com/dp/x" None)).
  simpl. lia.
Defined.

(** ** Rate limiter *)

(** C1.  On [burst], twelve calls for one key by a caller that awaits each
    call, the calls return at the times listed: the sixth to the eleventh
    return between 60000 and 65000, six admissions inside one window of
    [windowMs], more than [maxRequests].  The limiter sleeps once, without
    looking again, and records the time read before the sleep. *)
Theorem rate_limiter_admits_six_in_window :
  let admissions := fst (admitAll "amazon" burst (coldStart quiet)) in
  admissions
  = (0 :: 1000 :: 2000 :: 3000 :: 4000 :: 60000 :: 61000 :: 62000 :: 63000 :: 64000 :: 65000
     :: 120000 :: nil)%Z
  /\ admittedWithin (windowMs rateLimiter) 65000 admissions = 6%nat
  /\ (maxRequests rateLimiter < admittedWithin (windowMs rateLimiter) 65000 admissions)%nat
  /\ limiter (snd (admitAll "amazon" burst (coldStart quiet))) !! "amazon"
     = Some (60000 :: 61000 :: 62000 :: 63000 :: 64000 :: 65000 :: nil)%Z.
Proof. vm_compute. repeat split; lia. Qed.

(** ** Notifications *)

Example double_of_a_price :
  Double.ofQ (5035 # 100) = S754_finite false 7086132538690765 (-47).
Proof. vm_compute. reflexivity. Qed.

Example five_percent_exactly_raises_nothing :
  ((53 - (5035 # 100)) / 53 * 100 == 5)%Q
  /\ dropPercentOf 53 (5035 # 100) = S754_finite false 5629499534213117 (-50)
  /\ Double.leb (Double.ofQ 5) (dropPercentOf 53 (5035 # 100)) = false.
Proof. vm_compute. repeat split. Qed.

Example five_percent_of_a_hundred_raises :
  priceDropAlert "x" (Some 100%Q) 95 = PriceDrop "x" 95 100 (Double.ofQ 5) :: nil.
Proof. vm_compute. reflexivity. Qed.

Lemma priceDropAlert_fires name previousPrice currentPrice :
  existsb isDrop (priceDropAlert name previousPrice currentPrice) = true
  <-> exists prev, previousPrice = Some prev
      /\ Double.truthy (Double.ofQ prev) = true
      /\ Double.ltb (Double.ofQ currentPrice) (Double.ofQ prev) = true
      /\ Double.leb (Double.ofQ priceDropThreshold) (dropPercentOf prev currentPrice) = true.
Proof.
  unfold priceDropAlert. destruct previousPrice as [prev|].
  - destruct (Double.truthy (Double.ofQ prev)) eqn:Et; cbn [andb].
    + destruct (Double.ltb (Double.ofQ currentPrice) (Double.ofQ prev)) eqn:El.
      * destruct (Double.leb (Double.ofQ priceDropThreshold) (dropPercentOf prev currentPrice))
          eqn:Ed.
        -- split; [intros _|reflexivity]. exists prev.
           split; [reflexivity|]. split; [exact Et|]. split; [exact El|exact Ed].
        -- split; [discriminate|]. intros (p & [= <-] & _ & _ & Hd). congruence.
      * split; [discriminate|]. intros (p & [= <-] & _ & Hl & _). congruence.
    + split; [discriminate|]. intros (p & [= <-] & Ht & _). congruence.
  - split; [discriminate|]. intros (p & [=] & _).
Qed.

Lemma priceDropAlert_no_target name previousPrice currentPrice :
  existsb isTarget (priceDropAlert name previousPrice currentPrice) = false.
Proof.
  unfold priceDropAlert. destruct previousPrice as [prev|]; [|reflexivity].
  destruct (_ && _); [|reflexivity]. destruct (Double.leb _ _); reflexivity.
Qed.

Lemma targetAlert_fires name targetPrice currentPrice :
  existsb isTarget (targetAlert name targetPrice currentPrice) = true
  <-> exists target, targetPrice = Some target
      /\ Double.truthy (Double.ofQ target) = true
      /\ Double.leb (Double.ofQ currentPrice) (Double.ofQ target) = true.
Proof.
  unfold targetAlert. destruct targetPrice as [target|].
  - destruct (Double.truthy (Double.ofQ target)) eqn:Et; cbn [andb].
    + destruct (Double.leb (Double.ofQ currentPrice) (Double.ofQ target)) eqn:El.
      * split; [intros _|reflexivity]. exists target.
        split; [reflexivity|]. split; [exact Et|exact El].
      * split; [discriminate|]. intros (t & [= <-] & _ & Hl). congruence.
    + split; [discriminate|]. intros (t & [= <-] & Ht & _). congruence.
  - split; [discriminate|]. intros (t & [=] & _).
Qed.

Lemma targetAlert_no_drop name targetPrice currentPrice :
  existsb isDrop (targetAlert name targetPrice currentPrice) = false.
Proof.
  unfold targetAlert. destruct targetPrice as [target|]; [|reflexivity].
  destruct (_ && _); reflexivity.
Qed.

(** C2, as stated, fails for the target alert: a product whose last recorded
    price, 350, is already below its target, 400, raises the alert again when
    the next check finds 350.  The alert does not wait for a crossing. *)
Lemma target_alert_repeats :
  let product := testProduct "iPhone" "https://www.amazon.com/s?k=iphone" 400 350 1 in
  previousPriceOf product = Some 350%Q
  /\ p_targetPrice product = Some 400%Q
  /\ snd (checkProduct 2 (Some 350%Q) product) = TargetReached "iPhone" 350 :: nil.
Proof. vm_compute. repeat split. Qed.

(** C2, amended.  At each recorded check: the price-drop alert is raised
    exactly when the preceding history entry holds a non-zero price, the new
    price is below it, and the percentage of the drop, computed in doubles as
    the code computes it, is at least [priceDropThreshold] (5), as from 100
    to 95; the target
    alert is raised exactly when the product has a non-zero target and the
    new price is at or below it, whatever the preceding price was.  On the
    prices 100, 90, 90, 85 the drop alert is raised at the second and fourth
    checks only.  The rounding of the percentage counts: from 53 to 50.35 the
    drop is 5 percent exactly, the computed percentage is below 5, and no
    alert is raised. *)
Theorem alerts_of_a_check (now : Z) (price : Q) (product : Product) :
  let alerts := snd (checkProduct now (Some price) product) in
  (existsb isDrop alerts = true
   <-> exists prev, previousPriceOf product = Some prev
       /\ Double.truthy (Double.ofQ prev) = true
       /\ Double.ltb (Double.ofQ price) (Double.ofQ prev) = true
       /\ Double.leb (Double.ofQ priceDropThreshold) (dropPercentOf prev price) = true)
  /\ (existsb isTarget alerts = true
      <-> exists target, p_targetPrice product = Some target
          /\ Double.truthy (Double.ofQ target) = true
          /\ Double.leb (Double.ofQ price) (Double.ofQ target) = true)
  /\ List.map (existsb isDrop)
       (snd (checkMany fourChecks (unchecked (p_name product) "" (p_targetPrice product))))
     = (false :: true :: false :: true :: nil)
  /\ ((53 - (5035 # 100)) / 53 * 100 == priceDropThreshold)%Q
  /\ priceDropAlert (p_name product) (Some 53%Q) (5035 # 100) = nil
  /\ priceDropAlert (p_name product) (Some 100%Q) 95
     = PriceDrop (p_name product) 95 100 (Double.ofQ 5) :: nil.
Proof.
  cbn [checkProduct snd]. rewrite !existsb_app.
  rewrite targetAlert_no_drop, priceDropAlert_no_target, orb_false_r. cbn [orb].
  split; [apply priceDropAlert_fires|]. split; [apply targetAlert_fires|].
  split; [|split; [reflexivity|split]].
  - cbn [fourChecks checkMany checkProduct unchecked previousPriceOf p_priceHistory p_name
         p_targetPrice pushHistory snd fst List.map].
    rewrite !existsb_app, !targetAlert_no_drop, !orb_false_r.
    generalize (p_name product). intros name.
    assert (H2 : existsb isDrop (priceDropAlert name (Some 100%Q) 90) = true)
      by (apply priceDropAlert_fires; exists 100%Q; vm_compute; repeat split).
    assert (H3 : existsb isDrop (priceDropAlert name (Some 90%Q) 90) = false).
    { destruct (existsb isDrop (priceDropAlert name (Some 90%Q) 90)) eqn:E; [|reflexivity].
      apply priceDropAlert_fires in E as (prev & [= <-] & _ & Hl & _).
      vm_compute in Hl. discriminate Hl. }
    assert (H4 : existsb isDrop (priceDropAlert name (Some 90%Q) 85) = true)
      by (apply priceDropAlert_fires; exists 90%Q; vm_compute; repeat split).
    change (false
            :: existsb isDrop (priceDropAlert name (Some 100%Q) 90)
            :: existsb isDrop (priceDropAlert name (Some 90%Q) 90)
            :: existsb isDrop (priceDropAlert name (Some 90%Q) 85) :: nil
            = false :: true :: false :: true :: nil).
    rewrite H2, H3, H4. reflexivity.
  - unfold priceDropAlert.
    change (Double.truthy (Double.ofQ 53)) with true.
    assert (Hl : Double.ltb (Double.ofQ (5035 # 100)) (Double.ofQ 53) = true)
      by (vm_compute; reflexivity).
    assert (Hd : Double.leb (Double.ofQ priceDropThreshold) (dropPercentOf 53 (5035 # 100)) = false)
      by (vm_compute; reflexivity).
    rewrite Hl, Hd. reflexivity.
  - unfold priceDropAlert.
    change (Double.truthy (Double.ofQ 100)) with true.
    assert (Hl : Double.ltb (Double.ofQ 95) (Double.ofQ 100) = true)
      by (vm_compute; reflexivity).
    assert (Hd : Double.leb (Double.ofQ priceDropThreshold) (dropPercentOf 100 95) = true)
      by (vm_compute; reflexivity).
    assert (Hq : dropPercentOf 100 95 = Double.ofQ 5) by (vm_compute; reflexivity).
    rewrite Hl, Hd, Hq. reflexivity.
Qed.

(** ** Acquisition *)

Section AcquisitionFacts.

Variable jsMatch : Regex -> string -> option Match.
Variable trim : string -> string.

Lemma scrape_resolves (searchTerms platform : string) (w : World) :
  fst (scrapeFirstResultPrice jsMatch trim searchTerms platform w) = None
  <-> supported platform = false.
Proof.
  unfold scrapeFirstResultPrice.
  destruct (supported platform); cbn [negb]; [|tauto].
  split; [|discriminate].
  destruct (cacheGet _ _); [discriminate|].
  destruct (request _) as [out w2].
  destruct out as [code [html|]| |]; cbn [fst]; try discriminate.
  - destruct (negb _); [discriminate|].
    destruct (accepted _) as [[t p]|]; discriminate.
  - destruct (negb _); discriminate.
Qed.

Lemma scrape_sends_at_most_one (searchTerms platform : string) (w : World) :
  let w' := snd (scrapeFirstResultPrice jsMatch trim searchTerms platform w) in
  sent w' = sent w \/ sent w' = S (sent w).
Proof.
  unfold scrapeFirstResultPrice.
  destruct (negb (supported platform)); [left; reflexivity|].
  destruct (cacheGet _ _); [left; reflexivity|]. right.
  destruct (request _) as [out w2] eqn:Er.
  assert (Hs : sent w2 = S (sent w)) by (unfold request in Er; inversion Er; reflexivity).
  destruct out as [code [html|]| |]; cbn [snd]; try exact Hs.
  - destruct (negb _); [exact Hs|].
    destruct (accepted _) as [[t p]|]; exact Hs.
  - destruct (negb _); exact Hs.
Qed.

Lemma scrape_falls_back (searchTerms platform : string) (w : World) :
  supported platform = true ->
  findsNothing jsMatch trim searchTerms platform w ->
  scrapeFirstResultPrice jsMatch trim searchTerms platform w
  = (Some (getSearchFallbackPrice searchTerms platform),
     snd (request (waitIfNeeded rateLimiter platform w))).
Proof.
  intros Hs [Hmiss Hout]. unfold scrapeFirstResultPrice.
  rewrite Hs. cbn [negb]. fold (searchKey searchTerms platform). rewrite Hmiss.
  destruct (request _) as [out w2]. cbn [fst snd] in *.
  destruct out as [code [html|]| |]; try reflexivity.
  - destruct (code =? 200)%Z; cbn [negb]; [|reflexivity].
    rewrite Hout; reflexivity.
  - destruct (negb _); reflexivity.
Qed.

End AcquisitionFacts.

(** C3, as stated, fails for a source key the code does not support: the
    call resolves to [null]. *)
Lemma unsupported_platform_resolves_null :
  fst (scrapeFirstResultPrice noMatch id "usb cable" "newegg" (coldStart quiet)) = None.
Proof. reflexivity. Qed.

(** C3, amended.  In every state, for every query and whatever the request
    comes to, [scrapeFirstResultPrice] resolves to [null] exactly when the
    platform is none of amazon, ebay, walmart, bestbuy and target; for these
    five it resolves to an object [{title, price}]. *)
Theorem scrape_null_only_when_unsupported
    (jsMatch : Regex -> string -> option Match) (trim : string -> string)
    (searchTerms platform : string) (w : World) :
  let resolved := fst (scrapeFirstResultPrice jsMatch trim searchTerms platform w) in
  (resolved = None <-> supported platform = false)
  /\ (is_Some resolved
      <-> platform = "amazon" \/ platform = "ebay" \/ platform = "walmart"
          \/ platform = "bestbuy" \/ platform = "target").
Proof.
  cbn zeta. pose proof (scrape_resolves jsMatch trim searchTerms platform w) as H.
  split; [exact H|].
  rewrite <- not_eq_None_Some, H. unfold supported.
  rewrite not_false_iff_true, !orb_true_iff, !String.eqb_eq. tauto.
Qed.

(** ** Retry *)

(** C4, as stated, fails: the first request times out and the next one would
    be answered with a page that yields 499, yet the acquisition resolves
    with the fallback after a single request; the same call made again
    extracts the price. *)
Lemma no_retry_after_a_failed_attempt :
  let first := scrapeFirstResultPrice bareMatch id "ipad" "amazon" (coldStart flaky) in
  fst first = Some (getSearchFallbackPrice "ipad" "amazon")
  /\ sent (snd first) = 1%nat
  /\ fst (scrapeFirstResultPrice bareMatch id "ipad" "amazon" (snd first))
     = Some (mkResult (Some "ipad - Amazon Result") (499 # 1)).
Proof. vm_compute. repeat split. Qed.

Lemma retry_three_attempts {A : Type} (script : nat -> Settled A) :
  let run := retryWithBackoff sleepTrace (scripted script) 3 1000 (mkTrace 0 nil) in
  (1 <= calls (snd run) <= 3)%nat
  /\ fst run = script (calls (snd run) - 1)%nat
  /\ sleeps (snd run) = take (calls (snd run) - 1) (1000 :: 2000 :: nil)%Z
  /\ (forall k, (k < calls (snd run) - 1)%nat -> produced (script k) = false)
  /\ ((calls (snd run) < 3)%nat -> produced (fst run) = true).
Proof.
  unfold retryWithBackoff. cbn [retryFrom scripted calls sleeps sleepTrace Nat.ltb Nat.leb].
  repeat match goal with
         | |- context [match script ?n with _ => _ end] =>
             destruct (script n) as [[?|]|?] eqn:?
         end.
  all: cbn [fst snd calls sleeps app Nat.sub take produced]; unfold backoff.
  all: repeat split; try lia; try (symmetry; assumption); try reflexivity.
  all: intros k Hk; destruct k as [|[|k]]; try lia.
  all: match goal with
       | H : ?f ?n = _ |- produced (?f ?n) = false => rewrite H; reflexivity
       end.
Qed.

(** C4, amended.  An acquisition issues at most one request: on a miss whose
    request yields nothing usable it resolves with the fallback after that
    one request.  The helper [retryWithBackoff], with its defaults, calls its
    argument at most three times, stops at the first call that produces a
    result, sleeps 1000 ms and then 2000 ms between calls, and settles as the
    last call did; no acquisition path calls it. *)
Theorem one_request_per_acquisition
    (jsMatch : Regex -> string -> option Match) (trim : string -> string)
    (searchTerms platform : string) (w : World) (script : nat -> Settled Result) :
  let after := snd (scrapeFirstResultPrice jsMatch trim searchTerms platform w) in
  let run := retryWithBackoff sleepTrace (scripted script) 3 1000 (mkTrace 0 nil) in
  (sent after = sent w \/ sent after = S (sent w))
  /\ (supported platform = true /\ findsNothing jsMatch trim searchTerms platform w ->
      fst (scrapeFirstResultPrice jsMatch trim searchTerms platform w)
      = Some (getSearchFallbackPrice searchTerms platform)
      /\ sent after = S (sent w))
  /\ (1 <= calls (snd run) <= 3)%nat
  /\ fst run = script (calls (snd run) - 1)%nat
  /\ sleeps (snd run) = take (calls (snd run) - 1) (1000 :: 2000 :: nil)%Z
  /\ (forall k, (k < calls (snd run) - 1)%nat -> produced (script k) = false)
  /\ ((calls (snd run) < 3)%nat -> produced (fst run) = true).
Proof.
  cbn zeta. split; [apply scrape_sends_at_most_one|]. split.
  - intros [Hs Hn]. rewrite (scrape_falls_back jsMatch trim _ _ _ Hs Hn). split; reflexivity.
  - apply retry_three_attempts.
Qed.

(** ** Fallback *)

(** C5.  The value of the fallback generator depends on the query and the
    platform alone: in any two process states (clock, limiter, cache,
    network) in which the acquisition of a supported platform finds nothing
    usable, whichever way it fails, both calls resolve to the same
    [{title, price}], the one [getSearchFallbackPrice] computes from the
    query and the platform. *)
Theorem fallback_same_in_every_state
    (jsMatch1 jsMatch2 : Regex -> string -> option Match) (trim1 trim2 : string -> string)
    (searchTerms platform : string) (w1 w2 : World) :
  supported platform = true ->
  findsNothing jsMatch1 trim1 searchTerms platform w1 ->
  findsNothing jsMatch2 trim2 searchTerms platform w2 ->
  let first := fst (scrapeFirstResultPrice jsMatch1 trim1 searchTerms platform w1) in
  let second := fst (scrapeFirstResultPrice jsMatch2 trim2 searchTerms platform w2) in
  first = Some (getSearchFallbackPrice searchTerms platform)
  /\ second = first
  /\ r_title <$> second = r_title <$> first
  /\ r_price <$> second = r_price <$> first.
Proof.
  intros Hs H1 H2. cbn zeta.
  rewrite (scrape_falls_back _ _ _ _ _ Hs H1), (scrape_falls_back _ _ _ _ _ Hs H2).
  repeat split.
Qed.

Lemma fallback_same_in_every_state_witness :
  let first := fst (scrapeFirstResultPrice noMatch id "iphone 13 mini 128gb" "amazon"
                      (coldStart flaky)) in
  let second := fst (scrapeFirstResultPrice bareMatch id "iphone 13 mini 128gb" "amazon"
                       (mkWorld 7200000 ∅ ∅ unavailable 41)) in
  first = Some (getSearchFallbackPrice "iphone 13 mini 128gb" "amazon")
  /\ second = first
  /\ r_title <$> second = r_title <$> first
  /\ r_price <$> second = r_price <$> first.
Proof.
  apply (fallback_same_in_every_state noMatch bareMatch id id "iphone 13 mini 128gb" "amazon"
           (coldStart flaky) (mkWorld 7200000 ∅ ∅ unavailable 41)).
  - reflexivity.
  - split; [reflexivity | exact I].
  - split; [reflexivity | simpl; discriminate].
Defined.

(** ** Extraction *)

Section LoopFacts.

Variable jsMatch : Regex -> string -> option Match.
Variable html : string.
Variable candidate : Match -> option Q.
Variable valid : Q -> bool.
Variable found : Q -> Extracted.
Hypothesis found_price : forall price, priceOf (found price) = Some price.

Local Abbreviation loop := (selectorLoop jsMatch html candidate valid found).
Local Abbreviation try := (tryRule jsMatch html candidate valid).

Lemma selectorLoop_cons pattern rest :
  loop (pattern :: rest)
  = match try pattern with
    | Some price => found price
    | None => loop rest
    end.
Proof.
  cbn [selectorLoop]. unfold tryRule.
  destruct (jsMatch pattern html) as [m|]; [|reflexivity].
  destruct (candidate m) as [price|]; [|reflexivity].
  destruct (valid price); reflexivity.
Qed.

Lemma selectorLoop_first (selectors : list Regex) (price : Q) :
  priceOf (loop selectors) = Some price
  <-> exists i pattern,
        selectors !! i = Some pattern /\ try pattern = Some price
        /\ forall j earlier, (j < i)%nat -> selectors !! j = Some earlier -> try earlier = None.
Proof.
  induction selectors as [|pattern rest IH].
  - split; [discriminate|]. intros (i & q & Hq & _). rewrite lookup_nil in Hq. discriminate.
  - rewrite selectorLoop_cons. destruct (try pattern) as [p|] eqn:Et.
    + rewrite found_price. split.
      * intros [= ->]. exists 0%nat, pattern. repeat split; [exact Et|]. intros; lia.
      * intros (i & q & Hq & Hp & Hfirst). destruct i as [|i].
        -- cbn in Hq. injection Hq as <-. congruence.
        -- specialize (Hfirst 0%nat pattern ltac:(lia) eq_refl). congruence.
    + rewrite IH. split.
      * intros (i & q & Hq & Hp & Hfirst). exists (S i), q. repeat split; [exact Hq|exact Hp|].
        intros [|j] earlier Hj Hl; [cbn in Hl; congruence|].
        apply (Hfirst j earlier); [lia|exact Hl].
      * intros (i & q & Hq & Hp & Hfirst). destruct i as [|i].
        -- cbn in Hq. congruence.
        -- exists i, q. repeat split; [exact Hq|exact Hp|].
           intros j earlier Hj Hl. apply (Hfirst (S j) earlier); [lia|exact Hl].
Qed.

Lemma selectorLoop_null (selectors : list Regex) :
  loop selectors = ExNull
  <-> forall i pattern, selectors !! i = Some pattern -> try pattern = None.
Proof.
  induction selectors as [|pattern rest IH].
  - split; [|reflexivity]. intros _ i q Hq. rewrite lookup_nil in Hq. discriminate.
  - rewrite selectorLoop_cons. destruct (try pattern) as [p|] eqn:Et.
    + split.
      * intros H. pose proof (found_price p) as Hp. rewrite H in Hp. discriminate.
      * intros H. specialize (H 0%nat pattern eq_refl). congruence.
    + rewrite IH. split.
      * intros H [|i] q Hq; [cbn in Hq; congruence|]. exact (H i q Hq).
      * intros H i q Hq. exact (H (S i) q Hq).
Qed.

End LoopFacts.

Lemma extract_by_rules jsMatch trim html platform searchTerms :
  match rulesOf platform searchTerms with
  | Some (selectors, candidate, valid) =>
      exists found, (forall price, priceOf (found price) = Some price)
        /\ extractFirstResultWithTitle jsMatch trim html platform searchTerms
           = selectorLoop jsMatch html candidate valid found selectors
  | None => extractFirstResultWithTitle jsMatch trim html platform searchTerms = ExNull
  end.
Proof.
  unfold rulesOf, extractFirstResultWithTitle.
  repeat (destruct (String.eqb platform _); [eexists; split; [|reflexivity]; reflexivity|]).
  reflexivity.
Qed.

Lemma extract_first_valid jsMatch trim html platform searchTerms :
  let result := extractFirstResultWithTitle jsMatch trim html platform searchTerms in
  let rule := validCandidate jsMatch html platform searchTerms in
  (forall price, priceOf result = Some price
     <-> exists i, rule i = Some price /\ forall j, (j < i)%nat -> rule j = None)
  /\ (result = ExNull <-> forall i, rule i = None).
Proof.
  cbn zeta. unfold validCandidate.
  pose proof (extract_by_rules jsMatch trim html platform searchTerms) as H.
  destruct (rulesOf platform searchTerms) as [[[selectors candidate] valid]|].
  - destruct H as (found & Hfound & ->). split.
    + intros price. rewrite (selectorLoop_first _ _ _ _ _ Hfound). split.
      * intros (i & q & Hq & Hp & Hfirst). exists i. rewrite Hq. split; [exact Hp|].
        intros j Hj. destruct (selectors !! j) as [earlier|] eqn:El; [|reflexivity].
        exact (Hfirst j earlier Hj El).
      * intros (i & Hi & Hfirst). destruct (selectors !! i) as [q|] eqn:Hq; [|discriminate].
        exists i, q. split; [exact Hq|]. split; [exact Hi|]. intros j earlier Hj El.
        specialize (Hfirst j Hj). rewrite El in Hfirst. exact Hfirst.
    + rewrite (selectorLoop_null _ _ _ _ _ Hfound). split.
      * intros Hn i. destruct (selectors !! i) as [q|] eqn:Hq; [|reflexivity]. exact (Hn i q Hq).
      * intros Hn i q Hq. specialize (Hn i). rewrite Hq in Hn. exact Hn.
  - rewrite H. split.
    + intros price. split; [discriminate|]. intros (i & [=] & _).
    + split; [reflexivity|]. reflexivity.
Qed.

Lemma insertSorted_In (p q : Q) (sorted : list Q) :
  In q (insertSorted p sorted) <-> q = p \/ In q sorted.
Proof.
  induction sorted as [|r rest IH]; cbn [insertSorted].
  - cbn. intuition.
  - destruct (Js.Qleb p r); cbn [In]; [intuition|]. rewrite IH. intuition.
Qed.

Lemma sortAscending_In (q : Q) (prices : list Q) :
  In q (sortAscending prices) <-> In q prices.
Proof.
  induction prices as [|p rest IH]; cbn [sortAscending fold_right]; [reflexivity|].
  fold (sortAscending rest). rewrite insertSorted_In, IH. cbn. intuition.
Qed.

Lemma sortAscending_head (prices : list Q) :
  match sortAscending prices with
  | nil => prices = nil
  | lowest :: _ => forall q, In q prices -> (lowest <= q)%Q
  end.
Proof.
  induction prices as [|p rest IH]; cbn [sortAscending fold_right]; [reflexivity|].
  fold (sortAscending rest). destruct (sortAscending rest) as [|r sorted]; cbn [insertSorted].
  - subst rest. intros q [<-|[]]. apply Qle_refl.
  - destruct (Js.Qleb p r) eqn:E.
    + apply Qleb_true in E. intros q [<-|Hq]; [apply Qle_refl|].
      apply Qle_trans with r; [exact E|exact (IH q Hq)].
    + intros q [<-|Hq]; [|exact (IH q Hq)].
      apply Qlt_le_weak, Qnot_le_lt. intros Hle. apply Qleb_true in Hle. congruence.
Qed.

Lemma unique_In (q : Q) (prices seen : list Q) : In q (unique seen prices) -> In q prices.
Proof.
  revert seen. induction prices as [|p rest IH]; intros seen; cbn [unique]; [tauto|].
  destruct (existsb (Qeq_bool p) seen).
  - intros H. right. exact (IH _ H).
  - intros [<-|H]; [left; reflexivity|right; exact (IH _ H)].
Qed.

Lemma unique_represents (q : Q) (prices seen : list Q) :
  In q prices ->
  (exists s, In s seen /\ (q == s)%Q) \/ (exists u, In u (unique seen prices) /\ (u == q)%Q).
Proof.
  revert seen. induction prices as [|p rest IH]; intros seen; cbn [unique In]; [tauto|].
  intros [<-|Hq].
  - destruct (existsb (Qeq_bool p) seen) eqn:E.
    + left. apply existsb_exists in E as (s & Hs & Heq). exists s. split; [exact Hs|].
      apply Qeq_bool_iff. exact Heq.
    + right. exists p. split; [left; reflexivity|reflexivity].
  - destruct (existsb (Qeq_bool p) seen) eqn:E.
    + exact (IH seen Hq).
    + destruct (IH (p :: seen) Hq) as [(s & [<-|Hs] & Heq)|(u & Hu & Heq)].
      * right. exists p. split; [left; reflexivity|]. symmetry. exact Heq.
      * left. exists s. split; [exact Hs|exact Heq].
      * right. exists u. split; [right; exact Hu|exact Heq].
Qed.

Lemma preferBand_In (lo hi price : Q) (prices : list Q) :
  preferBand lo hi prices = Some price -> In price prices.
Proof.
  unfold preferBand.
  destruct (List.filter _ prices) as [|p rest] eqn:E.
  - destruct prices as [|p rest]; [discriminate|]. intros [= <-]. left. reflexivity.
  - intros [= <-]. assert (H : In p (List.filter (fun p => Js.Qleb lo p && Js.Qleb p hi) prices))
      by (rewrite E; left; reflexivity).
    apply filter_In in H. tauto.
Qed.

Lemma extractPrice_lowest execAll html url price :
  extractPriceFromHtml execAll html url = Some price ->
  In price (collectPrices execAll html url)
  /\ (Js.includes url "iphone" || Js.includes url "iPhone" = false ->
      forall q, In q (collectPrices execAll html url) -> (price <= q)%Q).
Proof.
  unfold extractPriceFromHtml. set (collected := collectPrices execAll html url).
  pose proof (sortAscending_head (unique nil collected)) as Hhead.
  assert (Hin : forall q, In q (sortAscending (unique nil collected)) -> In q collected).
  { intros q Hq. apply (proj1 (sortAscending_In _ _)) in Hq. exact (unique_In _ _ _ Hq). }
  destruct (sortAscending (unique nil collected)) as [|lowest sorted]; [discriminate|].
  destruct (Js.includes url "iphone" || Js.includes url "iPhone").
  - intros H. split; [|discriminate]. apply Hin.
    destruct (Js.includes url "128gb" || Js.includes url "128GB");
      exact (preferBand_In _ _ _ _ H).
  - intros [= <-]. split; [apply Hin; left; reflexivity|]. intros _ q Hq.
    destruct (unique_represents q collected nil Hq) as [(s & [] & _)|(u & Hu & Heq)].
    rewrite <- Heq. exact (Hhead u Hu).
Qed.

Lemma insertSorted_sorted (p : Q) (sorted : list Q) :
  StronglySorted Qle sorted -> StronglySorted Qle (insertSorted p sorted).
Proof.
  induction 1 as [|r rest Hs IH Hall]; cbn [insertSorted].
  - constructor; constructor.
  - destruct (Js.Qleb p r) eqn:E.
    + apply Qleb_true in E. constructor; [constructor; assumption|].
      constructor; [exact E|].
      apply List.Forall_forall. intros q Hq. apply Qle_trans with r; [exact E|].
      exact (proj1 (List.Forall_forall _ _) Hall q Hq).
    + assert (Hr : (r <= p)%Q).
      { apply Qlt_le_weak, Qnot_le_lt. intros Hle. apply Qleb_true in Hle. congruence. }
      constructor; [exact IH|].
      apply List.Forall_forall. intros q Hq. apply insertSorted_In in Hq as [-> | Hq]; [exact Hr|].
      exact (proj1 (List.Forall_forall _ _) Hall q Hq).
Qed.

Lemma sortAscending_sorted (prices : list Q) : StronglySorted Qle (sortAscending prices).
Proof.
  induction prices as [|p rest IH]; cbn [sortAscending fold_right]; [constructor|].
  apply insertSorted_sorted. exact IH.
Qed.

(** The first element a filter keeps of a sorted list is the lowest of those
    it keeps; it keeps none exactly when the test fails everywhere. *)
Lemma filter_sorted_first (f : Q -> bool) (sorted : list Q) :
  StronglySorted Qle sorted ->
  match List.filter f sorted with
  | nil => forall q, In q sorted -> f q = false
  | p :: _ => In p sorted /\ f p = true /\ forall q, In q sorted -> f q = true -> (p <= q)%Q
  end.
Proof.
  induction 1 as [|r rest Hs IH Hall]; cbn [List.filter]; [intros q []|].
  destruct (f r) eqn:E.
  - split; [left; reflexivity|]. split; [exact E|].
    intros q [<- | Hq] _; [apply Qle_refl|].
    exact (proj1 (List.Forall_forall _ _) Hall q Hq).
  - destruct (List.filter f rest) as [|p kept].
    + intros q [<- | Hq]; [exact E|exact (IH q Hq)].
    + destruct IH as (Hin & Hp & Hlow). split; [right; exact Hin|]. split; [exact Hp|].
      intros q [<- | Hq] Hf; [congruence|exact (Hlow q Hq Hf)].
Qed.

Lemma inBand_true (lo hi p : Q) :
  Js.Qleb lo p && Js.Qleb p hi = true <-> (lo <= p <= hi)%Q.
Proof. rewrite andb_true_iff, !Qleb_true. reflexivity. Qed.

(** What [extractPriceFromHtml] picks among the collected prices. *)
Lemma extractPrice_choice execAll html url price :
  extractPriceFromHtml execAll html url = Some price ->
  let collected := collectPrices execAll html url in
  In price collected
  /\ match preferredBand url with
     | None => forall q, In q collected -> (price <= q)%Q
     | Some (lo, hi) =>
         ((exists q, In q collected /\ (lo <= q <= hi)%Q) ->
          (lo <= price <= hi)%Q
          /\ forall q, In q collected -> (lo <= q <= hi)%Q -> (price <= q)%Q)
         /\ ((forall q, In q collected -> ~ (lo <= q <= hi)%Q) ->
             forall q, In q collected -> (price <= q)%Q)
     end.
Proof.
  cbn zeta. unfold extractPriceFromHtml, preferredBand.
  set (collected := collectPrices execAll html url).
  pose proof (sortAscending_head (unique nil collected)) as Hhead.
  pose proof (sortAscending_sorted (unique nil collected)) as Hsorted.
  assert (Hin : forall q, In q (sortAscending (unique nil collected)) -> In q collected).
  { intros q Hq. apply (proj1 (sortAscending_In _ _)) in Hq. exact (unique_In _ _ _ Hq). }
  assert (Hrep : forall q, In q collected ->
                   exists u, In u (sortAscending (unique nil collected)) /\ (u == q)%Q).
  { intros q Hq. destruct (unique_represents q collected nil Hq) as [(s & [] & _)|(u & Hu & Heq)].
    exists u. split; [apply sortAscending_In; exact Hu|exact Heq]. }
  destruct (sortAscending (unique nil collected)) as [|lowest sorted] eqn:Es; [discriminate|].
  assert (Hlowest : forall q, In q collected -> (lowest <= q)%Q).
  { intros q Hq. destruct (unique_represents q collected nil Hq) as [(s & [] & _)|(u & Hu & Heq)].
    rewrite <- Heq. exact (Hhead u Hu). }
  assert (Hband : forall lo hi,
             preferBand lo hi (lowest :: sorted) = Some price ->
             In price collected
             /\ ((exists q, In q collected /\ (lo <= q <= hi)%Q) ->
                 (lo <= price <= hi)%Q
                 /\ forall q, In q collected -> (lo <= q <= hi)%Q -> (price <= q)%Q)
             /\ ((forall q, In q collected -> ~ (lo <= q <= hi)%Q) ->
                 forall q, In q collected -> (price <= q)%Q)).
  { intros lo hi. unfold preferBand.
    pose proof (filter_sorted_first (fun p => Js.Qleb lo p && Js.Qleb p hi) _ Hsorted) as Hf.
    destruct (List.filter _ (lowest :: sorted)) as [|p kept].
    - cbn [head]. intros [= <-]. split; [apply Hin; left; reflexivity|]. split.
      + intros (q & Hq & Hb). exfalso. destruct (Hrep q Hq) as (u & Hu & Heq).
        specialize (Hf u Hu). rewrite <- Heq in Hb. apply inBand_true in Hb. congruence.
      + intros _. exact Hlowest.
    - destruct Hf as (Hp & Hb & Hlow). intros [= <-]. apply inBand_true in Hb.
      split; [apply Hin; exact Hp|]. split.
      + intros _. split; [exact Hb|]. intros q Hq Hqb.
        destruct (Hrep q Hq) as (u & Hu & Heq). rewrite <- Heq.
        apply (Hlow u Hu). apply inBand_true. rewrite Heq. exact Hqb.
      + intros Hnone. exfalso. exact (Hnone p (Hin p Hp) Hb). }
  destruct (Js.includes url "iphone" || Js.includes url "iPhone").
  - destruct (Js.includes url "128gb" || Js.includes url "128GB"); apply Hband.
  - intros [= <-]. split; [apply Hin; left; reflexivity|exact Hlowest].
Qed.

Lemma extractPrice_null execAll html url :
  extractPriceFromHtml execAll html url = None <-> collectPrices execAll html url = nil.
Proof.
  unfold extractPriceFromHtml. set (collected := collectPrices execAll html url). split.
  - pose proof (sortAscending_sorted (unique nil collected)) as Hsorted.
    destruct (sortAscending (unique nil collected)) as [|lowest sorted] eqn:Es.
    + intros _. destruct collected as [|q rest]; [reflexivity|].
      destruct (unique_represents q (q :: rest) nil (or_introl eq_refl))
        as [(s & [] & _)|(u & Hu & _)].
      apply sortAscending_In in Hu. rewrite Es in Hu. destruct Hu.
    + assert (Hsome : forall lo hi, preferBand lo hi (lowest :: sorted) <> None).
      { intros lo hi. unfold preferBand.
        destruct (List.filter _ (lowest :: sorted)); discriminate. }
      destruct (_ || _); [|discriminate].
      destruct (_ || _); intros H; exfalso; exact (Hsome _ _ H).
  - intros ->. reflexivity.
Qed.

(** C6, as stated, fails for [extractPriceFromHtml]: on a page where the
    first pattern of the table finds 500, a price inside the accepted band,
    and the ninth finds 100, the function returns 100. *)
Lemma url_extraction_returns_lowest_not_first :
  patternPrices twoPriceExec twoPricePage (Re amazonPatterns 0) = (500 # 1) :: nil
  /\ extractPriceFromHtml twoPriceExec twoPricePage "https://www.amazon.com/dp/B000"
     = Some (100 # 1).
Proof. vm_compute. split; reflexivity. Qed.

(** C6, amended.  [extractFirstResultWithTitle] tries the selectors of the
    platform in the order of their table and returns the price of the first
    rule that matches with a candidate passing the test; a rule that does
    not match, or whose candidate is refused, hands over to the next rule;
    the result is [null] exactly when no rule has a valid candidate.
    [extractPriceFromHtml] does not stop at the first rule: it gathers the
    candidates within 50..1500 of every pattern, answers [null] exactly when
    there is none, and otherwise returns one of them: the lowest of all when
    the URL does not mention iphone; for an iphone URL the lowest of those
    inside the preferred band (300..700 with 128gb, else 200..900) when there
    is one, and the lowest of all when there is none. *)
Theorem first_valid_rule_wins
    (jsMatch : Regex -> string -> option Match) (execAll : Regex -> string -> list string)
    (trim : string -> string) (html platform searchTerms url : string) :
  let result := extractFirstResultWithTitle jsMatch trim html platform searchTerms in
  let rule := validCandidate jsMatch html platform searchTerms in
  let collected := collectPrices execAll html url in
  (forall price, priceOf result = Some price
     <-> exists i, rule i = Some price /\ forall j, (j < i)%nat -> rule j = None)
  /\ (result = ExNull <-> forall i, rule i = None)
  /\ (forall price, extractPriceFromHtml execAll html url = Some price ->
        In price collected
        /\ (Js.includes url "iphone" || Js.includes url "iPhone" = false ->
            forall q, In q collected -> (price <= q)%Q))
  /\ (extractPriceFromHtml execAll html url = None <-> collected = nil)
  /\ (forall price lo hi,
        extractPriceFromHtml execAll html url = Some price ->
        preferredBand url = Some (lo, hi) ->
        ((exists q, In q collected /\ (lo <= q <= hi)%Q) ->
         (lo <= price <= hi)%Q
         /\ forall q, In q collected -> (lo <= q <= hi)%Q -> (price <= q)%Q)
        /\ ((forall q, In q collected -> ~ (lo <= q <= hi)%Q) ->
            forall q, In q collected -> (price <= q)%Q))
  /\ (preferredBand url = None
      <-> Js.includes url "iphone" || Js.includes url "iPhone" = false).
Proof.
  cbn zeta. pose proof (extract_first_valid jsMatch trim html platform searchTerms) as [H1 H2].
  split; [exact H1|]. split; [exact H2|].
  split; [intros price; apply extractPrice_lowest|].
  split; [apply extractPrice_null|]. split.
  - intros price lo hi He Hb.
    pose proof (extractPrice_choice execAll html url price He) as [_ Hc].
    cbn zeta in Hc. rewrite Hb in Hc. exact Hc.
  - unfold preferredBand. destruct (Js.includes url "iphone" || Js.includes url "iPhone").
    + destruct (_ || _); split; discriminate.
    + split; reflexivity.
Qed.

(** ** Adding a product *)

Lemma isDuplicate_normalized (products : list Product) (searchTerms : string) (p : Product) :
  In p products ->
  normalize (p_searchTerms p) = normalize (Some searchTerms) ->
  isDuplicate products searchTerms = true.
Proof.
  intros Hin Hn. unfold isDuplicate. apply existsb_exists. exists p. split; [exact Hin|].
  rewrite Hn, String.eqb_refl. apply orb_true_r.
Qed.

(** C8, as stated, fails on the reply: with three products stored, one of them
    for the query [iphone 13], a well-formed request for [iPhone 13] is
    refused with the free-tier error, not the duplicate error; the store is
    unchanged. *)
Lemma duplicate_refused_as_over_limit :
  let products := tracked "iphone 13" :: tracked "ipad" :: tracked "kindle" :: nil in
  let data := mkData "iPhone 13" "Phone" (Some (mkPlatforms true false)) None in
  normalize (Some "iPhone 13") = normalize (p_searchTerms (tracked "iphone 13"))
  /\ passesValidation data = true
  /\ addProduct noMatch id id (Some data) (coldStart quiet) products
     = (Failure errLimit, coldStart quiet, products).
Proof. repeat split. Qed.

Lemma passesValidation_checks (data : ProductData) :
  passesValidation data
  = negb (fieldsMissing data) && negb (noPlatformSelected data) && negb (targetRefused data).
Proof.
  unfold passesValidation, fieldsMissing, noPlatformSelected, targetRefused.
  destruct (_ || _); [reflexivity|]. cbn [negb andb].
  destruct (d_platforms data) as [platforms|]; [|reflexivity].
  destruct (amazon platforms), (ebay platforms); cbn [negb andb orb]; try reflexivity;
    destruct (d_targetPrice data); reflexivity.
Qed.

(** C8, amended.  When the query of the request normalizes (lower case,
    everything but letters and digits removed) to the same text as the query
    of a stored product, the handler replies with a failure and leaves the
    stored products and the process state as they were.  The failure is the
    error of the first check that refuses the request, in the order of the
    handler: search terms or name missing, neither Amazon nor eBay selected,
    target price not positive, [maxProductsFree] products stored already,
    and only then the duplicate error; so it is the duplicate error exactly
    when the request passes the field checks and fewer than
    [maxProductsFree] products are stored. *)
Theorem duplicate_query_rejected
    (jsMatch : Regex -> string -> option Match) (trim encodeURIComponent : string -> string)
    (data : ProductData) (w : World) (products : list Product) (p : Product) :
  In p products ->
  normalize (p_searchTerms p) = normalize (Some (d_searchTerms data)) ->
  let '(reply, w', products') :=
    addProduct jsMatch trim encodeURIComponent (Some data) w products in
  products' = products
  /\ w' = w
  /\ (exists error, reply = Failure error)
  /\ (passesValidation data = true -> (length products < maxProductsFree)%nat ->
      reply = Failure errDuplicate)
  /\ reply = Failure (refusalOfDuplicate data products)
  /\ (fieldsMissing data = true -> reply = Failure errMissing)
  /\ (fieldsMissing data = false -> noPlatformSelected data = true ->
      reply = Failure errPlatform)
  /\ (fieldsMissing data = false -> noPlatformSelected data = false ->
      targetRefused data = true -> reply = Failure errTarget)
  /\ (passesValidation data = true -> (maxProductsFree <= length products)%nat ->
      reply = Failure errLimit)
  /\ (reply = Failure errDuplicate
      <-> passesValidation data = true /\ (length products < maxProductsFree)%nat).
Proof.
  intros Hin Hn. pose proof (isDuplicate_normalized _ _ _ Hin Hn) as Hdup.
  pose proof (passesValidation_checks data) as Hpass.
  assert (Hrun : addProduct jsMatch trim encodeURIComponent (Some data) w products
                 = (Failure (refusalOfDuplicate data products), w, products)).
  { unfold addProduct, refusalOfDuplicate, fieldsMissing, noPlatformSelected, targetRefused.
    destruct (String.eqb (d_searchTerms data) "" || String.eqb (d_name data) "");
      [reflexivity|].
    destruct (d_platforms data) as [platforms|]; [|reflexivity].
    destruct (negb (amazon platforms) && negb (ebay platforms)); [reflexivity|].
    destruct (match d_targetPrice data with
              | Some t => Js.truthy t && Js.Qleb t 0
              | None => false
              end); [reflexivity|].
    destruct (maxProductsFree <=? length products)%nat; [reflexivity|].
    rewrite Hdup. reflexivity. }
  rewrite Hrun. clear Hrun.
  split; [reflexivity|]. split; [reflexivity|]. split; [eexists; reflexivity|].
  unfold refusalOfDuplicate. rewrite Hpass.
  destruct (fieldsMissing data), (noPlatformSelected data), (targetRefused data);
    cbn [negb andb];
    destruct (Nat.leb_spec maxProductsFree (length products));
    repeat split; intros; try reflexivity; try discriminate; try lia;
    match goal with
    | H : Failure _ = Failure _ |- _ => discriminate H
    | H : _ /\ _ |- _ => destruct H; try discriminate; try lia
    end.
Qed.

Lemma duplicate_query_rejected_witness :
  let products := tracked "iphone 13" :: nil in
  let data := mkData "iPhone-13" "Phone" (Some (mkPlatforms true true)) (Some 400%Q) in
  addProduct bareMatch id id (Some data) (coldStart answering) products
  = (Failure errDuplicate, coldStart answering, products).
Proof.
  intros products data.
  pose proof (duplicate_query_rejected bareMatch id id data (coldStart answering) products
                (tracked "iphone 13") (or_introl eq_refl) eq_refl) as H.
  destruct (addProduct bareMatch id id (Some data) (coldStart answering) products)
    as [[reply w'] products'].
  destruct H as (-> & -> & _ & Hd & _).
  rewrite (Hd eq_refl (le_S 2 2 (le_n 2))). reflexivity.
Defined.

(** ** Response cache *)

Lemma waitIfNeeded_cache rl key w : priceCache (waitIfNeeded rl key w) = priceCache w.
Proof. reflexivity. Qed.

Lemma request_cache w : priceCache (snd (request w)) = priceCache w.
Proof. reflexivity. Qed.

Lemma accepted_object e title price :
  accepted e = Some (title, price) -> e = ExObject title price /\ (0 < price)%Q.
Proof.
  destruct e as [|q|t q]; cbn [accepted]; try discriminate.
  destruct (Js.Qltb 0 q) eqn:E; [|discriminate].
  intros [= -> ->]. split; [reflexivity|]. by apply Qltb_true.
Qed.

Section CacheFacts.

Variable jsMatch : Regex -> string -> option Match.
Variable execAll : Regex -> string -> list string.
Variable trim : string -> string.
Variable hostnameOf : string -> option string.

(** What a call of [scrapeFirstResultPrice] does to the cache. *)
Lemma scrape_cache (searchTerms platform : string) (w : World) :
  let run := scrapeFirstResultPrice jsMatch trim searchTerms platform w in
  priceCache (snd run) = priceCache w
  \/ exists html title price,
       extractFirstResultWithTitle jsMatch trim html platform searchTerms
       = ExObject title price
       /\ (0 < price)%Q
       /\ fst run = Some (mkResult (Some title) price)
       /\ priceCache (snd run)
          = <[searchKey searchTerms platform := mkEntry (Some title) price (clock (snd run))]>
              (priceCache w).
Proof.
  cbn zeta. unfold scrapeFirstResultPrice.
  destruct (negb (supported platform)); [left; reflexivity|].
  destruct (cacheGet _ _); [left; reflexivity|].
  destruct (request _) as [out w2] eqn:Er.
  assert (Hc : priceCache w2 = priceCache w)
    by (change w2 with (snd (out, w2)); rewrite <- Er; reflexivity).
  destruct out as [code [html|]| |]; cbn [snd]; try (left; exact Hc).
  - destruct (negb _); [left; exact Hc|].
    destruct (accepted _) as [[title price]|] eqn:Ea; [|left; exact Hc].
    apply accepted_object in Ea as [He Hp]. right. exists html, title, price.
    repeat split; [exact He|exact Hp|]. cbn. rewrite Hc. reflexivity.
  - destruct (negb _); left; exact Hc.
Qed.

(** What a call of [scrapePrice] does to the cache. *)
Lemma scrapePrice_cache (url : string) (w : World) :
  let run := scrapePrice execAll hostnameOf url w in
  priceCache (snd run) = priceCache w
  \/ exists html price,
       extractPriceFromHtml execAll html url = Some price
       /\ (0 < price)%Q
       /\ fst run = price
       /\ priceCache (snd run) = <[url := mkEntry None price (clock (snd run))]> (priceCache w).
Proof.
  cbn zeta. unfold scrapePrice.
  destruct (hostnameOf url) as [hostname|]; [|left; reflexivity].
  destruct (cacheGet _ _); [left; reflexivity|].
  destruct (request _) as [out w2] eqn:Er.
  assert (Hc : priceCache w2 = priceCache w)
    by (change w2 with (snd (out, w2)); rewrite <- Er; reflexivity).
  destruct out as [code [html|]| |]; cbn [snd]; try (left; exact Hc).
  - destruct (negb _); [left; exact Hc|].
    destruct (extractPriceFromHtml execAll html url) as [price|] eqn:Ee; [|left; exact Hc].
    destruct (Js.truthy price && Js.Qltb 0 price) eqn:Ep; [|left; exact Hc].
    apply andb_true_iff in Ep as [_ Hp]. apply Qltb_true in Hp.
    right. exists html, price. repeat split; [exact Ee|exact Hp|]. cbn. rewrite Hc. reflexivity.
  - destruct (negb _); left; exact Hc.
Qed.

Lemma reachable_genuine callable (w : World) :
  reachable jsMatch execAll trim hostnameOf callable w ->
  forall key entry, priceCache w !! key = Some entry ->
                    genuine jsMatch execAll trim key entry.
Proof.
  induction 1 as [net|searchTerms platform w Hw IH|url w Hu Hw IH|d w Hd Hw IH];
    intros key entry Hl.
  - cbn in Hl. rewrite lookup_empty in Hl. discriminate.
  - destruct (scrape_cache searchTerms platform w) as [Hc|(html & title & price & He & Hp & _ & Hc)];
      rewrite Hc in Hl; [exact (IH key entry Hl)|].
    destruct (decide (searchKey searchTerms platform = key)) as [<-|Hne].
    + rewrite lookup_insert_eq in Hl. injection Hl as <-. split; [exact Hp|].
      left. exists html, platform, searchTerms, title. repeat split. exact He.
    + rewrite lookup_insert_ne in Hl by exact Hne. exact (IH key entry Hl).
  - destruct (scrapePrice_cache url w) as [Hc|(html & price & He & Hp & _ & Hc)];
      rewrite Hc in Hl; [exact (IH key entry Hl)|].
    destruct (decide (url = key)) as [<-|Hne].
    + rewrite lookup_insert_eq in Hl. injection Hl as <-. split; [exact Hp|].
      right. exists html. split; [reflexivity|exact He].
    + rewrite lookup_insert_ne in Hl by exact Hne. exact (IH key entry Hl).
  - exact (IH key entry Hl).
Qed.

End CacheFacts.



(** ** Walmart, Best Buy and Target *)

Lemma selectorLoop_number jsMatch html candidate valid selectors :
  selectorLoop jsMatch html candidate valid ExNumber selectors = ExNull
  \/ exists price, selectorLoop jsMatch html candidate valid ExNumber selectors = ExNumber price.
Proof.
  induction selectors as [|pattern rest IH]; [left; reflexivity|].
  rewrite selectorLoop_cons. destruct (tryRule _ _ _ _ _) as [price|]; [|exact IH].
  right. exists price. reflexivity.
Qed.

Lemma extract_bare_number jsMatch trim html platform searchTerms :
  platform = "walmart" \/ platform = "bestbuy" \/ platform = "target" ->
  extractFirstResultWithTitle jsMatch trim html platform searchTerms = ExNull
  \/ exists price,
       extractFirstResultWithTitle jsMatch trim html platform searchTerms = ExNumber price.
Proof.
  intros [-> | [-> | ->]]; apply selectorLoop_number.
Qed.

Lemma extract_object_platform jsMatch trim html platform searchTerms title price :
  extractFirstResultWithTitle jsMatch trim html platform searchTerms = ExObject title price ->
  platform = "amazon" \/ platform = "ebay".
Proof.
  unfold extractFirstResultWithTitle.
  destruct (String.eqb_spec platform "amazon"); [tauto|].
  destruct (String.eqb_spec platform "ebay"); [tauto|].
  assert (Hnum : forall selectors,
             selectorLoop jsMatch html wholeAndFraction (storeValid searchTerms) ExNumber selectors
             <> ExObject title price).
  { intros selectors.
    destruct (selectorLoop_number jsMatch html wholeAndFraction (storeValid searchTerms) selectors)
      as [-> | [q ->]]; discriminate. }
  repeat (destruct (String.eqb platform _); [intros H; exfalso; exact (Hnum _ H)|]).
  discriminate.
Qed.

Lemma reachable_keys jsMatch execAll trim hostnameOf (w : World) :
  reachable jsMatch execAll trim hostnameOf httpUrl w ->
  forall key, is_Some (priceCache w !! key) -> keyOrigin key.
Proof.
  induction 1 as [net|searchTerms platform w Hw IH|url w Hu Hw IH|d w Hd Hw IH]; intros key Hl.
  - cbn in Hl. rewrite lookup_empty in Hl. by destruct Hl.
  - destruct (scrape_cache jsMatch trim searchTerms platform w)
      as [Hc|(html & title & price & He & _ & _ & Hc)];
      rewrite Hc in Hl; [exact (IH key Hl)|].
    destruct (decide (searchKey searchTerms platform = key)) as [<-|Hne].
    + destruct (extract_object_platform _ _ _ _ _ _ _ He) as [-> | ->].
      * left. exists searchTerms. reflexivity.
      * right. left. exists searchTerms. reflexivity.
    + rewrite lookup_insert_ne in Hl by exact Hne. exact (IH key Hl).
  - destruct (scrapePrice_cache execAll hostnameOf url w) as [Hc|(html & price & _ & _ & _ & Hc)];
      rewrite Hc in Hl; [exact (IH key Hl)|].
    destruct (decide (url = key)) as [<-|Hne].
    + right. right. exact Hu.
    + rewrite lookup_insert_ne in Hl by exact Hne. exact (IH key Hl).
  - exact (IH key Hl).
Qed.

Lemma store_key_absent platform searchTerms :
  platform = "walmart" \/ platform = "bestbuy" \/ platform = "target" ->
  ~ keyOrigin (searchKey searchTerms platform).
Proof.
  intros Hp [[t Ht]|[[t Ht]|Hh]]; destruct Hp as [-> | [-> | ->]];
    try (cbn in Ht; discriminate Ht); unfold httpUrl in Hh; cbn in Hh; discriminate Hh.
Qed.

(** C10.  For walmart, bestbuy and target, on every page
    [extractFirstResultWithTitle] returns a bare number, never an object:
    the candidate of the first rule that matches with a valid candidate, and
    [null] exactly when no rule has one.  The test of the caller,
    [extractedResult.price > 0], refuses both.  Hence, in every state reached
    by a process that starts cold and calls [scrapePrice] with http(s) URLs
    only, [scrapeFirstResultPrice] on these platforms resolves with the
    value of the fallback generator and leaves the cache as it was. *)
Theorem store_platforms_always_fall_back
    (jsMatch : Regex -> string -> option Match) (execAll : Regex -> string -> list string)
    (trim : string -> string) (hostnameOf : string -> option string)
    (html searchTerms platform : string) (w : World) :
  platform = "walmart" \/ platform = "bestbuy" \/ platform = "target" ->
  reachable jsMatch execAll trim hostnameOf httpUrl w ->
  let extracted := extractFirstResultWithTitle jsMatch trim html platform searchTerms in
  let rule := validCandidate jsMatch html platform searchTerms in
  let run := scrapeFirstResultPrice jsMatch trim searchTerms platform w in
  (extracted = ExNull \/ exists price, extracted = ExNumber price)
  /\ (forall price, extracted = ExNumber price
        <-> exists i, rule i = Some price /\ forall j, (j < i)%nat -> rule j = None)
  /\ (extracted = ExNull <-> forall i, rule i = None)
  /\ accepted extracted = None
  /\ fst run = Some (getSearchFallbackPrice searchTerms platform)
  /\ priceCache (snd run) = priceCache w.
Proof.
  intros Hp Hw. cbn zeta.
  assert (Hbare : forall page, accepted (extractFirstResultWithTitle jsMatch trim page platform
                                           searchTerms) = None).
  { intros page. destruct (extract_bare_number jsMatch trim page platform searchTerms Hp)
      as [-> | [q ->]]; reflexivity. }
  split; [exact (extract_bare_number _ _ _ _ _ Hp)|].
  pose proof (extract_first_valid jsMatch trim html platform searchTerms) as [H1 H2].
  cbn zeta in H1, H2.
  split.
  { intros price. rewrite <- H1.
    destruct (extract_bare_number jsMatch trim html platform searchTerms Hp) as [-> | [q ->]];
      cbn [priceOf]; split; try discriminate; intros [= ->]; reflexivity. }
  split; [exact H2|]. split; [apply Hbare|].
  assert (Hs : supported platform = true) by (destruct Hp as [-> | [-> | ->]]; reflexivity).
  assert (Hn : findsNothing jsMatch trim searchTerms platform w).
  { split.
    - unfold cacheGet. rewrite waitIfNeeded_cache.
      destruct (priceCache w !! searchKey searchTerms platform) as [entry|] eqn:El; [|reflexivity].
      exfalso. apply (store_key_absent platform searchTerms Hp).
      apply (reachable_keys _ _ _ _ _ Hw). rewrite El. by eexists.
    - destruct (fst (request _)) as [code [page|]| |]; try exact I. intros _. apply Hbare. }
  rewrite (scrape_falls_back _ _ _ _ _ Hs Hn). split; reflexivity.
Qed.

Lemma store_platforms_always_fall_back_witness :
  let w := snd (scrapeFirstResultPrice centsMatch id "ipad" "amazon" (coldStart answeringCents)) in
  let extracted := extractFirstResultWithTitle centsMatch id centsPage "walmart" "ipad" in
  let run := scrapeFirstResultPrice centsMatch id "ipad" "walmart" w in
  extracted = ExNumber (49900 # 100)
  /\ accepted extracted = None
  /\ fst run = Some (getSearchFallbackPrice "ipad" "walmart")
  /\ priceCache (snd run) = priceCache w.
Proof.
  intros w extracted run.
  destruct (store_platforms_always_fall_back centsMatch noExec id (fun _ => None)
              centsPage "ipad" "walmart" w (or_introl eq_refl)
              (reach_search _ _ _ _ _ _ _ _ (reach_start _ _ _ _ _ _)))
    as (_ & Hnumber & _ & Hrefused & Hrun & Hcache).
  split; [|split; [exact Hrefused|split; [exact Hrun|exact Hcache]]].
  apply Hnumber. exists 5%nat. split; [vm_compute; reflexivity|].
  intros j Hj. destruct j as [|[|[|[|[|j]]]]]; try (vm_compute; reflexivity).
  exfalso. lia.
Defined.

(** * Further properties of the engine *)

(** ** Range of the fallback prices *)

Lemma variationOf_range (hash n k : Z) :
  (0 < n)%Z -> (- k <= variationOf hash n k < n - k)%Z.
Proof.
  intros Hn. unfold variationOf.
  pose proof (Z.rem_bound_pos (Z.abs hash) n (Z.abs_nonneg hash) Hn). lia.
Qed.

Ltac fallback_cases :=
  repeat match goal with
         | |- context [if ?b then _ else _] => destruct b
         end.

Ltac compute_floors hash :=
  repeat match goal with
         | |- context [Qfloor ?q] =>
             lazymatch q with
             | context [hash] => fail
             | _ => let v := eval vm_compute in (Qfloor q) in change (Qfloor q) with v
             end
         end;
  repeat match goal with
         | |- context [Z.max 20 ?b] =>
             let v := eval vm_compute in (Z.max 20 b) in change (Z.max 20 b) with v
         end.

Lemma getSearchFallbackPrice_range (searchTerms platform : string) :
  exists dollars : Z,
    getSearchFallbackPrice searchTerms platform
    = mkResult (Some (searchTerms ++ " - " ++ Js.capitalize platform ++ " Result"))
               (inject_Z dollars)
    /\ (10 <= dollars <= 1749)%Z.
Proof.
  unfold getSearchFallbackPrice, platformMultiplier.
  set (hash := hashOf searchTerms). set (terms := Js.toLowerCase searchTerms).
  pose proof (variationOf_range hash 200 100 eq_refl).
  pose proof (variationOf_range hash 150 75 eq_refl).
  pose proof (variationOf_range hash 100 50 eq_refl).
  pose proof (variationOf_range hash 500 250 eq_refl).
  pose proof (variationOf_range hash 300 150 eq_refl).
  pose proof (variationOf_range hash 50 25 eq_refl).
  pose proof (Z.rem_bound_pos (Z.abs hash) 20 (Z.abs_nonneg hash) eq_refl).
  pose proof (Z.rem_bound_pos (Z.abs hash) 80 (Z.abs_nonneg hash) eq_refl).
  pose proof (Z.rem_bound_pos (Z.abs hash) 76 (Z.abs_nonneg hash) eq_refl).
  pose proof (Z.rem_bound_pos (Z.abs hash) 72 (Z.abs_nonneg hash) eq_refl).
  pose proof (Z.rem_bound_pos (Z.abs hash) 68 (Z.abs_nonneg hash) eq_refl).
  clearbody hash terms.
  fallback_cases; cbn [default]; eexists; (split; [reflexivity|]).
  all: compute_floors hash.
  all: lia.
Qed.

(** X1.  For a platform name in ASCII that is not one of those an object
    literal inherits, the fallback of a search is a whole number of dollars
    between 10 and 1749, with the title made of the query and the
    capitalised platform.  The five platforms of the engine are such
    names. *)
Theorem search_fallback_price_range (searchTerms platform : string) :
  allChars isAscii platform = true ->
  inheritedKey platform = false ->
  (exists dollars : Z,
     getSearchFallbackPrice searchTerms platform
     = mkResult (Some (searchTerms ++ " - " ++ Js.capitalize platform ++ " Result"))
                (inject_Z dollars)
     /\ (10 <= dollars <= 1749)%Z)
  /\ forall known, supported known = true ->
       allChars isAscii known = true /\ inheritedKey known = false.
Proof.
  intros _ _. split; [exact (getSearchFallbackPrice_range searchTerms platform)|].
  intros known H. unfold supported in H.
  repeat (apply orb_true_iff in H; destruct H as [H|H]).
  all: apply String.eqb_eq in H; subst known; split; reflexivity.
Qed.

Lemma search_fallback_price_range_witness :
  exists dollars : Z,
    getSearchFallbackPrice "usb cable" "ebay"
    = mkResult (Some ("usb cable" ++ " - " ++ Js.capitalize "ebay" ++ " Result"))
               (inject_Z dollars)
    /\ (10 <= dollars <= 1749)%Z.
Proof. exact (proj1 (search_fallback_price_range "usb cable" "ebay" eq_refl eq_refl)). Defined.

Lemma getFallbackPrice_range (url : string) :
  exists dollars : Z, getFallbackPrice url = inject_Z dollars /\ (10 <= dollars <= 1099)%Z.
Proof.
  unfold getFallbackPrice. set (hash := hashOf url).
  pose proof (variationOf_range hash 60 30 eq_refl).
  pose proof (variationOf_range hash 40 20 eq_refl).
  pose proof (variationOf_range hash 100 50 eq_refl).
  pose proof (variationOf_range hash 200 100 eq_refl).
  pose proof (variationOf_range hash 30 15 eq_refl).
  pose proof (variationOf_range hash 20 10 eq_refl).
  fallback_cases; eexists; (split; [reflexivity|]); lia.
Qed.

(** X2.  The fallback of a product URL is a whole number of dollars between
    10 and 1099. *)
Theorem url_fallback_price_range (url : string) :
  exists dollars : Z, getFallbackPrice url = inject_Z dollars /\ (10 <= dollars <= 1099)%Z.
Proof. exact (getFallbackPrice_range url). Qed.

(** ** Range of the extracted prices *)

Lemma tryRule_valid jsMatch html candidate valid pattern price :
  tryRule jsMatch html candidate valid pattern = Some price -> valid price = true.
Proof.
  unfold tryRule. destruct (jsMatch pattern html) as [m|]; [|discriminate].
  destruct (candidate m) as [p|]; [|discriminate].
  destruct (valid p) eqn:E; [|discriminate]. intros [= <-]. exact E.
Qed.

Lemma minPriceFor_floor searchTerms laptop phone :
  (50 <= laptop)%Q -> (50 <= phone)%Q -> (50 <= minPriceFor searchTerms laptop phone)%Q.
Proof.
  intros Hl Hp. unfold minPriceFor.
  destruct (_ || _); [exact Hl|]. destruct (_ || _); [exact Hp|]. apply Qle_refl.
Qed.

Lemma minPriceFor_mono searchTerms :
  (minPriceFor searchTerms 400 100 <= minPriceFor searchTerms 500 150)%Q.
Proof.
  unfold minPriceFor. destruct (_ || _); [discriminate|].
  destruct (_ || _); [discriminate|]. apply Qle_refl.
Qed.

Lemma valid_of_rules platform searchTerms selectors candidate valid price :
  rulesOf platform searchTerms = Some (selectors, candidate, valid) ->
  valid price = true ->
  (minPriceFor searchTerms 400 100 <= price <= 5000)%Q
  /\ (platform = "ebay" -> (minPriceFor searchTerms 500 150 <= price)%Q).
Proof.
  unfold rulesOf. intros Hr Hv.
  destruct (String.eqb_spec platform "amazon") as [->|].
  { injection Hr as <- <- <-. unfold amazonValid in Hv.
    apply andb_true_iff in Hv as [Hband Hmin]. apply andb_true_iff in Hband as [_ Hhi].
    apply Qleb_true in Hmin, Hhi. repeat split; [exact Hmin|exact Hhi|discriminate]. }
  destruct (String.eqb_spec platform "ebay") as [->|].
  { injection Hr as <- <- <-. unfold ebayValid in Hv.
    apply andb_true_iff in Hv as [Hmin Hhi]. apply Qleb_true in Hmin, Hhi.
    repeat split; [|exact Hhi|intros _; exact Hmin].
    apply Qle_trans with (minPriceFor searchTerms 500 150); [apply minPriceFor_mono|exact Hmin]. }
  repeat (destruct (String.eqb platform _);
          [injection Hr as <- <- <-; unfold storeValid in Hv;
           apply andb_true_iff in Hv as [Hmin Hhi]; apply Qleb_true in Hmin, Hhi;
           repeat split; [exact Hmin|exact Hhi|congruence]|]).
  discriminate.
Qed.

Lemma extractFirstResultWithTitle_band
    (jsMatch : Regex -> string -> option Match) (trim : string -> string)
    (html platform searchTerms : string) (price : Q) :
  priceOf (extractFirstResultWithTitle jsMatch trim html platform searchTerms) = Some price ->
  (50 <= price <= 5000)%Q
  /\ (minPriceFor searchTerms 400 100 <= price)%Q
  /\ (platform = "ebay" -> (minPriceFor searchTerms 500 150 <= price)%Q)
  /\ supported platform = true.
Proof.
  intros Hp.
  pose proof (extract_by_rules jsMatch trim html platform searchTerms) as H.
  destruct (rulesOf platform searchTerms) as [[[selectors candidate] valid]|] eqn:Er.
  - destruct H as (found & Hfound & He). rewrite He in Hp.
    apply (selectorLoop_first _ _ _ _ _ Hfound) in Hp as (i & pattern & _ & Ht & _).
    apply tryRule_valid in Ht.
    destruct (valid_of_rules _ _ _ _ _ _ Er Ht) as [[Hmin Hhi] Hebay].
    repeat split; [|exact Hhi|exact Hmin|exact Hebay|].
    + apply Qle_trans with (minPriceFor searchTerms 400 100); [|exact Hmin].
      apply minPriceFor_floor; discriminate.
    + unfold rulesOf in Er. unfold supported.
      repeat (destruct (String.eqb platform _); [reflexivity|]). discriminate.
  - rewrite H in Hp. discriminate.
Qed.

(** X3.  A price returned by [extractFirstResultWithTitle] lies between 50 and
    5000 and is at least the minimum of the query (400 for a laptop query,
    100 for a phone query; on eBay 500 and 150); a platform other than the
    five known ones gives [null]. *)
Theorem extracted_price_in_band
    (jsMatch : Regex -> string -> option Match) (trim : string -> string)
    (html platform searchTerms : string) (price : Q) :
  priceOf (extractFirstResultWithTitle jsMatch trim html platform searchTerms) = Some price ->
  (50 <= price <= 5000)%Q
  /\ (minPriceFor searchTerms 400 100 <= price)%Q
  /\ (platform = "ebay" -> (minPriceFor searchTerms 500 150 <= price)%Q)
  /\ supported platform = true.
Proof. exact (extractFirstResultWithTitle_band jsMatch trim html platform searchTerms price). Qed.

Lemma extracted_price_in_band_witness :
  (50 <= 499 # 1 <= 5000)%Q
  /\ (minPriceFor "ipad" 400 100 <= 499 # 1)%Q
  /\ ("amazon" = "ebay" -> (minPriceFor "ipad" 500 150 <= 499 # 1)%Q)
  /\ supported "amazon" = true.
Proof.
  apply (extracted_price_in_band accessoryMatch id accessoryPage "amazon" "ipad" (499 # 1)).
  reflexivity.
Defined.

Lemma patternPrices_band execAll html pattern price :
  In price (patternPrices execAll html pattern) -> (50 <= price <= 1500)%Q.
Proof.
  unfold patternPrices. intros H. apply filter_In in H as [_ H].
  apply andb_true_iff in H as [Hlo Hhi]. apply Qleb_true in Hlo, Hhi. split; assumption.
Qed.

Lemma collectPrices_band execAll html url price :
  In price (collectPrices execAll html url) -> (50 <= price <= 1500)%Q.
Proof.
  unfold collectPrices. intros H.
  destruct (Js.includes url "amazon.");
    [|destruct (Js.includes url "ebay."); [|destruct H]];
    apply in_flat_map in H as (pattern & _ & H); exact (patternPrices_band _ _ _ _ H).
Qed.

Lemma unique_nil_iff (prices seen : list Q) :
  (forall p, In p prices -> existsb (Qeq_bool p) seen = false) ->
  unique seen prices = nil -> prices = nil.
Proof.
  destruct prices as [|p rest]; [reflexivity|]. intros Hs. cbn [unique].
  rewrite (Hs p (or_introl eq_refl)). discriminate.
Qed.

Lemma sortAscending_nil (prices : list Q) : sortAscending prices = nil -> prices = nil.
Proof.
  intros H. pose proof (sortAscending_head prices) as Hh. rewrite H in Hh. exact Hh.
Qed.

Lemma preferBand_some lo hi p rest : exists q, preferBand lo hi (p :: rest) = Some q.
Proof.
  unfold preferBand. destruct (List.filter _ (p :: rest)) as [|q ?]; eexists; reflexivity.
Qed.

Lemma extractPriceFromHtml_band
    (execAll : Regex -> string -> list string) (html url : string) :
  (extractPriceFromHtml execAll html url = None <-> collectPrices execAll html url = nil)
  /\ (forall price, extractPriceFromHtml execAll html url = Some price ->
                    (50 <= price <= 1500)%Q)
  /\ (Js.includes url "amazon." = false -> Js.includes url "ebay." = false ->
      extractPriceFromHtml execAll html url = None).
Proof.
  assert (Hnone : extractPriceFromHtml execAll html url = None
                  <-> collectPrices execAll html url = nil).
  { unfold extractPriceFromHtml. split.
    - destruct (sortAscending (unique nil (collectPrices execAll html url))) as [|p rest] eqn:E.
      + intros _. apply sortAscending_nil in E.
        apply (unique_nil_iff _ nil); [reflexivity|exact E].
      + destruct (_ || _); [|discriminate].
        destruct (_ || _); destruct (preferBand_some 300 700 p rest) as [q Hq];
          destruct (preferBand_some 200 900 p rest) as [q' Hq']; congruence.
    - intros ->. reflexivity. }
  split; [exact Hnone|]. split.
  - intros price H. apply extractPrice_lowest in H as [H _].
    exact (collectPrices_band _ _ _ _ H).
  - intros Ha He. apply Hnone. unfold collectPrices. rewrite Ha, He. reflexivity.
Qed.

(** X4.  [extractPriceFromHtml] answers [null] exactly when no pattern of the
    table yields a price between 50 and 1500; every price it answers lies in
    that band; and for a URL that contains neither [amazon.] nor [ebay.] it
    always answers [null]. *)
Theorem url_extraction_band
    (execAll : Regex -> string -> list string) (html url : string) :
  (extractPriceFromHtml execAll html url = None <-> collectPrices execAll html url = nil)
  /\ (forall price, extractPriceFromHtml execAll html url = Some price ->
                    (50 <= price <= 1500)%Q)
  /\ (Js.includes url "amazon." = false -> Js.includes url "ebay." = false ->
      extractPriceFromHtml execAll html url = None).
Proof. exact (extractPriceFromHtml_band execAll html url). Qed.

(** ** Range of the prices an acquisition resolves with *)

Lemma inject_Z_band (d lo hi : Z) :
  (lo <= d <= hi)%Z -> (inject_Z lo <= inject_Z d <= inject_Z hi)%Q.
Proof. intros [H1 H2]. split; rewrite <- Zle_Qle; assumption. Qed.

Lemma search_fallback_band searchTerms platform :
  (10 <= r_price (getSearchFallbackPrice searchTerms platform) <= 5000)%Q.
Proof.
  destruct (getSearchFallbackPrice_range searchTerms platform) as (d & -> & Hd).
  cbn [r_price]. destruct (inject_Z_band d 10 1749 Hd) as [Hlo Hhi].
  split; [exact Hlo|]. apply Qle_trans with (inject_Z 1749); [exact Hhi|discriminate].
Qed.

Lemma url_fallback_band url : (10 <= getFallbackPrice url <= 5000)%Q.
Proof.
  destruct (getFallbackPrice_range url) as (d & -> & Hd).
  destruct (inject_Z_band d 10 1099 Hd) as [Hlo Hhi].
  split; [exact Hlo|]. apply Qle_trans with (inject_Z 1099); [exact Hhi|discriminate].
Qed.

Lemma genuine_band jsMatch execAll trim key entry :
  genuine jsMatch execAll trim key entry -> (10 <= c_price entry <= 5000)%Q.
Proof.
  intros [_ [(html & platform & searchTerms & title & _ & _ & He)|(html & _ & He)]].
  - assert (Hp : priceOf (extractFirstResultWithTitle jsMatch trim html platform searchTerms)
                 = Some (c_price entry)) by (rewrite He; reflexivity).
    apply extractFirstResultWithTitle_band in Hp as [[Hlo Hhi] _].
    split; [|exact Hhi]. apply Qle_trans with 50%Q; [discriminate|exact Hlo].
  - apply extractPriceFromHtml_band in He as [Hlo Hhi].
    split; [apply Qle_trans with 50%Q; [discriminate|exact Hlo]|].
    apply Qle_trans with 1500%Q; [exact Hhi|discriminate].
Qed.

Lemma cacheGet_lookup key w entry :
  cacheGet key w = Some entry -> priceCache w !! key = Some entry.
Proof.
  unfold cacheGet. destruct (priceCache w !! key) as [c|]; [|discriminate].
  destruct (_ <? _)%Z; [|discriminate]. intros [= <-]. reflexivity.
Qed.

Section BandFacts.

Variable jsMatch : Regex -> string -> option Match.
Variable execAll : Regex -> string -> list string.
Variable trim : string -> string.
Variable hostnameOf : string -> option string.
Variable callable : string -> Prop.

Lemma scrape_band (searchTerms platform : string) (w : World) :
  reachable jsMatch execAll trim hostnameOf callable w ->
  supported platform = true ->
  exists r, fst (scrapeFirstResultPrice jsMatch trim searchTerms platform w) = Some r
            /\ (10 <= r_price r <= 5000)%Q.
Proof.
  intros Hw Hs. unfold scrapeFirstResultPrice. rewrite Hs. cbn [negb].
  destruct (cacheGet _ _) as [c|] eqn:Ec.
  - eexists. split; [reflexivity|]. cbn [r_price].
    apply cacheGet_lookup in Ec. rewrite waitIfNeeded_cache in Ec.
    exact (genuine_band _ _ _ _ _ (reachable_genuine _ _ _ _ _ _ Hw _ _ Ec)).
  - destruct (request _) as [out w2].
    pose proof (search_fallback_band searchTerms platform) as Hf.
    destruct out as [code [html|]| |]; try (eexists; split; [reflexivity|exact Hf]).
    + destruct (negb _); [eexists; split; [reflexivity|exact Hf]|].
      destruct (accepted _) as [[title price]|] eqn:Ea;
        [|eexists; split; [reflexivity|exact Hf]].
      apply accepted_object in Ea as [He _]. eexists. split; [reflexivity|]. cbn [r_price].
      assert (Hp : priceOf (extractFirstResultWithTitle jsMatch trim html platform searchTerms)
                   = Some price) by (rewrite He; reflexivity).
      apply extractFirstResultWithTitle_band in Hp as [[Hlo Hhi] _].
      split; [apply Qle_trans with 50%Q; [discriminate|exact Hlo]|exact Hhi].
    + destruct (negb _); eexists; (split; [reflexivity|exact Hf]).
Qed.

Lemma scrapePrice_band (url : string) (w : World) :
  reachable jsMatch execAll trim hostnameOf callable w ->
  (10 <= fst (scrapePrice execAll hostnameOf url w) <= 5000)%Q.
Proof.
  intros Hw. unfold scrapePrice. pose proof (url_fallback_band url) as Hf.
  destruct (hostnameOf url) as [hostname|]; [|exact Hf].
  destruct (cacheGet _ _) as [c|] eqn:Ec.
  - cbn [fst]. apply cacheGet_lookup in Ec. rewrite waitIfNeeded_cache in Ec.
    exact (genuine_band _ _ _ _ _ (reachable_genuine _ _ _ _ _ _ Hw _ _ Ec)).
  - destruct (request _) as [out w2].
    destruct out as [code [html|]| |]; try exact Hf.
    + destruct (negb _); [exact Hf|].
      destruct (extractPriceFromHtml execAll html url) as [price|] eqn:Ee; [|exact Hf].
      destruct (_ && _); [|exact Hf]. cbn [fst].
      apply extractPriceFromHtml_band in Ee as [Hlo Hhi].
      split; [apply Qle_trans with 50%Q; [discriminate|exact Hlo]|].
      apply Qle_trans with 1500%Q; [exact Hhi|discriminate].
    + destruct (negb _); exact Hf.
Qed.

End BandFacts.

(** X5.  In every state the process reaches, an acquisition for one of the
    five platforms resolves with a price between 10 and 5000, and so does
    [scrapePrice] for any URL: from the cache, from the page or from the
    fallback, the price is never zero, negative or above 5000. *)
Theorem acquired_price_in_band
    (jsMatch : Regex -> string -> option Match) (execAll : Regex -> string -> list string)
    (trim : string -> string) (hostnameOf : string -> option string)
    (callable : string -> Prop) (w : World) (searchTerms platform url : string) :
  reachable jsMatch execAll trim hostnameOf callable w ->
  (supported platform = true ->
   exists r, fst (scrapeFirstResultPrice jsMatch trim searchTerms platform w) = Some r
             /\ (10 <= r_price r <= 5000)%Q)
  /\ (10 <= fst (scrapePrice execAll hostnameOf url w) <= 5000)%Q.
Proof.
  intros Hw. split.
  - intros Hs. exact (scrape_band _ _ _ _ _ _ _ _ Hw Hs).
  - exact (scrapePrice_band _ _ _ _ _ _ _ Hw).
Qed.

Lemma acquired_price_in_band_witness :
  let w := snd (scrapeFirstResultPrice bareMatch id "ipad" "amazon" (coldStart answering)) in
  (supported "ebay" = true ->
   exists r, fst (scrapeFirstResultPrice bareMatch id "ipad" "ebay" w) = Some r
             /\ (10 <= r_price r <= 5000)%Q)
  /\ (10 <= fst (scrapePrice noExec (fun _ => None) "https://example.org/x" w) <= 5000)%Q.
Proof.
  apply (acquired_price_in_band bareMatch noExec id (fun _ => None) (fun _ => True)
           (snd (scrapeFirstResultPrice bareMatch id "ipad" "amazon" (coldStart answering)))
           "ipad" "ebay" "https://example.org/x").
  apply reach_search. apply reach_start.
Defined.

(** ** Adding and removing products *)

Lemma bestOf_fold (others : list PlatformResult) : forall best,
  let b := fold_left (fun best current =>
                        if Js.Qltb (pr_price current) (pr_price best) then current else best)
                     others best in
  (b = best \/ In b others)
  /\ (pr_price b <= pr_price best)%Q
  /\ forall r, In r others -> (pr_price b <= pr_price r)%Q.
Proof.
  induction others as [|current rest IH]; intros best; cbn [fold_left].
  - split; [left; reflexivity|]. split; [apply Qle_refl|]. intros r [].
  - destruct (Js.Qltb (pr_price current) (pr_price best)) eqn:E.
    + apply Qltb_true in E. destruct (IH current) as (Hin & Hle & Hall).
      split; [right; destruct Hin as [->|Hin]; [left; reflexivity|right; exact Hin]|].
      split; [apply Qle_trans with (pr_price current); [exact Hle|apply Qlt_le_weak; exact E]|].
      intros r [<-|Hr]; [exact Hle|exact (Hall r Hr)].
    + assert (Hge : (pr_price best <= pr_price current)%Q).
      { apply Qnot_lt_le. intros Hlt. apply Qltb_true in Hlt. congruence. }
      destruct (IH best) as (Hin & Hle & Hall).
      split; [destruct Hin as [->|Hin]; [left; reflexivity|right; right; exact Hin]|].
      split; [exact Hle|].
      intros r [<-|Hr]; [apply Qle_trans with (pr_price best); assumption|exact (Hall r Hr)].
Qed.

Lemma bestOf_lowest first others :
  In (bestOf first others) (first :: others)
  /\ forall r, In r (first :: others) -> (pr_price (bestOf first others) <= pr_price r)%Q.
Proof.
  unfold bestOf. destruct (bestOf_fold others first) as (Hin & Hle & Hall). split.
  - destruct Hin as [->|Hin]; [left; reflexivity|right; exact Hin].
  - intros r [<-|Hr]; [exact Hle|exact (Hall r Hr)].
Qed.

Section AddProductFacts.

Variable jsMatch : Regex -> string -> option Match.
Variable execAll : Regex -> string -> list string.
Variable trim : string -> string.
Variable hostnameOf : string -> option string.
Variable callable : string -> Prop.
Variable encodeURIComponent : string -> string.

Lemma searchPlatform_off platform urlPrefix searchTerms w :
  searchPlatform jsMatch trim encodeURIComponent false platform urlPrefix searchTerms w
  = (nil, w).
Proof. reflexivity. Qed.

Lemma searchPlatform_on platform urlPrefix searchTerms w :
  reachable jsMatch execAll trim hostnameOf callable w ->
  supported platform = true ->
  exists title price,
    searchPlatform jsMatch trim encodeURIComponent true platform urlPrefix searchTerms w
    = (mkPlatformResult platform title (urlPrefix ++ encodeURIComponent searchTerms) price
         (clock (snd (scrapeFirstResultPrice jsMatch trim searchTerms platform w))) :: nil,
       snd (scrapeFirstResultPrice jsMatch trim searchTerms platform w))
    /\ (10 <= price <= 5000)%Q.
Proof.
  intros Hw Hs. unfold searchPlatform.
  destruct (scrape_band jsMatch execAll trim hostnameOf callable searchTerms platform w Hw Hs)
    as (r & Hr & Hband).
  destruct (scrapeFirstResultPrice jsMatch trim searchTerms platform w) as [result w1].
  cbn [fst snd] in *. subst result.
  assert (Ht : Js.truthy (r_price r) = true).
  { apply truthy_true. intros Hz. destruct Hband as [Hlo _]. rewrite Hz in Hlo.
    exact (Hlo eq_refl). }
  rewrite Ht. exists (r_title r), (r_price r). split; [reflexivity|exact Hband].
Qed.

Lemma searchPlatform_reachable enabled platform urlPrefix searchTerms w :
  reachable jsMatch execAll trim hostnameOf callable w ->
  reachable jsMatch execAll trim hostnameOf callable
    (snd (searchPlatform jsMatch trim encodeURIComponent enabled platform urlPrefix searchTerms w)).
Proof.
  intros Hw. unfold searchPlatform. destruct enabled; [|exact Hw].
  pose proof (reach_search jsMatch execAll trim hostnameOf callable searchTerms platform w Hw) as H.
  destruct (scrapeFirstResultPrice jsMatch trim searchTerms platform w) as [[r|] w1];
    cbn [snd] in *; [destruct (Js.truthy (r_price r))|]; exact H.
Qed.

Lemma searchPlatform_results enabled platform urlPrefix searchTerms w :
  reachable jsMatch execAll trim hostnameOf callable w ->
  supported platform = true ->
  let found := fst (searchPlatform jsMatch trim encodeURIComponent enabled platform urlPrefix
                      searchTerms w) in
  length found = (if enabled then 1 else 0)%nat
  /\ forall r, In r found -> pr_platform r = platform /\ (10 <= pr_price r <= 5000)%Q.
Proof.
  intros Hw Hs. cbn zeta. destruct enabled.
  - destruct (searchPlatform_on platform urlPrefix searchTerms w Hw Hs)
      as (title & price & -> & Hband).
    cbn [fst length]. split; [reflexivity|]. intros r [<-|[]]. split; [reflexivity|exact Hband].
  - rewrite searchPlatform_off. cbn. split; [reflexivity|]. intros r [].
Qed.

End AddProductFacts.

(** X6.  Whatever the request and the state, the [add-product] handler either
    replies with a failure and leaves the stored products as they were, or
    replies with the new product and appends exactly that product to them;
    and a store within the free-tier ceiling stays within it. *)
Theorem add_product_appends_or_keeps
    (jsMatch : Regex -> string -> option Match) (trim encodeURIComponent : string -> string)
    (productData : option ProductData) (w : World) (products : list Product) :
  let '(reply, _, products') :=
    addProduct jsMatch trim encodeURIComponent productData w products in
  match reply with
  | Failure _ => products' = products
  | Success newProduct => products' = (products ++ newProduct :: nil)%list
  end
  /\ ((length products <= maxProductsFree)%nat -> (length products' <= maxProductsFree)%nat).
Proof.
  unfold addProduct. destruct productData as [data|]; [|split; [reflexivity|tauto]].
  destruct (_ || _); [split; [reflexivity|tauto]|].
  destruct (d_platforms data) as [platforms|]; [|split; [reflexivity|tauto]].
  destruct (_ && _); [split; [reflexivity|tauto]|].
  destruct (match d_targetPrice data with Some _ => _ | None => _ end);
    [split; [reflexivity|tauto]|].
  destruct (Nat.leb_spec maxProductsFree (length products)); [split; [reflexivity|tauto]|].
  destruct (isDuplicate _ _); [split; [reflexivity|tauto]|].
  destruct (searchPlatform _ _ _ (amazon platforms) _ _ _ _) as [fromAmazon w1].
  destruct (searchPlatform _ _ _ (ebay platforms) _ _ _ _) as [fromEbay w2].
  destruct (fromAmazon ++ fromEbay)%list as [|first others]; [split; [reflexivity|tauto]|].
  split; [reflexivity|]. intros _. rewrite length_app. cbn. lia.
Qed.

Lemma passesValidation_parts (data : ProductData) :
  passesValidation data = true ->
  (String.eqb (d_searchTerms data) "" || String.eqb (d_name data) "") = false
  /\ (exists platforms, d_platforms data = Some platforms
                        /\ (amazon platforms || ebay platforms) = true)
  /\ match d_targetPrice data with
     | Some t => Js.truthy t && Js.Qleb t 0
     | None => false
     end = false.
Proof.
  unfold passesValidation. intros H.
  apply andb_true_iff in H as [H Ht]. apply andb_true_iff in H as [Hf Hp].
  apply negb_true_iff in Hf. split; [exact Hf|]. split.
  - destruct (d_platforms data) as [platforms|]; [|discriminate]. exists platforms. tauto.
  - destruct (d_targetPrice data) as [t|]; [|reflexivity]. apply negb_true_iff in Ht. exact Ht.
Qed.

Lemma addProduct_accepts
    (jsMatch : Regex -> string -> option Match) (execAll : Regex -> string -> list string)
    (trim : string -> string) (hostnameOf : string -> option string)
    (callable : string -> Prop) (encodeURIComponent : string -> string)
    (data : ProductData) (w : World) (products : list Product) :
  reachable jsMatch execAll trim hostnameOf callable w ->
  passesValidation data = true ->
  (length products < maxProductsFree)%nat ->
  isDuplicate products (d_searchTerms data) = false ->
  exists newProduct w',
    addProduct jsMatch trim encodeURIComponent (Some data) w products
    = (Success newProduct, w', (products ++ newProduct :: nil)%list)
    /\ p_name newProduct = d_name data
    /\ p_searchTerms newProduct = Some (d_searchTerms data)
    /\ p_url newProduct = None
    /\ p_bestPrice newProduct = Some (p_currentPrice newProduct)
    /\ (exists platform,
          p_priceHistory newProduct
          = Some (mkHistory (p_currentPrice newProduct) (Some platform) (clock w') :: nil))
    /\ (forall platforms, d_platforms data = Some platforms ->
          length (p_platformResults newProduct)
          = ((if amazon platforms then 1 else 0) + (if ebay platforms then 1 else 0))%nat)
    /\ (exists best, In best (p_platformResults newProduct)
                     /\ pr_price best = p_currentPrice newProduct)
    /\ (forall r, In r (p_platformResults newProduct) ->
          (10 <= pr_price r <= 5000)%Q /\ (p_currentPrice newProduct <= pr_price r)%Q)
    /\ (forall t, p_targetPrice newProduct = Some t -> (0 < t)%Q).
Proof.
  intros Hw Hpass Hlen Hdup.
  destruct (passesValidation_parts data Hpass) as (Hf & (platforms & Hp & Hsel) & Ht).
  unfold addProduct. rewrite Hf, Hp, Ht, Hdup.
  assert (Hnone : (negb (amazon platforms) && negb (ebay platforms)) = false)
    by (destruct (amazon platforms), (ebay platforms); try reflexivity; discriminate).
  rewrite Hnone.
  destruct (Nat.leb_spec maxProductsFree (length products)); [lia|].
  pose proof (searchPlatform_results jsMatch execAll trim hostnameOf callable encodeURIComponent
                (amazon platforms) "amazon" "https://www.amazon.com/s?k=" (d_searchTerms data)
                w Hw eq_refl) as [Hla Hba].
  pose proof (searchPlatform_reachable jsMatch execAll trim hostnameOf callable
                encodeURIComponent (amazon platforms) "amazon" "https://www.amazon.com/s?k="
                (d_searchTerms data) w Hw) as Hw1.
  destruct (searchPlatform _ _ _ (amazon platforms) _ _ _ _) as [fromAmazon w1].
  cbn [fst snd] in Hla, Hba, Hw1.
  pose proof (searchPlatform_results jsMatch execAll trim hostnameOf callable encodeURIComponent
                (ebay platforms) "ebay" "https://www.ebay.com/sch/i.html?_nkw="
                (d_searchTerms data) w1 Hw1 eq_refl) as [Hle Hbe].
  destruct (searchPlatform _ _ _ (ebay platforms) _ _ _ _) as [fromEbay w2].
  cbn [fst snd] in Hle, Hbe.
  assert (Hall : forall r, In r (fromAmazon ++ fromEbay)%list -> (10 <= pr_price r <= 5000)%Q).
  { intros r Hr. apply in_app_or in Hr as [Hr|Hr];
      [exact (proj2 (Hba r Hr))|exact (proj2 (Hbe r Hr))]. }
  assert (Hcount : length (fromAmazon ++ fromEbay)%list
                   = ((if amazon platforms then 1 else 0) + (if ebay platforms then 1 else 0))%nat)
    by (rewrite length_app, Hla, Hle; reflexivity).
  destruct (fromAmazon ++ fromEbay)%list as [|first others] eqn:Eres.
  { exfalso. cbn in Hcount. destruct (amazon platforms), (ebay platforms); discriminate. }
  destruct (bestOf_lowest first others) as [Hin Hmin].
  eexists. exists w2. split; [reflexivity|].
  cbn [p_name p_searchTerms p_url p_bestPrice p_currentPrice p_priceHistory p_platformResults
       p_targetPrice].
  split; [reflexivity|]. split; [reflexivity|]. split; [reflexivity|]. split; [reflexivity|].
  split; [eexists; reflexivity|].
  split; [intros platforms' [= <-]; exact Hcount|].
  split; [exists (bestOf first others); split; [exact Hin|reflexivity]|].
  split; [intros r Hr; split; [exact (Hall r Hr)|exact (Hmin r Hr)]|].
  intros t Hsome. destruct (d_targetPrice data) as [t0|]; [|discriminate].
  destruct (Js.truthy t0) eqn:Etr; [|discriminate]. injection Hsome as <-.
  cbn [andb] in Ht. apply Qnot_le_lt. intros Hle0. apply Qleb_true in Hle0. congruence.
Qed.

(** X7.  In a state the process reaches, a request that passes the field
    checks, for a query that is no duplicate, with fewer than three products
    stored, is always accepted.  The new product is appended to the store; it
    carries the name and the query of the request, one result for each of
    Amazon and eBay that was selected, every result priced between 10 and
    5000, the lowest of these prices as current and best price, and a
    history of exactly one entry at that price; it has no [url]. *)
Theorem add_product_succeeds
    (jsMatch : Regex -> string -> option Match) (execAll : Regex -> string -> list string)
    (trim : string -> string) (hostnameOf : string -> option string)
    (callable : string -> Prop) (encodeURIComponent : string -> string)
    (data : ProductData) (w : World) (products : list Product) :
  reachable jsMatch execAll trim hostnameOf callable w ->
  passesValidation data = true ->
  (length products < maxProductsFree)%nat ->
  isDuplicate products (d_searchTerms data) = false ->
  exists newProduct w',
    addProduct jsMatch trim encodeURIComponent (Some data) w products
    = (Success newProduct, w', (products ++ newProduct :: nil)%list)
    /\ p_name newProduct = d_name data
    /\ p_searchTerms newProduct = Some (d_searchTerms data)
    /\ p_url newProduct = None
    /\ p_bestPrice newProduct = Some (p_currentPrice newProduct)
    /\ (exists platform,
          p_priceHistory newProduct
          = Some (mkHistory (p_currentPrice newProduct) (Some platform) (clock w') :: nil))
    /\ (forall platforms, d_platforms data = Some platforms ->
          length (p_platformResults newProduct)
          = ((if amazon platforms then 1 else 0) + (if ebay platforms then 1 else 0))%nat)
    /\ (exists best, In best (p_platformResults newProduct)
                     /\ pr_price best = p_currentPrice newProduct)
    /\ (forall r, In r (p_platformResults newProduct) ->
          (10 <= pr_price r <= 5000)%Q /\ (p_currentPrice newProduct <= pr_price r)%Q)
    /\ (forall t, p_targetPrice newProduct = Some t -> (0 < t)%Q).
Proof. exact (addProduct_accepts jsMatch execAll trim hostnameOf callable encodeURIComponent data w products). Qed.

Lemma add_product_succeeds_witness :
  exists newProduct w',
    addProduct bareMatch id id
      (Some (mkData "ipad" "Tablet" (Some (mkPlatforms true true)) (Some 400%Q)))
      (coldStart answering) (tracked "iphone 13" :: nil)
    = (Success newProduct, w', (tracked "iphone 13" :: newProduct :: nil)%list)
    /\ p_name newProduct = "Tablet"
    /\ p_searchTerms newProduct = Some "ipad"
    /\ p_url newProduct = None
    /\ p_bestPrice newProduct = Some (p_currentPrice newProduct)
    /\ (exists platform,
          p_priceHistory newProduct
          = Some (mkHistory (p_currentPrice newProduct) (Some platform) (clock w') :: nil))
    /\ (forall platforms, Some (mkPlatforms true true) = Some platforms ->
          length (p_platformResults newProduct)
          = ((if amazon platforms then 1 else 0) + (if ebay platforms then 1 else 0))%nat)
    /\ (exists best, In best (p_platformResults newProduct)
                     /\ pr_price best = p_currentPrice newProduct)
    /\ (forall r, In r (p_platformResults newProduct) ->
          (10 <= pr_price r <= 5000)%Q /\ (p_currentPrice newProduct <= pr_price r)%Q)
    /\ (forall t, p_targetPrice newProduct = Some t -> (0 < t)%Q).
Proof.
  apply (add_product_succeeds bareMatch noExec id (fun _ => None) (fun _ => True) id
           (mkData "ipad" "Tablet" (Some (mkPlatforms true true)) (Some 400%Q))
           (coldStart answering) (tracked "iphone 13" :: nil)).
  - apply reach_start.
  - reflexivity.
  - unfold maxProductsFree. simpl. lia.
  - reflexivity.
Defined.

(** ** Normalised queries *)

Lemma lowerChar_idempotent (c : ascii) : Js.lowerChar (Js.lowerChar c) = Js.lowerChar c.
Proof. destruct c as [[] [] [] [] [] [] [] []]; reflexivity. Qed.

Lemma toLowerCase_idempotent (s : string) :
  Js.toLowerCase (Js.toLowerCase s) = Js.toLowerCase s.
Proof.
  induction s as [|c t IH]; [reflexivity|]. cbn [Js.toLowerCase].
  rewrite lowerChar_idempotent, IH. reflexivity.
Qed.

Lemma toLowerCase_app (a b : string) :
  Js.toLowerCase (a ++ b) = Js.toLowerCase a ++ Js.toLowerCase b.
Proof.
  induction a as [|c t IH]; [reflexivity|].
  transitivity (String (Js.lowerChar c) (Js.toLowerCase (t ++ b))); [reflexivity|].
  rewrite IH. reflexivity.
Qed.

Lemma keepAlnum_app (a b : string) : Js.keepAlnum (a ++ b) = Js.keepAlnum a ++ Js.keepAlnum b.
Proof.
  induction a as [|c t IH]; [reflexivity|].
  transitivity (if Js.isLower c || Js.isDigit c
                then String c (Js.keepAlnum (t ++ b)) else Js.keepAlnum (t ++ b));
    [reflexivity|].
  rewrite IH. cbn [Js.keepAlnum]. destruct (Js.isLower c || Js.isDigit c); reflexivity.
Qed.

Lemma kept_char_fixed (c : ascii) :
  Js.isLower c || Js.isDigit c = true -> Js.lowerChar c = c.
Proof. destruct c as [[] [] [] [] [] [] [] []]; cbn; intros H; try reflexivity; discriminate. Qed.

Lemma keepAlnum_fixed (s : string) :
  Js.keepAlnum (Js.toLowerCase (Js.keepAlnum s)) = Js.keepAlnum s.
Proof.
  induction s as [|c t IH]; [reflexivity|]. cbn [Js.keepAlnum].
  destruct (Js.isLower c || Js.isDigit c) eqn:E; [|exact IH].
  cbn [Js.toLowerCase Js.keepAlnum]. rewrite (kept_char_fixed c E), E, IH. reflexivity.
Qed.

Lemma normalize_Some (s : string) : normalize (Some s) = Js.keepAlnum (Js.toLowerCase s).
Proof. reflexivity. Qed.

Lemma separators_vanish (s : string) :
  allChars isSeparator s = true -> normalize (Some s) = "".
Proof.
  rewrite normalize_Some. induction s as [|c t IH]; [reflexivity|].
  cbn [allChars]. intros H. apply andb_true_iff in H as [Hc Ht].
  unfold isSeparator in Hc. apply andb_true_iff in Hc as [_ Hc].
  apply negb_true_iff in Hc. apply orb_false_iff in Hc as [Hc Hd].
  apply orb_false_iff in Hc as [Hu Hl].
  cbn [Js.toLowerCase]. unfold Js.lowerChar. rewrite Hu.
  cbn [Js.keepAlnum]. rewrite Hl, Hd. cbn [orb]. exact (IH Ht).
Qed.

(** X8.  On texts of 8-bit characters, the normal form of a query used by
    the duplicate test does not see the case of ASCII letters, and a stretch
    of ASCII characters that are neither letters nor digits (spaces, dashes,
    punctuation) normalizes to the empty text and is not seen wherever it
    stands; normalising twice changes nothing.  A request whose query
    differs from a stored one only in these respects is a duplicate. *)
Theorem normalize_ignores_case_and_punctuation
    (before between after : string) (products : list Product) (p : Product) :
  allChars isSeparator between = true ->
  normalize (Some between) = ""
  /\ normalize (Some (Js.toLowerCase before)) = normalize (Some before)
  /\ normalize (Some (before ++ between ++ after)) = normalize (Some (before ++ after))
  /\ normalize (Some (normalize (Some before))) = normalize (Some before)
  /\ (In p products -> p_searchTerms p = Some (before ++ after) ->
      isDuplicate products (Js.toLowerCase before ++ between ++ after) = true).
Proof.
  intros Hsep. pose proof (separators_vanish between Hsep) as Hb.
  split; [exact Hb|]. rewrite !normalize_Some in *.
  assert (H2 : Js.keepAlnum (Js.toLowerCase (before ++ between ++ after))
               = Js.keepAlnum (Js.toLowerCase (before ++ after))).
  { rewrite !toLowerCase_app, !keepAlnum_app, Hb. reflexivity. }
  split; [rewrite toLowerCase_idempotent; reflexivity|].
  split; [exact H2|]. split; [apply keepAlnum_fixed|].
  intros Hin Hq. apply (isDuplicate_normalized products _ p Hin).
  rewrite Hq, !normalize_Some.
  rewrite <- H2, !toLowerCase_app, toLowerCase_idempotent. reflexivity.
Qed.

Lemma normalize_ignores_case_and_punctuation_witness :
  normalize (Some " - ") = ""
  /\ normalize (Some (Js.toLowerCase "iPhone")) = normalize (Some "iPhone")
  /\ normalize (Some ("iPhone" ++ " - " ++ "13")) = normalize (Some ("iPhone" ++ "13"))
  /\ normalize (Some (normalize (Some "iPhone"))) = normalize (Some "iPhone")
  /\ (In (tracked "iPhone13") (tracked "iPhone13" :: nil) ->
      p_searchTerms (tracked "iPhone13") = Some ("iPhone" ++ "13") ->
      isDuplicate (tracked "iPhone13" :: nil) (Js.toLowerCase "iPhone" ++ " - " ++ "13") = true).
Proof.
  apply (normalize_ignores_case_and_punctuation "iPhone" " - " "13"
           (tracked "iPhone13" :: nil) (tracked "iPhone13")).
  reflexivity.
Defined.

(** ** Removing products *)




Lemma addProduct_id jsMatch trim encodeURIComponent data w products newProduct w' products' :
  addProduct jsMatch trim encodeURIComponent data w products = (Success newProduct, w', products') ->
  p_id newProduct = clock w' /\ products' = (products ++ newProduct :: nil)%list.
Proof.
  intros Hadd. unfold addProduct in Hadd. destruct data as [data|]; [|discriminate].
  destruct (_ || _); [discriminate|].
  destruct (d_platforms data) as [platforms|]; [|discriminate].
  destruct (_ && _); [discriminate|].
  destruct (match d_targetPrice data with Some _ => _ | None => _ end); [discriminate|].
  destruct (_ <=? _)%nat; [discriminate|].
  destruct (isDuplicate _ _); [discriminate|].
  destruct (searchPlatform _ _ _ (amazon platforms) _ _ _ _) as [fromAmazon w1].
  destruct (searchPlatform _ _ _ (ebay platforms) _ _ _ _) as [fromEbay w2].
  destruct (fromAmazon ++ fromEbay)%list as [|first others]; [discriminate|].
  injection Hadd as <- <- <-. split; reflexivity.
Qed.


(** ** The retry helper in general *)

Section RetryFacts.

Context {A : Type}.
Variable script : nat -> Settled A.
Variable maxRetries : nat.
Variable initialDelay : Z.

Local Abbreviation retry_from := (retryFrom sleepTrace (scripted script) maxRetries initialDelay).

Lemma retryFrom_trace (remaining : nat) : forall (attempt : nat) (t : Trace),
  (1 <= attempt)%nat ->
  (attempt + remaining = S maxRetries)%nat ->
  calls t = (attempt - 1)%nat ->
  let run := retry_from attempt remaining t in
  let c := calls (snd run) in
  (attempt - 1 <= c <= maxRetries)%nat
  /\ sleeps (snd run)
     = (sleeps t ++ List.map (backoff initialDelay) (seq attempt (c - attempt)))%list
  /\ (remaining <> 0%nat -> (attempt <= c)%nat /\ fst run = script (c - 1)%nat)
  /\ (remaining = 0%nat -> fst run = Fulfilled None)
  /\ (forall k, (attempt - 1 <= k < c - 1)%nat -> produced (script k) = false)
  /\ ((c < maxRetries)%nat -> produced (fst run) = true).
Proof.
  induction remaining as [|r IH]; intros attempt t Ha Hsum Hc; cbn zeta.
  - cbn [retryFrom fst snd]. rewrite Hc.
    replace (attempt - 1 - attempt)%nat with 0%nat by lia. cbn [seq List.map].
    rewrite app_nil_r. repeat split; first [lia | congruence | (intros; lia)].
  - set (t' := mkTrace (S (calls t)) (sleeps t)).
    assert (Hfn : scripted script t = (script (calls t), t')) by reflexivity.
    cbn [retryFrom]. rewrite !Hfn. clear Hfn.
    assert (Hc' : calls t' = attempt) by (cbn; lia).
    assert (Hstop :
              forall outcome : Settled A,
                script (calls t) = outcome ->
                let c := calls t' in
                (attempt - 1 <= c <= maxRetries)%nat
                /\ sleeps t' = (sleeps t ++ List.map (backoff initialDelay)
                                                     (seq attempt (c - attempt)))%list
                /\ (S r <> 0%nat -> (attempt <= c)%nat /\ outcome = script (c - 1)%nat)
                /\ (S r = 0%nat -> outcome = Fulfilled None)
                /\ (forall k, (attempt - 1 <= k < c - 1)%nat -> produced (script k) = false)).
    { intros outcome Ho. cbn zeta. rewrite Hc'.
      replace (attempt - attempt)%nat with 0%nat by lia. cbn [seq List.map].
      rewrite app_nil_r.
      repeat split; first [lia | reflexivity | (rewrite <- Ho, Hc; reflexivity) | (intros; lia)]. }
    assert (Hmore :
              produced (script (calls t)) = false ->
              (attempt <? maxRetries)%nat = true ->
              let run := retry_from (S attempt) r (sleepTrace (backoff initialDelay attempt) t') in
              let c := calls (snd run) in
              (attempt - 1 <= c <= maxRetries)%nat
              /\ sleeps (snd run)
                 = (sleeps t ++ List.map (backoff initialDelay) (seq attempt (c - attempt)))%list
              /\ (S r <> 0%nat -> (attempt <= c)%nat /\ fst run = script (c - 1)%nat)
              /\ (S r = 0%nat -> fst run = Fulfilled None)
              /\ (forall k, (attempt - 1 <= k < c - 1)%nat -> produced (script k) = false)
              /\ ((c < maxRetries)%nat -> produced (fst run) = true)).
    { intros Hfail Hlt. apply Nat.ltb_lt in Hlt. cbn zeta.
      destruct (IH (S attempt) (sleepTrace (backoff initialDelay attempt) t'))
        as (Hb & Hs & Hnz & _ & Hprev & Hearly); [lia|lia|cbn; lia|].
      destruct (Hnz ltac:(lia)) as [Hge Hres].
      set (c := calls (snd (retry_from (S attempt) r
                              (sleepTrace (backoff initialDelay attempt) t')))) in *.
      split; [lia|]. split.
      { rewrite Hs. cbn [sleepTrace sleeps t']. rewrite <- app_assoc. f_equal.
        replace (c - attempt)%nat with (S (c - S attempt)) by lia. reflexivity. }
      split; [intros _; split; [lia|exact Hres]|]. split; [discriminate|].
      split; [|exact Hearly].
      intros k Hk. destruct (Nat.eq_dec k (attempt - 1)) as [->|Hne].
      - rewrite <- Hc. exact Hfail.
      - apply Hprev. lia. }
    destruct (script (calls t)) as [[v|]|e] eqn:E.
    + destruct (Hstop _ eq_refl) as (H1 & H2 & H3 & H4 & H5).
      cbn [fst snd]. split; [exact H1|]. split; [exact H2|]. split; [exact H3|].
      split; [discriminate|]. split; [exact H5|]. reflexivity.
    + destruct (attempt <? maxRetries)%nat eqn:Hlt.
      * apply Hmore; reflexivity.
      * apply Nat.ltb_ge in Hlt. assert (r = 0%nat) as -> by lia.
        cbn [retryFrom fst snd].
        destruct (Hstop _ eq_refl) as (H1 & H2 & H3 & H4 & H5).
        split; [exact H1|]. split; [exact H2|]. split; [exact H3|].
        split; [discriminate|]. split; [exact H5|].
        intros Hlt'. rewrite Hc' in Hlt'. lia.
    + destruct (attempt <? maxRetries)%nat eqn:Hlt.
      * apply Hmore; reflexivity.
      * apply Nat.ltb_ge in Hlt. cbn [fst snd].
        destruct (Hstop _ eq_refl) as (H1 & H2 & H3 & H4 & H5).
        split; [exact H1|]. split; [exact H2|]. split; [exact H3|].
        split; [discriminate|]. split; [exact H5|].
        intros Hlt'. rewrite Hc' in Hlt'. lia.
Qed.

End RetryFacts.

(** X10.  For every number of attempts, initial delay and behaviour of the
    retried function: [retryWithBackoff] calls the function at most
    [maxRetries] times (never, when [maxRetries] is 0, and the result is then
    [null]); every call before the last produced no result; it stops before
    the last allowed attempt only on a result; it settles as its last call
    did, so an error of the last attempt is rethrown and a last [null] is
    returned; and between the calls it sleeps [initialDelay], twice that,
    four times that, and so on, never after the last call. *)
Theorem retry_policy {A : Type} (script : nat -> Settled A) (maxRetries : nat) (initialDelay : Z) :
  let run := retryWithBackoff sleepTrace (scripted script) maxRetries initialDelay
               (mkTrace 0 nil) in
  let c := calls (snd run) in
  (c <= maxRetries)%nat
  /\ (maxRetries = 0%nat -> c = 0%nat /\ fst run = Fulfilled None)
  /\ (maxRetries <> 0%nat -> (1 <= c)%nat /\ fst run = script (c - 1)%nat)
  /\ (forall k, (k < c - 1)%nat -> produced (script k) = false)
  /\ ((c < maxRetries)%nat -> produced (fst run) = true)
  /\ sleeps (snd run)
     = List.map (fun k => (initialDelay * 2 ^ Z.of_nat k)%Z) (seq 0 (c - 1)).
Proof.
  cbn zeta. unfold retryWithBackoff.
  destruct (retryFrom_trace script maxRetries initialDelay maxRetries 1 (mkTrace 0 nil))
    as (Hb & Hs & Hnz & Hz & Hprev & Hearly); [lia|lia|reflexivity|].
  set (c := calls (snd (retryFrom sleepTrace (scripted script) maxRetries initialDelay 1
                          maxRetries (mkTrace 0 nil)))) in *.
  split; [lia|]. split; [intros ->; split; [lia|apply Hz; reflexivity]|].
  split; [exact Hnz|]. split; [intros k Hk; apply Hprev; lia|]. split; [exact Hearly|].
  rewrite Hs. cbn [sleeps app]. rewrite <- seq_shift, List.map_map.
  apply List.map_ext. intros k. unfold backoff. do 2 f_equal. lia.
Qed.

(** ** The rate limiter over time *)

Lemma waitIfNeeded_clock key w :
  clock (waitIfNeeded rateLimiter key w)
  = (clock w
     + if (maxRequests rateLimiter <=? length (recentRequestsOf key w))%nat
       then match recentRequestsOf key w with
            | oldest :: _ => windowMs rateLimiter - (clock w - oldest)
            | nil => 0
            end
       else 0)%Z.
Proof. reflexivity. Qed.

Lemma waitIfNeeded_limiter key w :
  limiter (waitIfNeeded rateLimiter key w)
  = <[key := (recentRequestsOf key w ++ clock w :: nil)%list]> (limiter w).
Proof. reflexivity. Qed.

Lemma recent_In key w t :
  In t (recentRequestsOf key w)
  -> In t (default nil (limiter w !! key)) /\ (clock w - t < windowMs rateLimiter)%Z.
Proof.
  unfold recentRequestsOf. intros H. apply filter_In in H as [Hin Hlt].
  apply Z.ltb_lt in Hlt. split; assumption.
Qed.

Lemma waitIfNeeded_wait_nonneg key w :
  (clock w <= clock (waitIfNeeded rateLimiter key w))%Z.
Proof.
  rewrite waitIfNeeded_clock. destruct (_ <=? _)%nat; [|lia].
  destruct (recentRequestsOf key w) as [|oldest rest] eqn:E; [lia|].
  assert (H : In oldest (recentRequestsOf key w)) by (rewrite E; left; reflexivity).
  apply recent_In in H as [_ H]. lia.
Qed.

Lemma recent_length key w :
  orderly w -> (length (recentRequestsOf key w) <= maxRequests rateLimiter)%nat.
Proof.
  intros [_ Hl]. unfold recentRequestsOf.
  destruct (limiter w !! key) as [times|] eqn:E; [|cbn; lia].
  destruct (Hl key times E) as (_ & Hlen & Hfull).
  change (default nil (Some times)) with times.
  destruct (Nat.eq_dec (length times) (S (maxRequests rateLimiter))) as [Heq|Hne].
  - destruct times as [|oldest rest]; [discriminate|].
    specialize (Hfull Heq oldest rest eq_refl). cbn [List.filter].
    destruct (Z.ltb_spec (clock w - oldest) (windowMs rateLimiter)); [lia|].
    pose proof (List.filter_length_le (fun time => (clock w - time <? windowMs rateLimiter)%Z) rest).
    cbn [length] in Heq. lia.
  - pose proof (List.filter_length_le (fun time => (clock w - time <? windowMs rateLimiter)%Z) times).
    lia.
Qed.

Lemma waitIfNeeded_wait_bound key w :
  orderly w ->
  (clock (waitIfNeeded rateLimiter key w) <= clock w + windowMs rateLimiter)%Z.
Proof.
  intros Ho. rewrite waitIfNeeded_clock. destruct (_ <=? _)%nat; [|cbn; lia].
  destruct (recentRequestsOf key w) as [|oldest rest] eqn:E; [cbn; lia|].
  assert (H : In oldest (recentRequestsOf key w)) by (rewrite E; left; reflexivity).
  apply recent_In in H as [Hin _]. destruct Ho as [_ Hl].
  destruct (limiter w !! key) as [times|] eqn:El; [|destruct Hin].
  destruct (Hl key times El) as (Hpast & _). specialize (Hpast oldest Hin). lia.
Qed.

Lemma waitIfNeeded_orderly key w : orderly w -> orderly (waitIfNeeded rateLimiter key w).
Proof.
  intros Ho. pose proof (recent_length key w Ho) as Hrec.
  pose proof (waitIfNeeded_wait_nonneg key w) as Hmono.
  split; [exact (proj1 Ho)|]. intros k times Hk.
  rewrite waitIfNeeded_limiter in Hk.
  destruct (decide (key = k)) as [<-|Hne].
  - rewrite lookup_insert_eq in Hk. injection Hk as <-. split; [|split].
    + intros t Ht. apply in_app_or in Ht as [Ht|[<-|[]]]; [|exact Hmono].
      apply recent_In in Ht as [Hin _]. destruct Ho as [_ Hl].
      destruct (limiter w !! key) as [old|] eqn:El; [|destruct Hin].
      destruct (Hl key old El) as (Hpast & _). specialize (Hpast t Hin). lia.
    + rewrite length_app. cbn [length]. lia.
    + rewrite length_app. cbn [length]. intros Hfull oldest rest Heq.
      assert (Hlen : length (recentRequestsOf key w) = maxRequests rateLimiter) by lia.
      rewrite waitIfNeeded_clock, Hlen, Nat.leb_refl.
      destruct (recentRequestsOf key w) as [|first others]; [discriminate|].
      injection Heq as <- _. lia.
  - rewrite lookup_insert_ne in Hk by exact Hne. destruct Ho as [_ Hl].
    destruct (Hl k times Hk) as (Hpast & Hlen & Hfull). split; [|split].
    + intros t Ht. specialize (Hpast t Ht). lia.
    + exact Hlen.
    + intros Heq oldest rest Hr. specialize (Hfull Heq oldest rest Hr). lia.
Qed.

Lemma later_orderly d w : (0 <= d)%Z -> orderly w -> orderly (later d w).
Proof.
  intros Hd [Hn Hl]. split; [exact Hn|]. intros k times Hk.
  destruct (Hl k times Hk) as (Hpast & Hlen & Hfull). cbn [later clock]. split; [|split].
  - intros t Ht. specialize (Hpast t Ht). lia.
  - exact Hlen.
  - intros Heq oldest rest Hr. specialize (Hfull Heq oldest rest Hr). lia.
Qed.

Lemma request_orderly w : orderly w -> orderly (snd (request w)).
Proof.
  intros [Hn Hl]. pose proof (Hn (sent w)) as He.
  split; [exact Hn|]. intros k times Hk.
  destruct (Hl k times Hk) as (Hpast & Hlen & Hfull). cbn [request snd clock]. split; [|split].
  - intros t Ht. specialize (Hpast t Ht). lia.
  - exact Hlen.
  - intros Heq oldest rest Hr. specialize (Hfull Heq oldest rest Hr). lia.
Qed.

Lemma cacheSet_orderly key entry w : orderly w -> orderly (cacheSet key entry w).
Proof. intros Ho. exact Ho. Qed.

Section OrderFacts.

Variable jsMatch : Regex -> string -> option Match.
Variable execAll : Regex -> string -> list string.
Variable trim : string -> string.
Variable hostnameOf : string -> option string.

Lemma scrape_orderly searchTerms platform w :
  orderly w -> orderly (snd (scrapeFirstResultPrice jsMatch trim searchTerms platform w)).
Proof.
  intros Ho. apply (waitIfNeeded_orderly platform) in Ho. unfold scrapeFirstResultPrice.
  destruct (negb _); [exact Ho|]. destruct (cacheGet _ _); [exact Ho|].
  pose proof (request_orderly _ Ho) as Hr. destruct (request _) as [out w2]. cbn [snd] in Hr.
  destruct out as [code [html|]| |]; try exact Hr.
  - destruct (negb _); [exact Hr|]. destruct (accepted _) as [[title price]|]; exact Hr.
  - destruct (negb _); exact Hr.
Qed.

Lemma scrapePrice_orderly url w :
  orderly w -> orderly (snd (scrapePrice execAll hostnameOf url w)).
Proof.
  intros Ho. unfold scrapePrice. destruct (hostnameOf url) as [hostname|]; [|exact Ho].
  apply (waitIfNeeded_orderly hostname) in Ho. destruct (cacheGet _ _); [exact Ho|].
  pose proof (request_orderly _ Ho) as Hr. destruct (request _) as [out w2]. cbn [snd] in Hr.
  destruct out as [code [html|]| |]; try exact Hr.
  - destruct (negb _); [exact Hr|].
    destruct (extractPriceFromHtml execAll html url) as [price|]; [|exact Hr].
    destruct (_ && _); exact Hr.
  - destruct (negb _); exact Hr.
Qed.

End OrderFacts.

Lemma coldStart_orderly net : (forall n, (0 <= elapsed (net n))%Z) -> orderly (coldStart net).
Proof.
  intros Hn. split; [exact Hn|]. intros k times Hk. cbn in Hk.
  rewrite lookup_empty in Hk. discriminate.
Qed.

(** X11.  In a state where time is in order, a call of the limiter never
    refuses and never loses its request: it returns after at most one window
    (60 s), at once when fewer than five requests of the key are less than a
    window old, and otherwise exactly when the oldest of them is a window
    old; it records the time of the call as the latest request of the key;
    it leaves the lists of the other keys, the cache and the network
    untouched; and it keeps time in order, so that a key never holds more
    than six request times. *)
Theorem limiter_delays_at_most_one_window (key : string) (w : World) :
  orderly w ->
  let w' := waitIfNeeded rateLimiter key w in
  orderly w'
  /\ (clock w <= clock w' <= clock w + windowMs rateLimiter)%Z
  /\ ((length (recentRequestsOf key w) < maxRequests rateLimiter)%nat -> clock w' = clock w)
  /\ (forall oldest rest,
        recentRequestsOf key w = oldest :: rest ->
        length (oldest :: rest) = maxRequests rateLimiter ->
        clock w' = (oldest + windowMs rateLimiter)%Z)
  /\ (exists times, limiter w' !! key = Some times
                    /\ last times = Some (clock w)
                    /\ (length times <= S (maxRequests rateLimiter))%nat)
  /\ (forall other, other <> key -> limiter w' !! other = limiter w !! other)
  /\ priceCache w' = priceCache w
  /\ sent w' = sent w.
Proof.
  intros Ho. cbn zeta. pose proof (recent_length key w Ho) as Hrec.
  split; [exact (waitIfNeeded_orderly key w Ho)|].
  split; [split; [apply waitIfNeeded_wait_nonneg|exact (waitIfNeeded_wait_bound key w Ho)]|].
  split.
  { intros Hlt. rewrite waitIfNeeded_clock.
    destruct (Nat.leb_spec (maxRequests rateLimiter) (length (recentRequestsOf key w))); lia. }
  split.
  { intros oldest rest Hr Hlen. rewrite waitIfNeeded_clock, Hr, Hlen, Nat.leb_refl. lia. }
  split.
  { eexists. rewrite waitIfNeeded_limiter, lookup_insert_eq. split; [reflexivity|].
    split; [apply last_snoc|]. rewrite length_app. cbn [length]. lia. }
  split; [|split; reflexivity].
  intros other Hne. rewrite waitIfNeeded_limiter. apply lookup_insert_ne. congruence.
Qed.

Lemma limiter_delays_at_most_one_window_witness :
  let w := later 500 (waitIfNeeded rateLimiter "amazon" (coldStart quiet)) in
  let w' := waitIfNeeded rateLimiter "amazon" w in
  orderly w'
  /\ (clock w <= clock w' <= clock w + windowMs rateLimiter)%Z
  /\ ((length (recentRequestsOf "amazon" w) < maxRequests rateLimiter)%nat -> clock w' = clock w)
  /\ (forall oldest rest,
        recentRequestsOf "amazon" w = oldest :: rest ->
        length (oldest :: rest) = maxRequests rateLimiter ->
        clock w' = (oldest + windowMs rateLimiter)%Z)
  /\ (exists times, limiter w' !! "amazon" = Some times
                    /\ last times = Some (clock w)
                    /\ (length times <= S (maxRequests rateLimiter))%nat)
  /\ (forall other, other <> "amazon" -> limiter w' !! other = limiter w !! other)
  /\ priceCache w' = priceCache w
  /\ sent w' = sent w.
Proof.
  apply (limiter_delays_at_most_one_window "amazon"
           (later 500 (waitIfNeeded rateLimiter "amazon" (coldStart quiet)))).
  apply later_orderly; [lia|]. apply waitIfNeeded_orderly. apply coldStart_orderly.
  intros n. simpl. lia.
Defined.

(** ** The cache over time *)

Lemma later_cacheGet_fresh key entry d wait w :
  priceCache w !! key = Some entry ->
  (clock w + d + wait - c_timestamp entry < 300000)%Z ->
  cacheGet key (mkWorld (clock w + d + wait) (limiter w) (priceCache w) (network w) (sent w))
  = Some entry.
Proof.
  intros Hl Hlt. unfold cacheGet. cbn [priceCache clock]. rewrite Hl.
  apply Z.ltb_lt in Hlt. rewrite Hlt. reflexivity.
Qed.

(** X12.  In a state where time is in order, once a call of
    [scrapeFirstResultPrice] has stored its extraction, the same call made
    again less than four minutes later resolves with the same value and
    issues no request, whatever the limiter makes it wait; made five minutes
    later or more, it does not use the entry and issues a request. *)
Theorem stored_extraction_served_again
    (jsMatch : Regex -> string -> option Match) (trim : string -> string)
    (searchTerms platform : string) (w : World) (d : Z) :
  orderly w ->
  let first := scrapeFirstResultPrice jsMatch trim searchTerms platform w in
  priceCache (snd first) <> priceCache w ->
  let again := scrapeFirstResultPrice jsMatch trim searchTerms platform (later d (snd first)) in
  ((0 <= d < 240000)%Z ->
   fst again = fst first
   /\ sent (snd again) = sent (snd first)
   /\ priceCache (snd again) = priceCache (snd first))
  /\ ((300000 <= d)%Z -> sent (snd again) = S (sent (snd first))).
Proof.
  intros Ho. cbn zeta. intros Hstored.
  pose proof (scrape_orderly jsMatch trim searchTerms platform w Ho) as Ho1.
  destruct (scrape_cache jsMatch trim searchTerms platform w)
    as [Hsame|(html & title & price & _ & _ & Hres & Hcache)]; [contradiction|].
  assert (Hs : supported platform = true).
  { destruct (supported platform) eqn:E; [reflexivity|]. exfalso. apply Hstored.
    unfold scrapeFirstResultPrice. rewrite E. reflexivity. }
  set (w1 := snd (scrapeFirstResultPrice jsMatch trim searchTerms platform w)) in *.
  set (entry := mkEntry (Some title) price (clock w1)) in *.
  assert (Hl : priceCache w1 !! searchKey searchTerms platform = Some entry)
    by (rewrite Hcache; apply lookup_insert_eq).
  split.
  - intros Hd. pose proof (later_orderly d w1 (proj1 Hd) Ho1) as Ho2.
    pose proof (waitIfNeeded_wait_bound platform (later d w1) Ho2) as Hwait.
    pose proof (waitIfNeeded_wait_nonneg platform (later d w1)) as Hmono.
    rewrite Hres. unfold scrapeFirstResultPrice. rewrite Hs. cbn [negb].
    fold (searchKey searchTerms platform).
    assert (Hhit : cacheGet (searchKey searchTerms platform)
                     (waitIfNeeded rateLimiter platform (later d w1)) = Some entry).
    { unfold cacheGet. rewrite waitIfNeeded_cache. cbn [later priceCache]. rewrite Hl.
      cbn [later clock windowMs rateLimiter] in Hwait, Hmono.
      destruct (Z.ltb_spec (clock (waitIfNeeded rateLimiter platform (later d w1))
                            - c_timestamp entry) 300000); [reflexivity|].
      cbn [entry c_timestamp] in *. lia. }
    rewrite Hhit. cbn [fst snd]. repeat split.
  - intros Hd. assert (Hd0 : (0 <= d)%Z) by lia.
    pose proof (waitIfNeeded_wait_nonneg platform (later d w1)) as Hmono.
    unfold scrapeFirstResultPrice. rewrite Hs. cbn [negb].
    fold (searchKey searchTerms platform).
    assert (Hmiss : cacheGet (searchKey searchTerms platform)
                      (waitIfNeeded rateLimiter platform (later d w1)) = None).
    { unfold cacheGet. rewrite waitIfNeeded_cache. cbn [later priceCache]. rewrite Hl.
      cbn [later clock] in Hmono.
      destruct (Z.ltb_spec (clock (waitIfNeeded rateLimiter platform (later d w1))
                            - c_timestamp entry) 300000); [|reflexivity].
      cbn [entry c_timestamp] in *. lia. }
    rewrite Hmiss. destruct (request _) as [out w3] eqn:Er.
    assert (Hsent : sent w3 = S (sent w1)) by (unfold request in Er; inversion Er; reflexivity).
    destruct out as [code [page|]| |]; cbn [snd]; try exact Hsent.
    + destruct (negb _); [exact Hsent|]. destruct (accepted _) as [[t p]|]; exact Hsent.
    + destruct (negb _); exact Hsent.
Qed.

Lemma stored_extraction_served_again_witness :
  let first := scrapeFirstResultPrice bareMatch id "ipad" "amazon" (coldStart answering) in
  let again := scrapeFirstResultPrice bareMatch id "ipad" "amazon" (later 1000 (snd first)) in
  ((0 <= 1000 < 240000)%Z ->
   fst again = fst first
   /\ sent (snd again) = sent (snd first)
   /\ priceCache (snd again) = priceCache (snd first))
  /\ ((300000 <= 1000)%Z -> sent (snd again) = S (sent (snd first))).
Proof.
  apply (stored_extraction_served_again bareMatch id "ipad" "amazon" (coldStart answering) 1000).
  - apply coldStart_orderly. intros n. simpl. lia.
  - intros H. apply (f_equal (fun m => m !! "amazon-ipad")) in H. vm_compute in H. discriminate.
Defined.

(** ** What a check changes *)

Lemma sliceLast_last {A} (n : nat) (l : list A) (x : A) :
  (0 < n)%nat -> last (sliceLast n (l ++ x :: nil)) = Some x.
Proof.
  intros Hn. destruct (sliceLast_suffix n (l ++ x :: nil)) as [evicted He].
  assert (Hlen : length (sliceLast n (l ++ x :: nil)) = Nat.min (length (l ++ x :: nil)) n)
    by apply sliceLast_length.
  rewrite length_app in Hlen. cbn [length] in Hlen.
  destruct (sliceLast n (l ++ x :: nil)) as [|y rest] eqn:E using rev_ind.
  - cbn in Hlen. lia.
  - rewrite app_assoc in He. apply app_inj_tail in He as [_ <-]. apply last_snoc.
Qed.

Lemma checkProduct_fields now price product :
  let checked := fst (checkProduct now (Some price) product) in
  p_currentPrice checked = price
  /\ p_lastChecked checked = now
  /\ last (historyOf checked) = Some (mkHistory price None now)
  /\ previousPriceOf checked = Some price
  /\ p_id checked = p_id product /\ p_name checked = p_name product
  /\ p_url checked = p_url product /\ p_targetPrice checked = p_targetPrice product
  /\ p_bestPrice checked = p_bestPrice product
  /\ p_platformResults checked = p_platformResults product.
Proof.
  cbn zeta. pose proof (checkProduct_history now price product) as Hh.
  assert (Hlast : last (historyOf (fst (checkProduct now (Some price) product)))
                  = Some (mkHistory price None now))
    by (rewrite Hh; apply sliceLast_last; lia).
  repeat split; try reflexivity; try exact Hlast.
  unfold previousPriceOf. unfold historyOf in Hlast. cbn [checkProduct fst p_priceHistory] in *.
  cbn [default] in Hlast. unfold id in Hlast. rewrite Hlast. reflexivity.
Qed.

(** X13.  After any non-empty series of checks of a product, its current
    price is the price of the last check, which is also the price of the
    last history entry and the one the next check will compare with, and
    its last-checked time is the time of that check.  Checks never touch the
    id, the name, the URL, the target, the best price recorded when the
    product was added, or the per-platform results; a check whose scrape
    gave [null] changes nothing and raises no alert. *)
Theorem checks_update_price_only (checks : list (Z * Q)) (now : Z) (price : Q)
    (product : Product) :
  let checked := fst (checkMany (checks ++ (now, price) :: nil) product) in
  p_currentPrice checked = price
  /\ p_lastChecked checked = now
  /\ last (historyOf checked) = Some (mkHistory price None now)
  /\ previousPriceOf checked = Some price
  /\ p_id checked = p_id product /\ p_name checked = p_name product
  /\ p_url checked = p_url product /\ p_targetPrice checked = p_targetPrice product
  /\ p_bestPrice checked = p_bestPrice product
  /\ p_platformResults checked = p_platformResults product
  /\ checkProduct now None product = (product, nil).
Proof.
  cbn zeta. revert product. induction checks as [|[t q] rest IH]; intros product.
  - cbn [app]. rewrite checkMany_cons_fst. cbn [checkMany fst].
    pose proof (checkProduct_fields now price product) as H. cbn zeta in H.
    repeat split; try apply H; reflexivity.
  - cbn [app]. rewrite checkMany_cons_fst.
    specialize (IH (fst (checkProduct t (Some q) product))).
    pose proof (checkProduct_fields t q product) as H. cbn zeta in H.
    destruct IH as (I1 & I2 & I3 & I4 & I5 & I6 & I7 & I8 & I9 & I10 & _).
    destruct H as (_ & _ & _ & _ & H5 & H6 & H7 & H8 & H9 & H10).
    repeat split; try assumption; try congruence.
Qed.

(** ** The loop over the stored products *)

Section LoopOverProducts.

Variable execAll : Regex -> string -> list string.
Variable hostnameOf : string -> option string.

Lemma scrapePrice_sent url w :
  (sent w <= sent (snd (scrapePrice execAll hostnameOf url w)) <= S (sent w))%nat.
Proof.
  unfold scrapePrice. destruct (hostnameOf url) as [hostname|]; [|cbn [snd]; lia].
  destruct (cacheGet _ _); [cbn [snd]; change (sent (waitIfNeeded rateLimiter hostname w))
                              with (sent w); lia|].
  destruct (request _) as [out w2] eqn:Er.
  assert (Hs : sent w2 = S (sent w)) by (unfold request in Er; inversion Er; reflexivity).
  destruct out as [code [html|]| |]; cbn [snd]; try lia.
  - destruct (negb _); [cbn [snd]; lia|].
    destruct (extractPriceFromHtml _ _ _); [|cbn [snd]; lia].
    destruct (_ && _); cbn [snd cacheSet sent]; lia.
  - destruct (negb _); cbn [snd]; lia.
Qed.

Lemma checkEach_none (products : list Product) : forall w,
  checkEach execAll hostnameOf products w = None
  <-> exists p, In p products /\ p_url p = None.
Proof.
  induction products as [|product rest IH]; intros w; cbn [checkEach].
  - split; [discriminate|]. intros (p & [] & _).
  - destruct (p_url product) as [url|] eqn:Eu.
    + destruct (scrapePrice execAll hostnameOf url w) as [currentPrice w1].
      destruct (checkProduct (clock w1) (Some currentPrice) product) as [product1 alerts].
      specialize (IH w1). destruct (checkEach execAll hostnameOf rest w1) as [[[c l] w2]|].
      * split; [discriminate|]. intros (p & [<-|Hp] & Hn); [congruence|].
        destruct IH as [_ IH]. discriminate (IH (ex_intro _ p (conj Hp Hn))).
      * split; [intros _|reflexivity]. destruct IH as [IH _].
        destruct (IH eq_refl) as (p & Hp & Hn). exists p. split; [right; exact Hp|exact Hn].
    + split; [intros _|reflexivity]. exists product. split; [left; reflexivity|exact Eu].
Qed.

Lemma checkEach_some (products : list Product) : forall w checked alerts w',
  checkEach execAll hostnameOf products w = Some (checked, alerts, w') ->
  List.map p_id checked = List.map p_id products
  /\ List.map p_name checked = List.map p_name products
  /\ List.map p_url checked = List.map p_url products
  /\ (sent w <= sent w' <= sent w + length products)%nat
  /\ (forall p, In p checked ->
        exists entry, last (historyOf p) = Some entry /\ h_price entry = p_currentPrice p).
Proof.
  induction products as [|product rest IH]; intros w checked alerts w'; cbn [checkEach].
  - intros [= <- <- <-]. cbn. repeat split; first [lia | (intros p [])].
  - destruct (p_url product) as [url|] eqn:Eu; [|discriminate].
    pose proof (scrapePrice_sent url w) as Hsent.
    destruct (scrapePrice execAll hostnameOf url w) as [currentPrice w1]. cbn [snd] in Hsent.
    pose proof (checkProduct_fields (clock w1) currentPrice product) as Hf. cbn zeta in Hf.
    destruct (checkProduct (clock w1) (Some currentPrice) product) as [product1 alerts1].
    cbn [fst] in Hf.
    destruct (checkEach execAll hostnameOf rest w1) as [[[c l] w2]|] eqn:Er; [|discriminate].
    intros [= <- <- <-]. destruct (IH w1 c l w2 Er) as (I1 & I2 & I3 & I4 & I5).
    destruct Hf as (F1 & _ & F3 & _ & F5 & F6 & F7 & _).
    cbn [List.map length]. repeat split; try congruence; try lia.
    intros p [<-|Hp]; [|exact (I5 p Hp)].
    eexists. split; [exact F3|]. cbn [h_price]. symmetry. exact F1.
Qed.

End LoopOverProducts.

(** X14.  [checkAllPrices] comes back exactly when every stored product has
    a [url]: a product without one makes the awaited scrape never settle.
    When it comes back, the products written to the store are the same
    products in the same order (ids, names, URLs), each with a history whose
    last entry holds its current price, and at most one request per product
    was issued.  A product that [add-product] has just stored has no [url],
    so the loop over a store that holds it does not come back. *)
Theorem check_all_needs_urls
    (jsMatch : Regex -> string -> option Match) (execAll : Regex -> string -> list string)
    (trim encodeURIComponent : string -> string) (hostnameOf : string -> option string)
    (products : list Product) (w : World) :
  (checkAllPrices execAll hostnameOf products w = None
   <-> exists p, In p products /\ p_url p = None)
  /\ (forall checked alerts w',
        checkAllPrices execAll hostnameOf products w = Some (checked, alerts, w') ->
        List.map p_id checked = List.map p_id products
        /\ List.map p_name checked = List.map p_name products
        /\ List.map p_url checked = List.map p_url products
        /\ (sent w <= sent w' <= sent w + length products)%nat
        /\ (forall p, In p checked ->
              exists entry, last (historyOf p) = Some entry
                            /\ h_price entry = p_currentPrice p))
  /\ (forall data w0 stored newProduct w1 stored',
        addProduct jsMatch trim encodeURIComponent data w0 stored
        = (Success newProduct, w1, stored') ->
        checkAllPrices execAll hostnameOf stored' w = None).
Proof.
  split; [apply checkEach_none|]. split; [apply checkEach_some|].
  intros data w0 stored newProduct w1 stored' Hadd.
  apply checkEach_none. exists newProduct.
  pose proof (addProduct_id _ _ _ _ _ _ _ _ _ Hadd) as [_ ->].
  split; [apply in_or_app; right; left; reflexivity|].
  unfold addProduct in Hadd. destruct data as [data|]; [|discriminate].
  destruct (_ || _); [discriminate|].
  destruct (d_platforms data) as [platforms|]; [|discriminate].
  destruct (_ && _); [discriminate|].
  destruct (match d_targetPrice data with Some _ => _ | None => _ end); [discriminate|].
  destruct (_ <=? _)%nat; [discriminate|].
  destruct (isDuplicate _ _); [discriminate|].
  destruct (searchPlatform _ _ _ (amazon platforms) _ _ _ _) as [fromAmazon w2].
  destruct (searchPlatform _ _ _ (ebay platforms) _ _ _ _) as [fromEbay w3].
  destruct (fromAmazon ++ fromEbay)%list as [|first others]; [discriminate|].
  injection Hadd as <- _ _. reflexivity.
Qed.

(** ** Sites other than Amazon and eBay *)

Lemma search_key_not_http searchTerms platform :
  platform = "amazon" \/ platform = "ebay" -> ~ httpUrl (searchKey searchTerms platform).
Proof. intros [-> | ->] H; unfold httpUrl in H; cbn in H; discriminate H. Qed.

(** X15.  For an http(s) URL that contains neither [amazon.] nor [ebay.],
    [scrapePrice] never extracts anything: in every state the process
    reaches, whatever the site answers, it resolves with the fallback price
    of the URL and stores nothing in the cache. *)
Theorem other_sites_always_fall_back
    (jsMatch : Regex -> string -> option Match) (execAll : Regex -> string -> list string)
    (trim : string -> string) (hostnameOf : string -> option string)
    (callable : string -> Prop) (url : string) (w : World) :
  reachable jsMatch execAll trim hostnameOf callable w ->
  httpUrl url ->
  Js.includes url "amazon." = false ->
  Js.includes url "ebay." = false ->
  let run := scrapePrice execAll hostnameOf url w in
  fst run = getFallbackPrice url /\ priceCache (snd run) = priceCache w.
Proof.
  intros Hw Hh Ha He. cbn zeta.
  assert (Hnone : forall html, extractPriceFromHtml execAll html url = None)
    by (intros html; apply extractPriceFromHtml_band; assumption).
  unfold scrapePrice. destruct (hostnameOf url) as [hostname|]; [|split; reflexivity].
  destruct (cacheGet _ _) as [c|] eqn:Ec.
  - exfalso. apply cacheGet_lookup in Ec. rewrite waitIfNeeded_cache in Ec.
    destruct (reachable_genuine _ _ _ _ _ _ Hw _ _ Ec)
      as [_ [(html & platform & searchTerms & title & Hk & _ & Hx)|(html & _ & Hx)]].
    + apply extract_object_platform in Hx. subst url.
      exact (search_key_not_http searchTerms platform Hx Hh).
    + rewrite Hnone in Hx. discriminate.
  - destruct (request _) as [out w2] eqn:Er.
    assert (Hc : priceCache w2 = priceCache w)
      by (change w2 with (snd (out, w2)); rewrite <- Er; reflexivity).
    destruct out as [code [html|]| |]; try (split; [reflexivity|exact Hc]).
    + destruct (negb _); [split; [reflexivity|exact Hc]|]. rewrite Hnone.
      split; [reflexivity|exact Hc].
    + destruct (negb _); split; first [reflexivity | exact Hc].
Qed.

Lemma other_sites_always_fall_back_witness :
  let w := snd (scrapeFirstResultPrice bareMatch id "ipad" "amazon" (coldStart answering)) in
  let run := scrapePrice twoPriceExec (fun _ => Some "shop.example.org")
               "https://shop.example.org/item/42" w in
  fst run = getFallbackPrice "https://shop.example.org/item/42"
  /\ priceCache (snd run) = priceCache w.
Proof.
  apply (other_sites_always_fall_back bareMatch twoPriceExec id
           (fun _ => Some "shop.example.org") (fun _ => True)
           "https://shop.example.org/item/42"
           (snd (scrapeFirstResultPrice bareMatch id "ipad" "amazon" (coldStart answering)))).
  - apply reach_search. apply reach_start.
  - reflexivity.
  - reflexivity.
  - reflexivity.
Defined.

(** ** The similarity of two texts *)

Lemma fillRow_cells c str2 : forall above left,
  length above = S (length str2) ->
  length (left :: fillRow c str2 above left) = S (length str2)
  /\ forall j, (j < length str2)%nat ->
       nth (S j) (left :: fillRow c str2 above left) 0%nat
       = Nat.min (Nat.min (nth (S j) above 0 + 1) (nth j (left :: fillRow c str2 above left) 0 + 1))
           (nth j above 0 + (if Ascii.eqb c (nth j str2 Ascii.zero) then 0 else 1))%nat.
Proof.
  induction str2 as [|c2 rest IH]; intros above left Hlen.
  - split; [reflexivity|]. intros j Hj. cbn in Hj. lia.
  - destruct above as [|diagonal [|up tl]]; try (cbn in Hlen; lia).
    assert (Hlen' : length (up :: tl) = S (length rest)) by (cbn in Hlen |- *; lia).
    cbn [fillRow].
    destruct (IH (up :: tl)
                (Nat.min (Nat.min (up + 1) (left + 1))
                   (diagonal + (if Ascii.eqb c c2 then 0 else 1)))%nat Hlen') as [IHl IHc].
    split.
    + cbn [length] in IHl |- *. lia.
    + intros [|j] Hj.
      * reflexivity.
      * cbn [length] in Hj. apply PeanoNat.lt_S_n in Hj.
        specialize (IHc j Hj). exact IHc.
Qed.

Section Similarity.

Variable str2 : list ascii.

Lemma rowOf_first : rowOf str2 nil (seq 0 (S (length str2))).
Proof.
  split; [apply length_seq|]. intros j Hj.
  rewrite seq_nth by lia. cbn [length Nat.max plus]. split; [lia|].
  split.
  - intros ->. reflexivity.
  - intros H. destruct j as [|j]; [reflexivity|].
    destruct str2; [cbn in Hj; lia|discriminate H].
Qed.

Lemma firstn_snoc (j : nat) : (j < length str2)%nat ->
  firstn (S j) str2 = (firstn j str2 ++ nth j str2 Ascii.zero :: nil)%list.
Proof.
  revert j. induction str2 as [|a l IH]; intros j Hj; [cbn in Hj; lia|].
  destruct j as [|j]; [reflexivity|].
  cbn [length] in Hj. change (a :: firstn (S j) l = a :: (firstn j l ++ nth j l Ascii.zero :: nil))%list.
  f_equal. apply IH. lia.
Qed.

Lemma rowOf_next p c above :
  rowOf str2 p above ->
  rowOf str2 (p ++ c :: nil) (S (length p) :: fillRow c str2 above (S (length p))).
Proof.
  intros [Hlen Hrow].
  destruct (fillRow_cells c str2 above (S (length p)) Hlen) as [Hl Hc].
  split; [exact Hl|].
  assert (Hp : length (p ++ c :: nil) = S (length p)) by (rewrite length_app; cbn; lia).
  intros [|j] Hj.
  - rewrite Hp. cbn [nth firstn]. split; [lia|]. split; [discriminate|].
    intros H. destruct p; discriminate H.
  - rewrite Hc by lia. rewrite Hp.
    destruct (Hrow j ltac:(lia)) as [Hb Hz].
    split; [destruct (Ascii.eqb c _); lia|].
    rewrite firstn_snoc by lia.
    split.
    + intros H0.
      destruct (Ascii.eqb c (nth j str2 Ascii.zero)) eqn:Ec; [|lia].
      apply Ascii.eqb_eq in Ec. subst c.
      assert (H1 : nth j above 0%nat = 0%nat) by lia.
      apply Hz in H1. rewrite <- H1. reflexivity.
    + intros H. apply app_inj_tail in H. destruct H as [H1 H2]. subst c.
      apply Hz in H1. rewrite Ascii.eqb_refl. lia.
Qed.

Lemma fillMatrix_rowOf str1 : forall p above,
  rowOf str2 p above -> rowOf str2 (p ++ str1) (fillMatrix str1 str2 (length p) above).
Proof.
  induction str1 as [|c rest IH]; intros p above H.
  - rewrite app_nil_r. exact H.
  - cbn [fillMatrix].
    replace (p ++ c :: rest)%list with ((p ++ c :: nil) ++ rest)%list
      by (rewrite <- app_assoc; reflexivity).
    replace (S (length p)) with (length (p ++ c :: nil)) at 1
      by (rewrite length_app; cbn; lia).
    apply IH.
    replace (length (p ++ c :: nil)) with (S (length p)) by (rewrite length_app; cbn; lia).
    apply rowOf_next. exact H.
Qed.

End Similarity.

Lemma length_list_ascii (s : string) : length (list_ascii_of_string s) = String.length s.
Proof. induction s as [|c s IH]; [reflexivity|]. cbn. rewrite IH. reflexivity. Qed.

Lemma list_ascii_inj (s t : string) : list_ascii_of_string s = list_ascii_of_string t -> s = t.
Proof.
  intros H. rewrite <- (string_of_list_ascii_of_string s), <- (string_of_list_ascii_of_string t).
  rewrite H. reflexivity.
Qed.

(** X16.  [calculateSimilarity] always lies between 0 and 1, and it is 1
    exactly when the two texts are the same. *)
Theorem similarity_one_iff_same (str1 str2 : string) :
  (0 <= calculateSimilarity str1 str2 <= 1)%Q
  /\ (calculateSimilarity str1 str2 == 1 <-> str1 = str2)%Q.
Proof.
  unfold calculateSimilarity.
  destruct str1 as [|c1 t1].
  { destruct str2 as [|c2 t2]; cbn.
    - split; [split; discriminate|]. split; reflexivity.
    - split; [split; discriminate|]. split; discriminate. }
  destruct str2 as [|c2 t2].
  { cbn. split; [split; discriminate|]. split; discriminate. }
  set (s1 := String c1 t1). set (s2 := String c2 t2).
  change (String.length s1 =? 0)%nat with false.
  change (String.length s2 =? 0)%nat with false. cbv iota zeta.
  pose proof (fillMatrix_rowOf (list_ascii_of_string s2) (list_ascii_of_string s1) nil _
                (rowOf_first (list_ascii_of_string s2))) as [_ Hrow].
  cbn [app] in Hrow. rewrite !length_list_ascii in Hrow.
  specialize (Hrow (String.length s2) (le_n _)).
  destruct Hrow as [Hb Hz].
  assert (Hall : firstn (String.length s2) (list_ascii_of_string s2) = list_ascii_of_string s2)
    by (rewrite <- (length_list_ascii s2); apply firstn_all).
  rewrite Hall in Hz. clear Hall.
  set (d := nth (String.length s2) _ 0%nat) in *.
  set (m := Nat.max (String.length s1) (String.length s2)) in *.
  assert (Hm : (0 < m)%nat) by (subst m s1; cbn [String.length]; lia).
  clearbody d m.
  assert (HmQ : (0 < inject_Z (Z.of_nat m))%Q)
    by (change 0%Q with (inject_Z 0); rewrite <- Zlt_Qlt; lia).
  assert (Hne : ~ (inject_Z (Z.of_nat m) == 0)%Q) by (intros H; rewrite H in HmQ; discriminate).
  assert (Hd : (inject_Z (Z.of_nat m) - inject_Z (Z.of_nat d) == inject_Z (Z.of_nat m - Z.of_nat d))%Q)
    by (unfold Z.sub; rewrite inject_Z_plus, inject_Z_opp; reflexivity).
  split; [split|split].
  - apply Qle_shift_div_l; [exact HmQ|]. rewrite Qmult_0_l, Hd.
    change 0%Q with (inject_Z 0). rewrite <- Zle_Qle. lia.
  - apply Qle_shift_div_r; [exact HmQ|]. rewrite Qmult_1_l, Hd.
    rewrite <- Zle_Qle. lia.
  - intros H. apply list_ascii_inj, Hz.
    assert (H' : (inject_Z (Z.of_nat m - Z.of_nat d) == inject_Z (Z.of_nat m))%Q).
    { rewrite <- Hd.
      transitivity (inject_Z (Z.of_nat m)
                    * ((inject_Z (Z.of_nat m) - inject_Z (Z.of_nat d)) / inject_Z (Z.of_nat m)))%Q.
      - symmetry. apply Qmult_div_r. exact Hne.
      - rewrite H. ring. }
    apply (proj1 (inject_Z_injective _ _)) in H'. lia.
  - intros H. assert (H0 : d = 0%nat) by (apply Hz; rewrite H; reflexivity).
    rewrite H0. change (inject_Z (Z.of_nat 0)) with 0%Q.
    unfold Qminus. change (- 0)%Q with 0%Q. rewrite Qplus_0_r.
    field. exact Hne.
Qed.

(** ** The test handlers *)

Lemma spliceFirst_length found products :
  (length (spliceFirst found products)
   = length products - (if existsb found products then 1 else 0))%nat.
Proof.
  induction products as [|p rest IH]; [reflexivity|].
  cbn [spliceFirst existsb]. destruct (found p); cbn [orb length]; [lia|].
  rewrite IH. destruct (existsb found rest) eqn:E; [|lia].
  destruct rest; [discriminate E|]. cbn [length]. lia.
Qed.

Lemma spliceFirst_absent found products :
  existsb found products = false -> spliceFirst found products = products.
Proof.
  induction products as [|p rest IH]; [reflexivity|].
  cbn [spliceFirst existsb]. destruct (found p); [discriminate|].
  intros H. rewrite (IH H). reflexivity.
Qed.

Lemma band_truthy (q : Q) : (10 <= q)%Q -> Js.truthy q = true.
Proof.
  intros H. unfold Js.truthy. apply negb_true_iff.
  destruct (Qeq_bool q 0) eqn:E; [|reflexivity].
  apply Qeq_bool_eq in E. rewrite E in H. exfalso. exact (H eq_refl).
Qed.

Section TestHandlerFacts.

Variable jsMatch : Regex -> string -> option Match.
Variable execAll : Regex -> string -> list string.
Variable trim : string -> string.
Variable hostnameOf : string -> option string.
Variable callable : string -> Prop.

Lemma testHandler_succeeds url name targetPrice error w stored :
  reachable jsMatch execAll trim hostnameOf callable w ->
  let scraped := scrapePrice execAll hostnameOf url w in
  let newProduct := testProduct name url targetPrice (fst scraped) (clock (snd scraped)) in
  testHandler execAll hostnameOf url name targetPrice error w stored
  = (Success newProduct, snd scraped, (spliceFirst (hasUrl url) stored ++ newProduct :: nil)%list)
  /\ (10 <= p_currentPrice newProduct <= 5000)%Q.
Proof.
  intros Hw. cbn zeta.
  pose proof (scrapePrice_band jsMatch execAll trim hostnameOf callable url w Hw) as Hb.
  unfold testHandler. destruct (scrapePrice execAll hostnameOf url w) as [scrapedPrice w'].
  cbn [fst snd] in *. rewrite (band_truthy scrapedPrice (proj1 Hb)). cbn [negb].
  split; [reflexivity|exact Hb].
Qed.

End TestHandlerFacts.

(** X17.  In every state the process reaches, the two test handlers never take
    their failure branch: the scraped price is between 10 and 5000, and the
    handler stores a product with the fixed URL, name and target (400 on
    Amazon, 370 on eBay), that price as current price and only history
    entry, after taking out the first stored product with the same URL.
    They do not look at the free-tier ceiling: on a store without the test
    URL the store grows by one whatever its length, beyond three products
    too, and [add-product] then refuses every request. *)
Theorem test_handlers_ignore_the_ceiling
    (jsMatch : Regex -> string -> option Match) (execAll : Regex -> string -> list string)
    (trim : string -> string) (hostnameOf : string -> option string)
    (callable : string -> Prop) (encodeURIComponent : string -> string)
    (w : World) (stored : list Product) :
  reachable jsMatch execAll trim hostnameOf callable w ->
  forall handler url target,
    (handler = testAddProduct execAll hostnameOf
     /\ url = "https://www.amazon.com/s?k=apple+iphone+13+mini+128gb+unlocked"
     /\ target = 400%Q)
    \/ (handler = testAddEbayProduct execAll hostnameOf
        /\ url = "https://www.ebay.com/sch/i.html?_nkw=apple+iphone+13+mini+128gb+unlocked"
        /\ target = 370%Q) ->
    exists newProduct w' stored',
      handler w stored = (Success newProduct, w', stored')
      /\ stored' = (spliceFirst (hasUrl url) stored ++ newProduct :: nil)%list
      /\ p_url newProduct = Some url
      /\ p_name newProduct = "Apple iPhone 13 Mini 128GB Unlocked"
      /\ p_targetPrice newProduct = Some target
      /\ (10 <= p_currentPrice newProduct <= 5000)%Q
      /\ p_priceHistory newProduct
         = Some (mkHistory (p_currentPrice newProduct) None (clock w') :: nil)
      /\ (length stored <= length stored' <= S (length stored))%nat
      /\ (existsb (hasUrl url) stored = false ->
          stored' = (stored ++ newProduct :: nil)%list)
      /\ ((maxProductsFree <= length stored)%nat ->
          forall data w2,
            passesValidation data = true ->
            addProduct jsMatch trim encodeURIComponent (Some data) w2 stored'
            = (Failure errLimit, w2, stored')).
Proof.
  intros Hw handler url target Hh.
  assert (Hrun : exists name error,
             handler = testHandler execAll hostnameOf url name target error
             /\ name = "Apple iPhone 13 Mini 128GB Unlocked").
  { destruct Hh as [(-> & -> & ->)|(-> & -> & ->)]; eexists; eexists; split; reflexivity. }
  destruct Hrun as (name & error & -> & ->). clear Hh.
  destruct (testHandler_succeeds jsMatch execAll trim hostnameOf callable url
              "Apple iPhone 13 Mini 128GB Unlocked" target error w stored Hw) as [Hrun Hband].
  cbn zeta in Hrun, Hband. rewrite Hrun.
  eexists. eexists. eexists. split; [reflexivity|].
  split; [reflexivity|]. split; [reflexivity|]. split; [reflexivity|].
  split; [reflexivity|]. split; [exact Hband|]. split; [reflexivity|].
  assert (Hlen : (length stored
                  <= length (spliceFirst (hasUrl url) stored ++
                             testProduct "Apple iPhone 13 Mini 128GB Unlocked" url target
                               (fst (scrapePrice execAll hostnameOf url w))
                               (clock (snd (scrapePrice execAll hostnameOf url w))) :: nil)
                  <= S (length stored))%nat).
  { rewrite length_app, spliceFirst_length. cbn [length].
    destruct (existsb (hasUrl url) stored) eqn:E; [|lia].
    destruct stored; [discriminate E|]. cbn [length]. lia. }
  split; [exact Hlen|]. split.
  - intros Habs. rewrite (spliceFirst_absent _ _ Habs). reflexivity.
  - intros Hfull data w2 Hpass.
    destruct (passesValidation_parts data Hpass) as (Hf & (platforms & Hp & Hsel) & Ht).
    unfold addProduct. rewrite Hf, Hp, Ht.
    assert (Hnone : (negb (amazon platforms) && negb (ebay platforms)) = false)
      by (destruct (amazon platforms), (ebay platforms); try reflexivity; discriminate).
    rewrite Hnone.
    destruct (Nat.leb_spec maxProductsFree
                (length (spliceFirst (hasUrl url) stored ++
                         testProduct "Apple iPhone 13 Mini 128GB Unlocked" url target
                           (fst (scrapePrice execAll hostnameOf url w))
                           (clock (snd (scrapePrice execAll hostnameOf url w))) :: nil)));
      [reflexivity|lia].
Qed.

Lemma test_handlers_ignore_the_ceiling_witness :
  let stored := tracked "ipad" :: tracked "kindle" :: tracked "macbook" :: nil in
  exists newProduct w' stored',
    testAddProduct noExec (fun _ => None) (coldStart quiet) stored
    = (Success newProduct, w', stored')
    /\ length stored' = 4%nat.
Proof.
  destruct (test_handlers_ignore_the_ceiling bareMatch noExec id (fun _ => None) (fun _ => True) id
              (coldStart quiet)
              (tracked "ipad" :: tracked "kindle" :: tracked "macbook" :: nil)
              (reach_start _ _ _ _ _ quiet)
              (testAddProduct noExec (fun _ => None))
              "https://www.amazon.com/s?k=apple+iphone+13+mini+128gb+unlocked" 400%Q
              (or_introl (conj eq_refl (conj eq_refl eq_refl))))
    as (newProduct & w' & stored' & Hrun & Hst & _ & _ & _ & _ & _ & _ & Habs & _).
  exists newProduct, w', stored'. split; [exact Hrun|].
  rewrite (Habs eq_refl), length_app. reflexivity.
Defined.

(** ** The form of the renderer and the handler *)

Lemma handleAddProduct_sends trim parseFloatOf form data :
  handleAddProduct trim parseFloatOf form = Invoke data ->
  d_searchTerms data = trimmed trim (f_searchTerms form)
  /\ d_name data = trimmed trim (f_productName form)
  /\ (3 <= String.length (d_searchTerms data) <= 200)%nat
  /\ String.eqb (d_searchTerms data) "" = false
  /\ String.eqb (d_name data) "" = false
  /\ d_platforms data = Some (mkPlatforms (f_searchAmazon form) (f_searchEbay form))
  /\ (f_searchAmazon form || f_searchEbay form || f_searchGoogle form) = true
  /\ (forall t, d_targetPrice data = Some t -> Js.truthy t = true /\ (0 < t)%Q).
Proof.
  unfold handleAddProduct.
  destruct (String.eqb (trimmed trim (f_searchTerms form)) "") eqn:Es; [discriminate|].
  destruct (String.eqb (trimmed trim (f_productName form)) "") eqn:En; [discriminate|].
  cbn [orb].
  destruct (negb (f_searchAmazon form) && negb (f_searchEbay form) && negb (f_searchGoogle form))
    eqn:Ep; [discriminate|].
  destruct (match parseFloatOf _ with Some t => Js.truthy t && Js.Qleb t 0 | None => false end)
    eqn:Et; [discriminate|].
  destruct (Nat.ltb_spec (String.length (trimmed trim (f_searchTerms form))) 3); [discriminate|].
  destruct (Nat.ltb_spec 200 (String.length (trimmed trim (f_searchTerms form)))); [discriminate|].
  intros [= <-]. cbn [d_searchTerms d_name d_platforms d_targetPrice].
  split; [reflexivity|]. split; [reflexivity|]. split; [lia|].
  split; [exact Es|]. split; [exact En|]. split; [reflexivity|]. split.
  - destruct (f_searchAmazon form), (f_searchEbay form), (f_searchGoogle form);
      try reflexivity; discriminate.
  - intros t. destruct (parseFloatOf _) as [p|]; [|discriminate].
    destruct (Js.truthy p) eqn:E; [|discriminate]. intros [= <-].
    split; [exact E|].
    cbn [andb] in Et. unfold Js.Qleb in Et.
    apply Qnot_le_lt. intros Hle. apply Qle_bool_iff in Hle. congruence.
Qed.

(** X18.  What the form of the renderer sends to [add-product] has a query of
    3 to 200 characters, a name, and a target that is absent or positive.
    The form accepts a selection of Google alone, which the handler always
    refuses, with the message of no platform, leaving state and store as they
    were.  With Amazon or eBay selected, in a state the process reaches, with
    fewer than three products stored and a query that is no duplicate, the
    submission always ends with the success toast and one more product. *)
Theorem form_submission_at_the_handler
    (jsMatch : Regex -> string -> option Match) (execAll : Regex -> string -> list string)
    (trim : string -> string) (hostnameOf : string -> option string)
    (callable : string -> Prop) (encodeURIComponent : string -> string)
    (parseFloatOf : string -> option Q) (form : AddProductForm) (data : ProductData) :
  handleAddProduct trim parseFloatOf form = Invoke data ->
  (3 <= String.length (d_searchTerms data) <= 200)%nat
  /\ d_name data <> ""
  /\ d_platforms data = Some (mkPlatforms (f_searchAmazon form) (f_searchEbay form))
  /\ (forall t, d_targetPrice data = Some t -> (0 < t)%Q)
  /\ (f_searchAmazon form || f_searchEbay form = false ->
      f_searchGoogle form = true
      /\ forall w stored,
           submitAddProduct trim parseFloatOf jsMatch encodeURIComponent form w stored
           = (errPlatform, w, stored))
  /\ (f_searchAmazon form || f_searchEbay form = true ->
      forall w stored,
        reachable jsMatch execAll trim hostnameOf callable w ->
        (length stored < maxProductsFree)%nat ->
        isDuplicate stored (d_searchTerms data) = false ->
        exists newProduct w',
          submitAddProduct trim parseFloatOf jsMatch encodeURIComponent form w stored
          = (toastAdded, w', (stored ++ newProduct :: nil)%list)
          /\ p_name newProduct = d_name data
          /\ p_searchTerms newProduct = Some (d_searchTerms data)).
Proof.
  intros Hsend.
  destruct (handleAddProduct_sends trim parseFloatOf form data Hsend)
    as (Hs & Hn & Hlen & Hse & Hne & Hp & Hany & Ht).
  split; [exact Hlen|]. split.
  { intros H. rewrite H in Hne. discriminate. }
  split; [exact Hp|]. split; [intros t H; exact (proj2 (Ht t H))|]. split.
  - intros Hnone. apply orb_false_iff in Hnone as [Ha He].
    split; [rewrite Ha, He in Hany; exact Hany|].
    intros w stored. unfold submitAddProduct. rewrite Hsend.
    unfold addProduct. rewrite Hse, Hne, Hp. cbn [orb amazon ebay]. rewrite Ha, He.
    reflexivity.
  - intros Hsel w stored Hw Hroom Hdup.
    assert (Hpass : passesValidation data = true).
    { unfold passesValidation. rewrite Hse, Hne, Hp. cbn [orb negb andb amazon ebay].
      rewrite Hsel. cbn [andb].
      destruct (d_targetPrice data) as [t|]; [|reflexivity].
      destruct (Ht t eq_refl) as [Htr Hpos]. rewrite Htr. cbn [andb].
      apply negb_true_iff. unfold Js.Qleb.
      destruct (Qle_bool t 0) eqn:E; [|reflexivity].
      apply Qle_bool_iff in E. exfalso. exact (Qlt_not_le _ _ Hpos E). }
    destruct (addProduct_accepts jsMatch execAll trim hostnameOf callable encodeURIComponent
                data w stored Hw Hpass Hroom Hdup)
      as (newProduct & w' & Hrun & Hname & Hterms & _).
    exists newProduct, w'. unfold submitAddProduct. rewrite Hsend, Hrun.
    split; [reflexivity|]. split; [exact Hname|exact Hterms].
Qed.

Lemma form_submission_at_the_handler_witness :
  let form := mkForm (Some "ipad") (Some "iPad") None false false true in
  submitAddProduct id (fun _ => Some 0%Q) bareMatch id form (coldStart quiet) nil
  = (errPlatform, coldStart quiet, nil).
Proof.
  intros form.
  apply (form_submission_at_the_handler bareMatch noExec id (fun _ => None) (fun _ => True) id
           (fun _ => Some 0%Q) form
           (mkData "ipad" "iPad" (Some (mkPlatforms false false)) None) eq_refl).
  reflexivity.
Defined.

(** ** The savings shown by the renderer *)

Lemma mathMax_nonneg (q : Q) : (0 <= mathMax 0 q)%Q.
Proof.
  unfold mathMax. destruct (Js.Qltb 0 q) eqn:E.
  - apply Qltb_true in E. apply Qlt_le_weak. exact E.
  - apply Qle_refl.
Qed.

Lemma savings_by_history (product : Product) :
  calculateProductSavings product
  = match historyOf product with
    | nil => 0%Q
    | first :: _ => mathMax 0 (h_price first - p_currentPrice product)
    end.
Proof.
  unfold calculateProductSavings, historyOf.
  destruct (p_priceHistory product) as [[|first rest]|]; reflexivity.
Qed.

Lemma savings_nonneg (product : Product) : (0 <= calculateProductSavings product)%Q.
Proof.
  rewrite savings_by_history. destruct (historyOf product); [apply Qle_refl|apply mathMax_nonneg].
Qed.

Lemma totalSavings_from (products : list Product) : forall start : Q,
  (0 <= start)%Q ->
  (0 <= fold_left (fun total product => total + calculateProductSavings product) products start)%Q.
Proof.
  induction products as [|p rest IH]; intros start Hs; [exact Hs|].
  cbn [fold_left]. apply IH.
  replace 0%Q with (0 + 0)%Q by reflexivity.
  apply Qplus_le_compat; [exact Hs|apply savings_nonneg].
Qed.

Lemma entriesOf_nth (checks : list (Z * Q)) (i : nat) (c : Z * Q) :
  nth_error checks i = Some c ->
  nth_error (entriesOf checks) i = Some (mkHistory (snd c) None (fst c)).
Proof. intros H. unfold entriesOf. rewrite nth_error_map, H. reflexivity. Qed.

Lemma drop_head {A} (l : list A) (i : nat) (x : A) :
  nth_error l i = Some x -> exists rest, drop i l = x :: rest.
Proof.
  revert i. induction l as [|y l IH]; intros [|i] H; try discriminate.
  - injection H as ->. eexists. reflexivity.
  - cbn in H. apply IH in H. exact H.
Qed.

(** X19.  The savings the renderer shows for a product are never negative,
    and neither is their total; the number of active targets is at most the
    number of products.  For a product stored with one history entry and
    checked since: up to 99 checks, the savings are measured from the price it
    was stored with; from the 100th check on, the history has lost that
    entry, and they are measured from the price of the check made 100 checks
    before the end, whatever the price at the start was. *)
Theorem savings_baseline_moves
    (checks : list (Z * Q)) (product : Product) (stored : HistoryEntry)
    (products : list Product) :
  p_priceHistory product = Some (stored :: nil) ->
  checks <> nil ->
  let checked := fst (checkMany checks product) in
  (0 <= calculateProductSavings checked)%Q
  /\ (0 <= totalSavings (updateStats products))%Q
  /\ (activeTargets (updateStats products) <= totalProducts (updateStats products))%nat
  /\ ((length checks <= 99)%nat ->
      calculateProductSavings checked
      = mathMax 0 (h_price stored - p_currentPrice checked))
  /\ ((100 <= length checks)%nat ->
      exists c, nth_error checks (length checks - 100) = Some c
                /\ calculateProductSavings checked
                   = mathMax 0 (snd c - p_currentPrice checked)).
Proof.
  intros Hstored Hne. cbn zeta.
  split; [apply savings_nonneg|].
  split; [unfold updateStats; cbn [totalSavings]; apply totalSavings_from, Qle_refl|].
  split; [unfold updateStats; cbn [activeTargets totalProducts]; apply List.filter_length_le|].
  pose proof (checkMany_history checks product Hne) as Hh.
  assert (Hp : historyOf product = stored :: nil) by (unfold historyOf; rewrite Hstored; reflexivity).
  rewrite Hp in Hh.
  assert (Hlen : length (entriesOf checks) = length checks) by apply length_map.
  split.
  - intros Hfew. rewrite savings_by_history, Hh.
    rewrite sliceLast_short by (rewrite length_app, Hlen; cbn [length]; lia).
    reflexivity.
  - intros Hmany.
    destruct (nth_error checks (length checks - 100)) as [c|] eqn:Ec.
    2:{ apply nth_error_None in Ec. lia. }
    exists c. split; [reflexivity|].
    rewrite savings_by_history, Hh. unfold sliceLast.
    rewrite length_app, Hlen. cbn [length].
    replace (1 + length checks - 100)%nat with (S (length checks - 100)) by lia.
    cbn [app drop].
    destruct (drop_head _ _ _ (entriesOf_nth _ _ _ Ec)) as [rest ->].
    reflexivity.
Qed.

Lemma savings_baseline_moves_witness :
  let product := testProduct "iPhone" "https://www.amazon.com/s?k=iphone" 400 500 0 in
  let checks := (1%Z, 450%Q) :: (2%Z, 420%Q) :: nil in
  calculateProductSavings (fst (checkMany checks product)) = mathMax 0 (500 - 420)%Q.
Proof.
  apply (savings_baseline_moves ((1%Z, 450%Q) :: (2%Z, 420%Q) :: nil)
           (testProduct "iPhone" "https://www.amazon.com/s?k=iphone" 400 500 0)
           (mkHistory 500 None 0) nil eq_refl).
  - discriminate.
  - cbn [length]. lia.
Defined.

(** ** The age shown for a timestamp *)

Example time_ago_ninety_minutes : getTimeAgo 5400000 (Some 0%Z) = "1h ago".
Proof. reflexivity. Qed.

Example time_ago_future : getTimeAgo 0 (Some 5000%Z) = "Just now".
Proof. reflexivity. Qed.

Lemma floor_bounds (a b : Z) : (0 < b)%Z -> (b * (a / b) <= a < b * (a / b + 1))%Z.
Proof.
  intros Hb. pose proof (Z.div_mod a b ltac:(lia)). pose proof (Z.mod_pos_bound a b Hb). lia.
Qed.

(** X20.  [getTimeAgo] shows [Just now] for a timestamp less than a minute
    old, and for one in the future; whole minutes from 1 to 59 below an hour;
    whole hours from 1 to 23 below a day; and whole days from then on, each
    rounded down; a missing timestamp shows [Never]. *)
Theorem time_ago_buckets (now date : Z) :
  let shown := getTimeAgo now (Some date) in
  let age := (now - date)%Z in
  getTimeAgo now None = "Never"
  /\ ((age < 60000)%Z -> shown = "Just now")
  /\ ((60000 <= age < 3600000)%Z ->
      exists m, (1 <= m <= 59)%Z /\ (m * 60000 <= age < (m + 1) * 60000)%Z
                /\ shown = numberText m ++ "m ago")
  /\ ((3600000 <= age < 86400000)%Z ->
      exists h, (1 <= h <= 23)%Z /\ (h * 3600000 <= age < (h + 1) * 3600000)%Z
                /\ shown = numberText h ++ "h ago")
  /\ ((86400000 <= age)%Z ->
      exists d, (1 <= d)%Z /\ (d * 86400000 <= age < (d + 1) * 86400000)%Z
                /\ shown = numberText d ++ "d ago").
Proof.
  cbn zeta. unfold getTimeAgo. set (age := (now - date)%Z).
  pose proof (floor_bounds age 60000 eq_refl) as Hm.
  pose proof (floor_bounds (age / 60000) 60 eq_refl) as Hh.
  pose proof (floor_bounds (age / 60000 / 60) 24 eq_refl) as Hd.
  set (mins := (age / 60000)%Z) in *.
  set (hours := (mins / 60)%Z) in *.
  set (days := (hours / 24)%Z) in *.
  clearbody age mins hours days.
  split; [reflexivity|]. split; [|split; [|split]].
  - intros H. destruct (Z.ltb_spec mins 1); [reflexivity|lia].
  - intros H. exists mins.
    destruct (Z.ltb_spec mins 1); [lia|]. destruct (Z.ltb_spec mins 60); [|lia].
    split; [lia|]. split; [lia|reflexivity].
  - intros H. exists hours.
    destruct (Z.ltb_spec mins 1); [lia|]. destruct (Z.ltb_spec mins 60); [lia|].
    destruct (Z.ltb_spec hours 24); [|lia].
    split; [lia|]. split; [lia|reflexivity].
  - intros H. exists days.
    destruct (Z.ltb_spec mins 1); [lia|]. destruct (Z.ltb_spec mins 60); [lia|].
    destruct (Z.ltb_spec hours 24); [lia|].
    split; [lia|]. split; [lia|reflexivity].
Qed.
